(** * S_FlowFormer: the cost-volume encoder, its tensor plumbing and utilities

    A shallow embedding of [core/encoder.py], [core/twins.py],
    [core/utils/utils.py] and [core/transformer.py].  Two views of a tensor
    are used:

    - [Tensor]: a tensor with its entries, stored row-major (the logical
      order PyTorch exposes through indexing), entries in exact integer
      arithmetic.  Used for [MemoryEncoder.corr], where the content of the
      cost volume matters; [Float32] repeats [corr] with the rounding of
      float32, for what rounding changes.
    - [Shp]: a tensor reduced to its shape.  Every exception the attention
      and tokenizer code can raise is decided by shapes, argument counts and
      configuration integers, never by the floating-point payload.

    Python exceptions are values of [Py.exn]; a Python function is a
    function into [Py.result]. *)

From Stdlib Require Import ZArith List Lia Bool Arith PeanoNat String.
From Stdlib Require Import DecimalString.
Import ListNotations.

(* ================================================================== *)
(** * Part I: the embedding *)
(* ================================================================== *)

(** ** Python: exceptions, integer division, calls *)

Module Py.

Inductive exn : Type :=
| TypeError (msg : string)
| ValueError (msg : string)
| AttributeError (msg : string)
| AssertionError (msg : string)
| RuntimeError (msg : string)
| ZeroDivisionError
| IndexError.

Inductive result (A : Type) : Type :=
| Ok (a : A)
| Raise (e : exn).

Arguments Ok {A} a.
Arguments Raise {A} e.

Definition bind {A B : Type} (m : result A) (k : A -> result B) : result B :=
  match m with
  | Ok a => k a
  | Raise e => Raise e
  end.

Definition fmap {A B : Type} (f : A -> B) (m : result A) : result B :=
  match m with
  | Ok a => Ok (f a)
  | Raise e => Raise e
  end.

Definition is_ok {A : Type} (m : result A) : bool :=
  match m with
  | Ok _ => true
  | Raise _ => false
  end.

(** [a // b] and [a % b] on non-negative integers. *)
Definition floordiv (a b : nat) : result nat :=
  if b =? 0 then Raise ZeroDivisionError else Ok (a / b).

Definition pymod (a b : nat) : result nat :=
  if b =? 0 then Raise ZeroDivisionError else Ok (a mod b).

(** [str(n)] for a non-negative integer, as an f-string prints it. *)
Definition str (n : nat) : string := NilEmpty.string_of_uint (Nat.to_uint n).

(** [assert cond, msg]. *)
Definition py_assert (cond : bool) (msg : string) : result unit :=
  if cond then Ok tt else Raise (AssertionError msg).

(** The names of the missing parameters as CPython lists them: ['a'],
    ['a' and 'b'], ['a', 'b', and 'c']. *)
Definition quoted (s : string) : string := ("'" ++ s ++ "'")%string.

Fixpoint names_and (names : list string) : string :=
  match names with
  | [] => EmptyString
  | [a] => ("and " ++ quoted a)%string
  | a :: rest => (quoted a ++ ", " ++ names_and rest)%string
  end.

Definition missing_names (names : list string) : string :=
  match names with
  | [] => EmptyString
  | [a] => quoted a
  | [a; b] => (quoted a ++ " and " ++ quoted b)%string
  | _ => names_and names
  end.

Definition plural (n : nat) : string := if n =? 1 then EmptyString else "s"%string.

(** Binding positional arguments to a [def] with the parameters [params],
    none of them with a default and no [*args]: any other count is a
    [TypeError], with CPython's message for too many and for too few
    arguments. *)
Definition arity_error (name : string) (params : list string) (nargs : nat) : exn :=
  let nparams := List.length params in
  if nparams <? nargs then
    TypeError (name ++ "() takes " ++ str nparams ++ " positional argument"
               ++ plural nparams ++ " but " ++ str nargs
               ++ (if Nat.eqb nargs 1 then " was" else " were") ++ " given")%string
  else
    let missing := skipn nargs params in
    TypeError (name ++ "() missing " ++ str (List.length missing)
               ++ " required positional argument" ++ plural (List.length missing)
               ++ ": " ++ missing_names missing)%string.

Definition bind_positional (name : string) (params : list string) {A : Type}
    (args : list A) : result (list A) :=
  if List.length args =? List.length params then Ok args
  else Raise (arity_error name params (List.length args)).

End Py.

Export Py.

Declare Scope py_scope.
Delimit Scope py_scope with py.
Notation "x <- e ;; k" := (Py.bind e (fun x => k))
  (at level 61, e at next level, right associativity) : py_scope.
Notation "' pat <- e ;; k" := (Py.bind e (fun x => match x with pat => k end))
  (at level 61, pat pattern, e at next level, right associativity) : py_scope.
Notation "e ;;; k" := (Py.bind e (fun _ => k))
  (at level 61, right associativity) : py_scope.
Open Scope py_scope.

(** ** Tensors with entries *)

Module Tensor.

(** Number of entries of a shape. *)
Definition numel (s : list nat) : nat := fold_right Nat.mul 1 s.

(** Row-major offset of a multi-index, and its inverse. *)
Fixpoint ravel (s idx : list nat) : nat :=
  match s, idx with
  | _ :: s', i :: idx' => i * numel s' + ravel s' idx'
  | _, _ => 0
  end.

Fixpoint unravel (s : list nat) (k : nat) : list nat :=
  match s with
  | [] => []
  | _ :: s' => k / numel s' :: unravel s' (k mod numel s')
  end.

Fixpoint in_bounds (s idx : list nat) : Prop :=
  match s, idx with
  | [], [] => True
  | n :: s', i :: idx' => i < n /\ in_bounds s' idx'
  | _, _ => False
  end.

Record tensor : Type := mk { shape : list nat; data : list Z }.

Definition wf (t : tensor) : Prop := List.length (data t) = numel (shape t).

(** [t[i0, ..., ik]]. *)
Definition get (t : tensor) (idx : list nat) : Z :=
  nth (ravel (shape t) idx) (data t) 0%Z.

(** The tensor of shape [s] whose entry at [idx] is [f idx]. *)
Definition init (s : list nat) (f : list nat -> Z) : tensor :=
  mk s (map (fun k => f (unravel s k)) (seq 0 (numel s))).

Definition sumZ (n : nat) (f : nat -> Z) : Z :=
  fold_right Z.add 0%Z (map f (seq 0 n)).

(** Dot product of two [d]-vectors given by their components. *)
Definition dot (d : nat) (u v : nat -> Z) : Z :=
  sumZ d (fun c => (u c * v c)%Z).

(** [t.view] and [t.reshape] with explicit sizes.  Every [view] of
    [corr] is applied to a contiguous tensor, where it agrees with [reshape]:
    the entries keep their logical order. *)
Definition view (s : list nat) (t : tensor) : result tensor :=
  if numel s =? numel (shape t) then Ok (mk s (data t))
  else Raise (RuntimeError "shape is invalid for input size").

Definition reshape (s : list nat) (t : tensor) : result tensor := view s t.

Definition is_perm (dims : list nat) (rank : nat) : bool :=
  (List.length dims =? rank)
  && forallb (fun a => existsb (Nat.eqb a) dims) (seq 0 rank).

Fixpoint index_of (a : nat) (dims : list nat) : nat :=
  match dims with
  | [] => 0
  | b :: dims' => if a =? b then 0 else S (index_of a dims')
  end.

(** The source index read by entry [idx] of [t.permute] with [dims]: axis
    [dims[k]] of the source carries [idx[k]]. *)
Definition unpermute (dims idx : list nat) : list nat :=
  map (fun a => nth (index_of a dims) idx 0) (seq 0 (List.length dims)).

Definition permute (dims : list nat) (t : tensor) : result tensor :=
  if is_perm dims (List.length (shape t)) then
    Ok (init (map (fun a => nth a (shape t) 0) dims)
             (fun idx => get t (unpermute dims idx)))
  else Raise (RuntimeError "permute: dims do not match the tensor").

Definition swap (d0 d1 : nat) (dims : list nat) : list nat :=
  map (fun a => if a =? d0 then d1 else if a =? d1 then d0 else a) dims.

(** [t.transpose(d0, d1)]. *)
Definition transpose (d0 d1 : nat) (t : tensor) : result tensor :=
  permute (swap d0 d1 (seq 0 (List.length (shape t)))) t.

(** [torch.bmm(a, b)]. *)
Definition bmm (a b : tensor) : result tensor :=
  match shape a, shape b with
  | [n; p; q], [n'; q'; r] =>
      if (n =? n') && (q =? q') then
        Ok (init [n; p; r]
              (fun idx =>
                 match idx with
                 | [i; j; l] => sumZ q (fun c => (get a [i; j; c] * get b [i; c; l])%Z)
                 | _ => 0%Z
                 end))
      else Raise (RuntimeError "bmm: batch or inner sizes differ")
  | _, _ => Raise (RuntimeError "bmm: batch1 and batch2 must be 3D tensors")
  end.

(** [s * t] for a scalar [s], every product taken exactly: this is the
    float32 product for [s = 1] and [s = -1]; [Float32.scale32] rounds. *)
Definition scale (s : Z) (t : tensor) : tensor :=
  mk (shape t) (map (Z.mul s) (data t)).

End Tensor.

(** Sample feature maps: one image, two channels, a 1 x 2 grid. *)

Module CorrSamples.
Import Tensor.

Definition fmap_a : tensor := mk [1; 2; 1; 2] [1; 2; 3; 4]%Z.
Definition fmap_b : tensor := mk [1; 2; 1; 2] [5; 6; 7; 8]%Z.

End CorrSamples.

(** ** [InputPadder] (core/utils/utils.py) *)

Module InputPadder.

Inductive pad_mode : Type := sintel | kitti400 | other_mode.

(** A batch of images of shape [(N, C, H, W)]: [N * C] planes, each a list of
    [H] rows of [W] entries. *)
Record image : Type := mk_image {
  img_N : nat;
  img_C : nat;
  img_H : nat;
  img_W : nat;
  planes : list (list (list Z))
}.

Definition image_shape (x : image) : list nat :=
  [img_N x; img_C x; img_H x; img_W x].

Definition wf_image (x : image) : Prop :=
  List.length (planes x) = img_N x * img_C x /\
  Forall (fun p => List.length p = img_H x /\
                   Forall (fun r => List.length r = img_W x) p) (planes x).

(** The padder object: [self.ht], [self.wd], [self._pad]. *)
Record t : Type := mk_padder { ht : nat; wd : nat; _pad : list Z }.

(** [InputPadder.__init__(dims, mode)]. *)
Definition init (dims : list nat) (mode : pad_mode) : result t :=
  match rev dims with
  | w :: h :: _ =>
      let pad_ht := Z.of_nat ((((h / 8) + 1) * 8 - h) mod 8) in
      let pad_wd := Z.of_nat ((((w / 8) + 1) * 8 - w) mod 8) in
      Ok (mk_padder h w
            match mode with
            | sintel =>
                [pad_wd / 2; pad_wd - pad_wd / 2; pad_ht / 2; pad_ht - pad_ht / 2]
            | kitti400 => [0; 0; 0; 400 - Z.of_nat h]
            | other_mode => [pad_wd / 2; pad_wd - pad_wd / 2; 0; pad_ht]
            end%Z)
  | _ => Raise (ValueError "not enough values to unpack (expected 2)")
  end.

(** One side of a replicate padding: [n] copies of the edge entry, or, for a
    negative [n], a crop of [-n] entries. *)
Definition pad_front {A : Type} (n : Z) (a : A) (l : list A) : list A :=
  if (0 <=? n)%Z then repeat a (Z.to_nat n) ++ l else skipn (Z.to_nat (- n)) l.

Definition pad_back {A : Type} (n : Z) (a : A) (l : list A) : list A :=
  if (0 <=? n)%Z then l ++ repeat a (Z.to_nat n)
  else firstn (List.length l - Z.to_nat (- n)) l.

Definition replicate_pad {A : Type} (before after : Z) (d : A) (l : list A) : list A :=
  pad_back after (last l d) (pad_front before (hd d l) l).

(** [F.pad(x, [l, r, t, b], mode='replicate')] on a 4-D input: the last axis
    gets [l] and [r], the one before [t] and [b].  PyTorch refuses an input
    whose channel or spatial sizes are zero, and an output without rows or
    columns. *)
Definition F_pad_replicate (pad : list Z) (x : image) : result image :=
  match pad with
  | [l; r; t; b] =>
      if (img_C x =? 0) || (img_H x =? 0) || (img_W x =? 0) then
        Raise (RuntimeError "replication_pad2d: zero-size channel or spatial dimension")
      else
        let W' := (Z.of_nat (img_W x) + l + r)%Z in
        let H' := (Z.of_nat (img_H x) + t + b)%Z in
        if (W' <? 1)%Z || (H' <? 1)%Z then
          Raise (RuntimeError "replication_pad2d: output size is too small")
        else
          Ok (mk_image (img_N x) (img_C x) (Z.to_nat H') (Z.to_nat W')
                (map (fun p => replicate_pad t b [] (map (replicate_pad l r 0%Z) p))
                     (planes x)))
  | _ => Raise (RuntimeError "padding length must be 4 for a 4-D replicate pad")
  end.

Fixpoint mapM {A B : Type} (f : A -> result B) (l : list A) : result (list B) :=
  match l with
  | [] => Ok []
  | a :: l' => b <- f a ;; bs <- mapM f l' ;; Ok (b :: bs)
  end.

(** [InputPadder.pad]: the inputs themselves when nothing is to be padded. *)
Definition pad (self : t) (inputs : list image) : result (list image) :=
  if (fold_right Z.add 0 (_pad self) =? 0)%Z then Ok inputs
  else mapM (F_pad_replicate (_pad self)) inputs.

(** A slice bound [i] of a sequence of length [n], as Python normalises it. *)
Definition clamp_index (n : nat) (i : Z) : nat :=
  if (i <? 0)%Z then Z.to_nat (Z.max 0 (i + Z.of_nat n))
  else Nat.min (Z.to_nat i) n.

(** [l[lo:hi]]. *)
Definition py_slice {A : Type} (lo hi : Z) (l : list A) : list A :=
  let n := List.length l in
  firstn (clamp_index n hi - clamp_index n lo) (skipn (clamp_index n lo) l).

Definition slice_len (n : nat) (lo hi : Z) : nat :=
  Nat.min (clamp_index n hi - clamp_index n lo) (n - clamp_index n lo).

(** [InputPadder.unpad]. *)
Definition unpad (self : t) (x : image) : image :=
  let c0 := nth 2 (_pad self) 0%Z in
  let c1 := (Z.of_nat (img_H x) - nth 3 (_pad self) 0)%Z in
  let c2 := nth 0 (_pad self) 0%Z in
  let c3 := (Z.of_nat (img_W x) - nth 1 (_pad self) 0)%Z in
  mk_image (img_N x) (img_C x)
    (slice_len (img_H x) c0 c1) (slice_len (img_W x) c2 c3)
    (map (fun p => map (py_slice c2 c3) (py_slice c0 c1 p)) (planes x)).

(** A sample image: one plane of 3 rows and 5 columns. *)
Definition sample_image : image :=
  mk_image 1 1 3 5
    [[[1; 2; 3; 4; 5]; [6; 7; 8; 9; 10]; [11; 12; 13; 14; 15]]]%Z.

End InputPadder.

(** ** [bilinear_sampler] and [indexing] (core/utils/utils.py)

    Python passes tensors by reference: [store] maps an object to its current
    content, and a function is a state transformer that may raise.  The
    floating-point operations on entries and [F.grid_sample] are parameters. *)

Module Sampler.

Section Entries.

Context {elt : Type}.
(** [k * c], [c / k], [c - k] and the comparisons [c > k], [c < k] of an entry
    with a Python integer. *)
Variable mul_int : Z -> elt -> elt.
Variable div_int : elt -> Z -> elt.
Variable sub_int : elt -> Z -> elt.
Variable gt_int : elt -> Z -> bool.
Variable lt_int : elt -> Z -> bool.

(** A coordinate tensor: the vectors along its last axis, in logical order. *)
Record ctensor : Type := mk_ctensor { last_dim : nat; vecs : list (list elt) }.

Definition wf_ctensor (t : ctensor) : Prop :=
  Forall (fun v => List.length v = last_dim t) (vecs t).

(** The image being sampled: [img.shape[-2:]] and its content. *)
Context {pixels : Type}.
Record image : Type := mk_image { img_H : nat; img_W : nat; content : pixels }.

Context {sampled : Type}.
(** [F.grid_sample(img, grid, align_corners=True, mode=...)]; [nearest] tells
    the mode. *)
Variable grid_sample : image -> ctensor -> bool -> result sampled.

Definition ref : Type := nat.
Definition store : Type := ref -> ctensor.

Definition upd (st : store) (r : ref) (t : ctensor) : store :=
  fun r' => if r' =? r then t else st r'.

Definition M (A : Type) : Type := store -> store * result A.

Definition ret {A : Type} (a : A) : M A := fun st => (st, Ok a).

Definition bindM {A B : Type} (m : M A) (k : A -> M B) : M B :=
  fun st =>
    match m st with
    | (st', Ok a) => k a st'
    | (st', Raise e) => (st', Raise e)
    end.

Definition read (r : ref) : M ctensor := fun st => (st, Ok (st r)).

Definition lift {A : Type} (m : result A) : M A := fun st => (st, m).

Fixpoint update_nth (k : nat) (f : elt -> elt) (v : list elt) : list elt :=
  match v, k with
  | [], _ => []
  | x :: v', 0 => f x :: v'
  | x :: v', S k' => x :: update_nth k' f v'
  end.

(** [t[..., k] = f(t[..., k])], written into the object [r] itself. *)
Definition setitem_last (r : ref) (k : nat) (f : elt -> elt) : M unit :=
  fun st =>
    if k <? last_dim (st r) then
      (upd st r (mk_ctensor (last_dim (st r)) (map (update_nth k f) (vecs (st r)))),
       Ok tt)
    else (st, Raise IndexError).

(** [2 * c / (n - 1) - 1]. *)
Definition normalize (n : nat) (c : elt) : elt :=
  sub_int (div_int (mul_int 2 c) (Z.of_nat n - 1)) 1.

Definition bilinear_sampler (img : image) (coords : ref) : M sampled :=
  let H := img_H img in
  let W := img_W img in
  bindM (setitem_last coords 0 (normalize W)) (fun _ =>
  bindM (setitem_last coords 1 (normalize H)) (fun _ =>
  bindM (read coords) (fun grid =>
  lift (grid_sample img grid false)))).

(** [coords.split([1, 1], dim=-1)]. *)
Definition split_1_1 (t : ctensor) : result (ctensor * ctensor) :=
  if last_dim t =? 2 then
    Ok (mk_ctensor 1 (map (firstn 1) (vecs t)),
        mk_ctensor 1 (map (fun v => firstn 1 (skipn 1 v)) (vecs t)))
  else Raise (RuntimeError "split_with_sizes expects split_sizes to sum to the dimension size").

Definition map_entries (f : elt -> elt) (t : ctensor) : ctensor :=
  mk_ctensor (last_dim t) (map (map f) (vecs t)).

(** [torch.cat([a, b], dim=-1)] of two tensors with as many vectors. *)
Definition cat_last (a b : ctensor) : ctensor :=
  mk_ctensor (last_dim a + last_dim b)
    (map (fun p => fst p ++ snd p) (combine (vecs a) (vecs b))).

Definition indexing (img : image) (coords : ref) (mask : bool)
  : M (sampled * option (list (list bool))) :=
  let H := img_H img in
  let W := img_W img in
  bindM (read coords) (fun c =>
  bindM (lift (split_1_1 c)) (fun xy =>
  let xgrid := map_entries (normalize W) (fst xy) in
  let ygrid := map_entries (normalize H) (snd xy) in
  let grid := cat_last xgrid ygrid in
  bindM (lift (grid_sample img grid true)) (fun out =>
  if mask then
    ret (out,
         Some (map (fun p =>
                      map (fun q => gt_int (fst q) (-1) && gt_int (snd q) (-1)
                                    && lt_int (fst q) 1 && lt_int (snd q) 1)
                          (combine (fst p) (snd p)))
                   (combine (vecs xgrid) (vecs ygrid))))
  else ret (out, None)))).

(** What the claim calls the normalized coordinates of a vector [(x, y, ...)]. *)
Definition normalized_vec (img : image) (v : list elt) : list elt :=
  match v with
  | x :: y :: rest => normalize (img_W img) x :: normalize (img_H img) y :: rest
  | [x] => [normalize (img_W img) x]
  | [] => []
  end.

End Entries.

Arguments ctensor elt : clear implicits.
Arguments image pixels : clear implicits.
Arguments store elt : clear implicits.

(** Sample store: object 0 holds two pixel coordinates, with rational-free
    symbolic entries so that the rewriting can be read off. *)
Inductive expr : Type :=
| Num (z : Z)
| Mul (k : Z) (e : expr)
| Div (e : expr) (k : Z)
| Sub (e : expr) (k : Z).

Definition sample_store : store expr :=
  fun r => if r =? 0
           then mk_ctensor 2 [[Num 3; Num 1]; [Num 0; Num 2]]
           else mk_ctensor 2 [].

Definition sample_image : image unit := mk_image 5 9 tt.

End Sampler.

(** ** Tensors reduced to their shape *)

Module Shp.

Definition shp : Type := list nat.

Definition numel (s : shp) : nat := fold_right Nat.mul 1 s.

(** A size passed to [view] or [reshape]: a number, or [-1]. *)
Inductive size : Type := D (n : nat) | Infer.

Definition known (spec : list size) : nat :=
  fold_right (fun z acc => match z with D n => n * acc | Infer => acc end) 1 spec.

Definition n_infer (spec : list size) : nat :=
  List.length (filter (fun z => match z with Infer => true | D _ => false end) spec).

Definition fill (m : nat) (spec : list size) : shp :=
  map (fun z => match z with D n => n | Infer => m end) spec.

(** [t.view] and [t.reshape] with the sizes [spec]: same sizes accepted, same shape
    returned (they differ in when the entries are copied). *)
Definition view (spec : list size) (s : shp) : result shp :=
  match n_infer spec with
  | 0 =>
      if known spec =? numel s then Ok (fill 0 spec)
      else Raise (RuntimeError "shape is invalid for input size")
  | 1 =>
      if known spec =? 0 then
        Raise (RuntimeError "cannot infer the unspecified dimension")
      else if numel s mod known spec =? 0 then Ok (fill (numel s / known spec) spec)
      else Raise (RuntimeError "shape is invalid for input size")
  | _ => Raise (RuntimeError "only one dimension can be inferred")
  end.

Definition reshape (spec : list size) (s : shp) : result shp := view spec s.

Definition is_perm (dims : list nat) (rank : nat) : bool :=
  (List.length dims =? rank)
  && forallb (fun a => existsb (Nat.eqb a) dims) (seq 0 rank).

Definition permute (dims : list nat) (s : shp) : result shp :=
  if is_perm dims (List.length s) then Ok (map (fun a => nth a s 0) dims)
  else Raise (RuntimeError "permute: dims do not match the tensor").

Definition transpose (d0 d1 : nat) (s : shp) : result shp :=
  if (d0 <? List.length s) && (d1 <? List.length s) then
    Ok (map (fun a => nth (if a =? d0 then d1 else if a =? d1 then d0 else a) s 0)
            (seq 0 (List.length s)))
  else Raise IndexError.

Definition unpack3 (s : shp) : result (nat * nat * nat) :=
  match s with
  | [a; b; c] => Ok (a, b, c)
  | _ => Raise (ValueError "wrong number of values to unpack (expected 3)")
  end.

Definition unpack4 (s : shp) : result (nat * nat * nat * nat) :=
  match s with
  | [a; b; c; d] => Ok (a, b, c, d)
  | _ => Raise (ValueError "wrong number of values to unpack (expected 4)")
  end.

Definition unpack6 (s : shp) : result (nat * nat * nat * nat * nat * nat) :=
  match s with
  | [a; b; c; d; e; f] => Ok (a, b, c, d, e, f)
  | _ => Raise (ValueError "wrong number of values to unpack (expected 6)")
  end.

(** [t.shape[0]]. *)
Definition shape0 (s : shp) : result nat :=
  match s with
  | n :: _ => Ok n
  | [] => Raise IndexError
  end.

(** [t[0]]. *)
Definition index0 (s : shp) : result shp :=
  match s with
  | 0 :: _ => Raise IndexError
  | _ :: s' => Ok s'
  | [] => Raise IndexError
  end.

Definition set_last (n : nat) (s : shp) : shp := removelast s ++ [n].

(** [nn.Linear(in_f, out_f)] applied to a tensor. *)
Definition linear (in_f out_f : nat) (s : shp) : result shp :=
  match s with
  | [] => Raise (RuntimeError "linear: input has no dimension")
  | _ =>
      if last s 0 =? in_f then Ok (set_last out_f s)
      else Raise (RuntimeError "mat1 and mat2 shapes cannot be multiplied")
  end.

(** [nn.LayerNorm(d)] applied to a tensor. *)
Definition layer_norm (d : nat) (s : shp) : result shp :=
  match s with
  | [] => Raise (RuntimeError "layer_norm: input has no dimension")
  | _ =>
      if last s 0 =? d then Ok s
      else Raise (RuntimeError "layer_norm: normalized_shape does not match the input")
  end.

Definition conv_out (n k stride padding : nat) : nat :=
  (n + 2 * padding - k) / stride + 1.

(** [nn.Conv2d(in_c, out_c, kernel_size=k, stride=stride, padding=padding)]
    applied to a batched or unbatched input.  A layer without input or
    without output channels is constructed, but its convolution raises. *)
Definition conv2d (in_c out_c k stride padding : nat) (s : shp) : result shp :=
  let out (C H W : nat) (mk : nat -> nat -> shp) : result shp :=
    if stride =? 0 then Raise (RuntimeError "non-positive stride is not supported")
    else if (in_c =? 0) || (out_c =? 0) then
      Raise (RuntimeError "conv2d: the weight has no input or no output channels")
    else if negb (C =? in_c) then
      Raise (RuntimeError "conv2d: input channels do not match the weight")
    else if (H + 2 * padding <? k) || (W + 2 * padding <? k) then
      Raise (RuntimeError "conv2d: kernel size is greater than the padded input size")
    else Ok (mk (conv_out H k stride padding) (conv_out W k stride padding)) in
  match s with
  | [N; C; H; W] => out C H W (fun h w => [N; out_c; h; w])
  | [C; H; W] => out C H W (fun h w => [out_c; h; w])
  | _ => Raise (RuntimeError "conv2d: expected a 3-D or 4-D input")
  end.

(** [F.pad(t, pads)] with the default constant mode: [pads] lists the
    (before, after) amounts from the last axis backwards. *)
Fixpoint pad_rev (pads : list (nat * nat)) (rs : list nat) : result (list nat) :=
  match pads, rs with
  | [], _ => Ok rs
  | (a, b) :: pads', n :: rs' => rest <- pad_rev pads' rs' ;; Ok (a + n + b :: rest)
  | _ :: _, [] => Raise (RuntimeError "padding length too large for the input")
  end.

Definition F_pad (pads : list (nat * nat)) (s : shp) : result shp :=
  fmap (@rev nat) (pad_rev pads (rev s)).

(** [torch.cat([a, b], dim=axis)]. *)
Fixpoint cat (axis : nat) (a b : shp) : result shp :=
  match a, b, axis with
  | x :: a', y :: b', 0 =>
      if list_eq_dec Nat.eq_dec a' b' then Ok (x + y :: a')
      else Raise (RuntimeError "cat: sizes must match except in the cat dimension")
  | x :: a', y :: b', S axis' =>
      if x =? y then fmap (cons x) (cat axis' a' b')
      else Raise (RuntimeError "cat: sizes must match except in the cat dimension")
  | _, _, _ => Raise (IndexError)
  end.

(** Broadcasting of two shapes, aligned on the last axis. *)
Fixpoint broadcast_rev (ra rb : list nat) : result (list nat) :=
  match ra, rb with
  | [], _ => Ok rb
  | _, [] => Ok ra
  | x :: ra', y :: rb' =>
      rest <- broadcast_rev ra' rb' ;;
      if x =? y then Ok (x :: rest)
      else if x =? 1 then Ok (y :: rest)
      else if y =? 1 then Ok (x :: rest)
      else Raise (RuntimeError "the sizes of the tensors must match")
  end.

(** The shape of [a + b]. *)
Definition add (a b : shp) : result shp :=
  fmap (@rev nat) (broadcast_rev (rev a) (rev b)).

(** [t.repeat] with the counts [reps]. *)
Definition repeat_ (reps : list nat) (s : shp) : result shp :=
  if List.length reps <? List.length s then
    Raise (RuntimeError "number of repeat dims can not be smaller than number of tensor dims")
  else
    Ok (map (fun p => fst p * snd p)
            (combine reps (repeat 1 (List.length reps - List.length s) ++ s))).

(** [t.flatten(2)] of a tensor with at least three axes. *)
Definition flatten2 (s : shp) : result shp :=
  match s with
  | a :: b :: c :: rest => Ok [a; b; numel (c :: rest)]
  | _ => Raise IndexError
  end.

(** [a @ b] for tensors with at least two axes each. *)
Definition matmul (a b : shp) : result shp :=
  match rev a, rev b with
  | m :: n :: ba, p :: m' :: bb =>
      if m =? m' then
        batch <- broadcast_rev ba bb ;; Ok (rev batch ++ [n; p])
      else Raise (RuntimeError "mat1 and mat2 shapes cannot be multiplied")
  | _, _ => Raise (RuntimeError "matmul: expected at least two axes")
  end.

(** [t[:, :H, :W, :]] on a 4-D tensor. *)
Definition crop_hw (H W : nat) (s : shp) : result shp :=
  match s with
  | [b; h; w; c] => Ok [b; Nat.min H h; Nat.min W w; c]
  | _ => Raise IndexError
  end.

(** [t[:, None, None, :, :, :]] on a 4-D tensor. *)
Definition unsqueeze_1_1 (s : shp) : result shp :=
  match s with
  | [b; x; y; c] => Ok [b; 1; 1; x; y; c]
  | _ => Raise IndexError
  end.

End Shp.

(** ** [coords_grid] (core/utils/utils.py) *)

Module Utils.
Import Shp.

(** The values the attention code passes to [coords_grid]. *)
Inductive pyval : Type :=
| PInt (n : nat)
| PDevice
| PDType.

(** [def coords_grid(batch, ht, wd, device)]: the grid has shape
    [(batch, 2, ht, wd)]. *)
Definition coords_grid_params : list string :=
  ["batch"; "ht"; "wd"; "device"]%string.

Definition coords_grid (args : list pyval) : result shp :=
  args <- bind_positional "coords_grid" coords_grid_params args ;;
  match args with
  | [PInt batch; PInt ht; PInt wd; PDevice] => Ok [batch; 2; ht; wd]
  | _ => Raise (TypeError "coords_grid: unsupported argument types")
  end.

End Utils.

(** ** The attention blocks of core/twins.py *)

(** The head dimension and [head_dim ** -0.5]: Python raises
    [ZeroDivisionError] for [0 ** -0.5]. *)
Definition scale_of (dim num_heads : nat) : result nat :=
  head_dim <- floordiv dim num_heads ;;
  if head_dim =? 0 then Raise ZeroDivisionError else Ok head_dim.

(** [assert dim % num_heads == 0, f"dim {dim} should be divided by num_heads {num_heads}."] *)
Definition heads_message (dim num_heads : nat) : string :=
  ("dim " ++ str dim ++ " should be divided by num_heads " ++ str num_heads ++ ".")%string.

Definition assert_heads (dim num_heads : nat) : result unit :=
  m <- pymod dim num_heads ;;
  py_assert (m =? 0) (heads_message dim num_heads).

(** [(k - n % k) % k]. *)
Definition pad_to (k n : nat) : result nat :=
  r <- pymod n k ;; pymod (k - r) k.

(** The context tensor as the callers pass it: a tensor, or [None]. *)
Definition use_context (context : option Shp.shp) : result Shp.shp :=
  match context with
  | Some c => Ok c
  | None => Raise (AttributeError "'NoneType' object has no attribute 'repeat'")
  end.

Module LocallyGroupedAttnRPEContext.
Import Shp Utils.

Record t : Type := mk {
  dim : nat;
  num_heads : nat;
  vert_c_dim : nat;
  ws : nat
}.

Definition init (dim num_heads ws vert_c_dim : nat) : result t :=
  py_assert (negb (ws =? 1)) "" ;;;
  assert_heads dim num_heads ;;;
  scale_of dim num_heads ;;;
  Ok (mk dim num_heads vert_c_dim ws).

Section Forward.

(** [LinearPositionEmbeddingSine] of core/attention.py, which is not among the
    sources. *)
Variable LinearPositionEmbeddingSine : shp -> nat -> result shp.

Definition forward (self : t) (x : shp) (size : nat * nat) (context : option shp)
  : result shp :=
  '(B, N, C) <- unpack3 x ;;
  let '(H, W) := size in
  let C_qk := C + vert_c_dim self in
  context <- use_context context ;;
  c0 <- shape0 context ;;
  rep <- floordiv B c0 ;;
  context <- repeat_ [rep; 1; 1; 1] context ;;
  context <- view [D B; Infer; D (H * W)] context ;;
  context <- permute [0; 2; 1] context ;;
  context <- linear 256 (vert_c_dim self) context ;;
  context <- view [D B; D H; D W; Infer] context ;;
  x <- view [D B; D H; D W; D C] x ;;
  x_qk <- cat 3 x context ;;
  pad_r <- pad_to (ws self) W ;;
  pad_b <- pad_to (ws self) H ;;
  x <- F_pad [(0, 0); (0, pad_r); (0, pad_b)] x ;;
  x_qk <- F_pad [(0, 0); (0, pad_r); (0, pad_b)] x_qk ;;
  '(_, Hp, Wp, _) <- unpack4 x ;;
  _h <- floordiv Hp (ws self) ;;
  _w <- floordiv Wp (ws self) ;;
  x <- reshape [D B; D _h; D (ws self); D _w; D (ws self); D C] x ;;
  x <- transpose 2 3 x ;;
  x_qk <- reshape [D B; D _h; D (ws self); D _w; D (ws self); D C_qk] x_qk ;;
  x_qk <- transpose 2 3 x_qk ;;
  v <- linear (dim self) (dim self) x ;;
  hd <- floordiv C (num_heads self) ;;
  v <- reshape [D B; D (_h * _w); D (ws self * ws self); D 1; D (num_heads self); D hd] v ;;
  v <- permute [3; 0; 1; 4; 2; 5] v ;;
  v <- index0 v ;;
  coords <- coords_grid [PInt B; PInt (ws self); PInt (ws self); PDevice; PDType] ;;
  coords <- view [D B; D 2; Infer] coords ;;
  coords <- permute [0; 2; 1] coords ;;
  coords_enc <- LinearPositionEmbeddingSine coords C_qk ;;
  coords_enc <- view [D B; D (ws self); D (ws self); D C_qk] coords_enc ;;
  coords_enc <- unsqueeze_1_1 coords_enc ;;
  x_qk <- add x_qk coords_enc ;;
  q <- linear (dim self + vert_c_dim self) (dim self) x_qk ;;
  q <- reshape [D B; D (_h * _w); D (ws self * ws self); D 1; D (num_heads self); D hd] q ;;
  q <- permute [3; 0; 1; 4; 2; 5] q ;;
  q <- index0 q ;;
  k <- linear (dim self + vert_c_dim self) (dim self) x_qk ;;
  k <- reshape [D B; D (_h * _w); D (ws self * ws self); D 1; D (num_heads self); D hd] k ;;
  k <- permute [3; 0; 1; 4; 2; 5] k ;;
  k <- index0 k ;;
  kt <- transpose 3 4 k ;;
  attn <- matmul q kt ;;
  attn <- matmul attn v ;;
  attn <- transpose 2 3 attn ;;
  attn <- reshape [D B; D _h; D _w; D (ws self); D (ws self); D C] attn ;;
  x <- transpose 2 3 attn ;;
  x <- reshape [D B; D (_h * ws self); D (_w * ws self); D C] x ;;
  x <- (if (0 <? pad_r) || (0 <? pad_b) then crop_hw H W x else Ok x) ;;
  x <- reshape [D B; D N; D C] x ;;
  linear (dim self) (dim self) x.

End Forward.

End LocallyGroupedAttnRPEContext.

Module GlobalSubSampleAttnRPEContext.
Import Shp Utils.

(** [has_sr_key] tells whether [__init__] set the attributes [sr_key] and
    [sr_value]: it does so only for [sr_ratio > 1], and sets [sr] otherwise. *)
Record t : Type := mk {
  dim : nat;
  num_heads : nat;
  vert_c_dim : nat;
  sr_ratio : nat;
  has_sr_key : bool
}.

Definition init (dim num_heads sr_ratio vert_c_dim : nat) : result t :=
  assert_heads dim num_heads ;;;
  scale_of dim num_heads ;;;
  Ok (mk dim num_heads vert_c_dim sr_ratio (1 <? sr_ratio)).

Section Forward.

Variable LinearPositionEmbeddingSine : shp -> nat -> result shp.

Definition forward (self : t) (x : shp) (size : nat * nat) (context : option shp)
  : result shp :=
  '(B, N, C) <- unpack3 x ;;
  let C_qk := C + vert_c_dim self in
  let '(H, W) := size in
  context <- use_context context ;;
  c0 <- shape0 context ;;
  rep <- floordiv B c0 ;;
  context <- repeat_ [rep; 1; 1; 1] context ;;
  context <- view [D B; Infer; D (H * W)] context ;;
  context <- permute [0; 2; 1] context ;;
  context <- linear 256 (vert_c_dim self) context ;;
  context <- view [D B; D H; D W; Infer] context ;;
  x <- view [D B; D H; D W; D C] x ;;
  x_qk <- cat 3 x context ;;
  pad_r <- pad_to (sr_ratio self) W ;;
  pad_b <- pad_to (sr_ratio self) H ;;
  x <- F_pad [(0, 0); (0, pad_r); (0, pad_b)] x ;;
  x_qk <- F_pad [(0, 0); (0, pad_r); (0, pad_b)] x_qk ;;
  '(_, Hp, Wp, _) <- unpack4 x ;;
  let padded_N := Hp * Wp in
  x <- view [D B; Infer; D C] x ;;
  x_qk <- view [D B; Infer; D C_qk] x_qk ;;
  coords <- coords_grid [PInt B; PInt Hp; PInt Wp; PDevice; PDType] ;;
  coords <- view [D B; D 2; Infer] coords ;;
  coords <- permute [0; 2; 1] coords ;;
  coords_enc <- LinearPositionEmbeddingSine coords C_qk ;;
  q <- add x_qk coords_enc ;;
  q <- linear (dim self + vert_c_dim self) (dim self) q ;;
  hd <- floordiv C (num_heads self) ;;
  q <- reshape [D B; D padded_N; D (num_heads self); D hd] q ;;
  q <- permute [0; 2; 1; 3] q ;;
  '(x, x_qk) <-
    (if has_sr_key self then
       x <- permute [0; 2; 1] x ;;
       x <- reshape [D B; D C; D Hp; D Wp] x ;;
       x_qk <- permute [0; 2; 1] x_qk ;;
       x_qk <- reshape [D B; D C_qk; D Hp; D Wp] x_qk ;;
       x <- conv2d (dim self) (dim self) (sr_ratio self) (sr_ratio self) 0 x ;;
       x <- reshape [D B; D C; Infer] x ;;
       x <- permute [0; 2; 1] x ;;
       x_qk <- conv2d (dim self + vert_c_dim self) (dim self)
                 (sr_ratio self) (sr_ratio self) 0 x_qk ;;
       x_qk <- reshape [D B; D C; Infer] x_qk ;;
       x_qk <- permute [0; 2; 1] x_qk ;;
       x <- layer_norm (dim self) x ;;
       x_qk <- layer_norm (dim self) x_qk ;;
       Ok (x, x_qk)
     else
       Raise (AttributeError
                "'GlobalSubSampleAttnRPEContext' object has no attribute 'sr_key'")) ;;
  hs <- floordiv Hp (sr_ratio self) ;;
  ws <- floordiv Wp (sr_ratio self) ;;
  coords <- coords_grid [PInt B; PInt hs; PInt ws; PDevice; PDType] ;;
  coords <- view [D B; D 2; Infer] coords ;;
  coords <- permute [0; 2; 1] coords ;;
  coords_enc <- LinearPositionEmbeddingSine coords C ;;
  k <- add x_qk coords_enc ;;
  k <- linear (dim self) (dim self) k ;;
  k <- reshape [D B; D (hs * ws); D (num_heads self); D hd] k ;;
  k <- permute [0; 2; 1; 3] k ;;
  v <- linear (dim self) (dim self) x ;;
  v <- reshape [D B; D (hs * ws); D (num_heads self); D hd] v ;;
  v <- permute [0; 2; 1; 3] v ;;
  kt <- transpose 2 3 k ;;
  attn <- matmul q kt ;;
  x <- matmul attn v ;;
  x <- transpose 1 2 x ;;
  x <- reshape [D B; D Hp; D Wp; D C] x ;;
  x <- (if (0 <? pad_r) || (0 <? pad_b) then crop_hw H W x else Ok x) ;;
  x <- reshape [D B; D N; D C] x ;;
  linear (dim self) (dim self) x.

End Forward.

End GlobalSubSampleAttnRPEContext.

Module Block.
Import Shp.

(** [self.attn] is one of the two attention variants. *)
Inductive attention : Type :=
| Global (g : GlobalSubSampleAttnRPEContext.t)
| Local (l : LocallyGroupedAttnRPEContext.t).

Record t : Type := mk { dim : nat; attn : attention; mlp_hidden_dim : nat }.

Definition init (dim num_heads mlp_ratio sr_ratio ws vert_c_dim : nat) : result t :=
  attn <- (if ws =? 1
           then fmap Global (GlobalSubSampleAttnRPEContext.init dim num_heads sr_ratio vert_c_dim)
           else fmap Local (LocallyGroupedAttnRPEContext.init dim num_heads ws vert_c_dim)) ;;
  Ok (mk dim attn (dim * mlp_ratio)).

Section Forward.

Variable LinearPositionEmbeddingSine : shp -> nat -> result shp.

Definition attn_forward (a : attention) (x : shp) (size : nat * nat)
    (context : option shp) : result shp :=
  match a with
  | Global g =>
      GlobalSubSampleAttnRPEContext.forward LinearPositionEmbeddingSine g x size context
  | Local l =>
      LocallyGroupedAttnRPEContext.forward LinearPositionEmbeddingSine l x size context
  end.

(** timm's [Mlp(in_features=dim, hidden_features=mlp_hidden_dim)]. *)
Definition mlp (self : t) (x : shp) : result shp :=
  x <- linear (dim self) (mlp_hidden_dim self) x ;;
  linear (mlp_hidden_dim self) (dim self) x.

Definition forward (self : t) (x : shp) (size : nat * nat) (context : option shp)
  : result shp :=
  n <- layer_norm (dim self) x ;;
  a <- attn_forward (attn self) n size context ;;
  x <- add x a ;;
  n <- layer_norm (dim self) x ;;
  m <- mlp self n ;;
  add x m.

End Forward.

End Block.

(** ** The cost-volume encoder of core/encoder.py *)

(** The options of [cfg] the encoder reads. *)
Record config : Type := mk_config {
  cost_heads_num : nat;
  cost_latent_token_num : nat;
  cost_latent_dim : nat;
  cost_latent_input_dim : nat;
  encoder_depth : nat;
  vert_c_dim : nat;
  encoder_latent_dim : nat
}.

Module PatchEmbed.
Import Shp Utils.

Record t : Type := mk { patch_size : nat; dim : nat; in_chans : nat }.

Definition init (in_chans embed_dim : nat) : t := mk 8 embed_dim in_chans.

(** [self.proj]: three strided convolutions (the activations keep the shape). *)
Definition proj (self : t) (x : shp) : result shp :=
  x <- conv2d (in_chans self) (dim self / 4) 6 2 2 x ;;
  x <- conv2d (dim self / 4) (dim self / 2) 6 2 2 x ;;
  conv2d (dim self / 2) (dim self) 6 2 2 x.

Definition ffn_with_coord (self : t) (x : shp) : result shp :=
  x <- conv2d (dim self * 2) (dim self * 2) 1 1 0 x ;;
  conv2d (dim self * 2) (dim self * 2) 1 1 0 x.

Section Forward.

Variable LinearPositionEmbeddingSine : shp -> nat -> result shp.

Definition forward (self : t) (x : shp) : result (shp * (nat * nat)) :=
  '(B, C, H, W) <- unpack4 x ;;
  pad_r <- pad_to (patch_size self) W ;;
  pad_b <- pad_to (patch_size self) H ;;
  x <- F_pad [(0, pad_r); (0, pad_b)] x ;;
  x <- proj self x ;;
  '(_, _, h, w) <- unpack4 x ;;
  patch_coord <- coords_grid [PInt B; PInt h; PInt w; PDevice; PDType] ;;
  patch_coord <- view [D B; D 2; Infer] patch_coord ;;
  patch_coord <- permute [0; 2; 1] patch_coord ;;
  patch_coord_enc <- LinearPositionEmbeddingSine patch_coord (dim self) ;;
  patch_coord_enc <- permute [0; 2; 1] patch_coord_enc ;;
  patch_coord_enc <- view [D B; Infer; D h; D w] patch_coord_enc ;;
  x_pe <- cat 1 x patch_coord_enc ;;
  x <- ffn_with_coord self x_pe ;;
  x <- flatten2 x ;;
  x <- transpose 1 2 x ;;
  x <- layer_norm (dim self * 2) x ;;
  Ok (x, (h, w)).

End Forward.

End PatchEmbed.

Module VerticalSelfAttentionLayer.
Import Shp.

Record t : Type := mk { local_block : Block.t; global_block : Block.t }.

(** [num_heads] defaults to 8; [mlp_ratio = 4], [ws = 7], [sr_ratio = 4]. *)
Definition init (dim : nat) (cfg : config) (num_heads : nat) : result t :=
  scale_of dim num_heads ;;;
  let mlp_ratio := 4 in
  let ws := 7 in
  let sr_ratio := 4 in
  local_block <- Block.init dim num_heads mlp_ratio sr_ratio ws (vert_c_dim cfg) ;;
  global_block <- Block.init dim num_heads mlp_ratio sr_ratio 1 (vert_c_dim cfg) ;;
  Ok (mk local_block global_block).

Section Forward.

Variable LinearPositionEmbeddingSine : shp -> nat -> result shp.

Definition forward (self : t) (x : shp) (size : nat * nat) (context : option shp)
  : result shp :=
  x <- Block.forward LinearPositionEmbeddingSine (local_block self) x size context ;;
  Block.forward LinearPositionEmbeddingSine (global_block self) x size context.

End Forward.

End VerticalSelfAttentionLayer.

Module SelfAttentionLayer.
Import Shp.

Record t : Type := mk { dim : nat; num_heads : nat }.

Definition init (dim num_heads : nat) : result t :=
  assert_heads dim num_heads ;;;
  scale_of dim num_heads ;;;
  Ok (mk dim num_heads).

Section Forward.

(** [MultiHeadAttention.forward] of core/attention.py, which is not among the
    sources. *)
Variable MultiHeadAttention : shp -> shp -> shp -> result shp.

Definition ffn (self : t) (x : shp) : result shp :=
  x <- linear (dim self) (dim self) x ;;
  linear (dim self) (dim self) x.

Definition forward (self : t) (x : shp) : result shp :=
  let short_cut := x in
  x <- layer_norm (dim self) x ;;
  q <- linear (dim self) (dim self) x ;;
  k <- linear (dim self) (dim self) x ;;
  v <- linear (dim self) (dim self) x ;;
  x <- MultiHeadAttention q k v ;;
  x <- linear (dim self) (dim self) x ;;
  x <- add short_cut x ;;
  n <- layer_norm (dim self) x ;;
  f <- ffn self n ;;
  add x f.

End Forward.

End SelfAttentionLayer.

Module CrossAttentionLayer.
Import Shp.

Record t : Type := mk {
  qk_dim : nat;
  v_dim : nat;
  query_token_dim : nat;
  tgt_token_dim : nat;
  num_heads : nat
}.

Definition init (qk_dim v_dim query_token_dim tgt_token_dim num_heads : nat) : result t :=
  assert_heads qk_dim num_heads ;;;
  assert_heads v_dim num_heads ;;;
  scale_of qk_dim num_heads ;;;
  Ok (mk qk_dim v_dim query_token_dim tgt_token_dim num_heads).

Section Forward.

(** [BroadMultiHeadAttention.forward] of core/attention.py, which is not among
    the sources. *)
Variable BroadMultiHeadAttention : shp -> shp -> shp -> result shp.

Definition ffn (self : t) (x : shp) : result shp :=
  x <- linear (query_token_dim self) (query_token_dim self) x ;;
  linear (query_token_dim self) (query_token_dim self) x.

Definition forward (self : t) (query tgt_token : shp) : result shp :=
  let short_cut := query in
  query <- layer_norm (query_token_dim self) query ;;
  q <- linear (query_token_dim self) (qk_dim self) query ;;
  k <- linear (tgt_token_dim self) (qk_dim self) tgt_token ;;
  v <- linear (tgt_token_dim self) (v_dim self) tgt_token ;;
  x <- BroadMultiHeadAttention q k v ;;
  p <- linear (v_dim self) (query_token_dim self) x ;;
  x <- add short_cut p ;;
  n <- layer_norm (query_token_dim self) x ;;
  f <- ffn self n ;;
  add x f.

End Forward.

End CrossAttentionLayer.

Module CostPerceiverEncoder.
Import Shp.

Record t : Type := mk {
  cfg : config;
  patch_size : nat;
  patch_embed : PatchEmbed.t;
  depth : nat;
  latent_tokens : shp;
  input_layer : CrossAttentionLayer.t;
  encoder_layers : list SelfAttentionLayer.t;
  vertical_encoder_layers : list VerticalSelfAttentionLayer.t
}.

(** [[f(idx) for idx in range(n)]] for a constructor that may raise. *)
Fixpoint build {A : Type} (n : nat) (f : result A) : result (list A) :=
  match n with
  | 0 => Ok []
  | S n' => a <- f ;; rest <- build n' f ;; Ok (a :: rest)
  end.

Definition init (cfg : config) : result t :=
  let patch_embed := PatchEmbed.init (cost_heads_num cfg) (cost_latent_input_dim cfg) in
  let depth := encoder_depth cfg in
  let latent_tokens := [1; cost_latent_token_num cfg; cost_latent_dim cfg] in
  let query_token_dim := cost_latent_dim cfg in
  let tgt_token_dim := cost_latent_input_dim cfg * 2 in
  let qk_dim := query_token_dim in
  let v_dim := query_token_dim in
  input_layer <- CrossAttentionLayer.init qk_dim v_dim query_token_dim tgt_token_dim 8 ;;
  encoder_layers <- build depth (SelfAttentionLayer.init (cost_latent_dim cfg) 8) ;;
  vertical_encoder_layers <-
    build depth (VerticalSelfAttentionLayer.init (cost_latent_dim cfg) cfg 8) ;;
  Ok (mk cfg 8 patch_embed depth latent_tokens input_layer
         encoder_layers vertical_encoder_layers).

Section Forward.

Variable LinearPositionEmbeddingSine : shp -> nat -> result shp.
Variable MultiHeadAttention : shp -> shp -> shp -> result shp.
Variable BroadMultiHeadAttention : shp -> shp -> shp -> result shp.

(** The body of the loop over [zip(encoder_layers, vertical_encoder_layers)]. *)
Definition stack_step (self : t) (B H1 W1 : nat) (context : option shp)
    (layers : SelfAttentionLayer.t * VerticalSelfAttentionLayer.t) (x : shp)
  : result shp :=
  let T := cost_latent_token_num (cfg self) in
  x <- SelfAttentionLayer.forward MultiHeadAttention (fst layers) x ;;
  x <- view [D B; D (H1 * W1); D T; Infer] x ;;
  x <- permute [0; 2; 1; 3] x ;;
  x <- reshape [D (B * T); D (H1 * W1); Infer] x ;;
  x <- VerticalSelfAttentionLayer.forward LinearPositionEmbeddingSine
         (snd layers) x (H1, W1) context ;;
  x <- view [D B; D T; D (H1 * W1); Infer] x ;;
  x <- permute [0; 2; 1; 3] x ;;
  reshape [D (B * H1 * W1); D T; Infer] x.

Fixpoint stack_loop (self : t) (B H1 W1 : nat) (context : option shp)
    (layers : list (SelfAttentionLayer.t * VerticalSelfAttentionLayer.t)) (x : shp)
  : result shp :=
  match layers with
  | [] => Ok x
  | l :: layers' =>
      x <- stack_step self B H1 W1 context l x ;;
      stack_loop self B H1 W1 context layers' x
  end.

(** The alternating stack: [short_cut = x], the loop, [x + short_cut]. *)
Definition encoder_stack (self : t) (B H1 W1 : nat) (context : option shp) (x : shp)
  : result shp :=
  let short_cut := x in
  x <- stack_loop self B H1 W1 context
         (combine (encoder_layers self) (vertical_encoder_layers self)) x ;;
  add x short_cut.

Definition forward (self : t) (cost_volume : shp) (context : option shp)
  : result (shp * shp * (nat * nat)) :=
  '(B, heads, H1, W1, H2, W2) <- unpack6 cost_volume ;;
  cost_maps <- permute [0; 2; 3; 1; 4; 5] cost_volume ;;
  cost_maps <- view [D (B * H1 * W1); D (cost_heads_num (cfg self)); D H2; D W2] cost_maps ;;
  '(x, size) <- PatchEmbed.forward LinearPositionEmbeddingSine (patch_embed self) cost_maps ;;
  x <- CrossAttentionLayer.forward BroadMultiHeadAttention
         (input_layer self) (latent_tokens self) x ;;
  x <- encoder_stack self B H1 W1 context x ;;
  Ok (x, cost_maps, (fst size, snd size)).

End Forward.

End CostPerceiverEncoder.

(** ** [MemoryEncoder.corr] (core/encoder.py) *)

Module MemoryEncoder.
Import Tensor.

Record t : Type := mk_encoder {
  cfg : config;
  cost_perceiver_encoder : CostPerceiverEncoder.t
}.

(** [MemoryEncoder.__init__].  [TwinsSVTLarge] (core/twins_svt.py) is not among
    the sources: [feat_encoder] is the outcome of constructing it. *)
Definition init (feat_encoder : result unit) (cfg : config) : result t :=
  feat_encoder ;;;
  cost_perceiver_encoder <- CostPerceiverEncoder.init cfg ;;
  Ok (mk_encoder cfg cost_perceiver_encoder).

(** [heads] is [self.cfg.cost_heads_num]. *)
Definition corr (heads : nat) (fmap1 fmap2 : tensor) : result tensor :=
  match shape fmap1 with
  | [batch; dim; ht; wd] =>
      d <- floordiv dim heads ;;
      fmap1 <- view [batch; heads; d; ht; wd] fmap1 ;;
      fmap1 <- permute [0; 1; 3; 4; 2] fmap1 ;;
      fmap1 <- reshape [batch; heads; ht * wd; d] fmap1 ;;
      fmap2 <- view [batch; heads; d; ht; wd] fmap2 ;;
      fmap2 <- permute [0; 1; 3; 4; 2] fmap2 ;;
      fmap2 <- reshape [batch; heads; ht * wd; d] fmap2 ;;
      fmap1_bmm <- reshape [batch * heads; ht * wd; d] fmap1 ;;
      fmap2_bmm <- reshape [batch * heads; ht * wd; d] fmap2 ;;
      fmap2_t <- transpose 1 2 fmap2_bmm ;;
      corr_bmm <- bmm fmap1_bmm fmap2_t ;;
      corr <- view [batch; heads; ht * wd; ht * wd] corr_bmm ;;
      corr <- permute [0; 2; 1; 3] corr ;;
      corr <- reshape [batch * ht * wd; heads; ht; wd] corr ;;
      corr <- reshape [batch; ht * wd; heads; ht * wd] corr ;;
      corr <- permute [0; 2; 1; 3] corr ;;
      reshape [batch; heads; ht; wd; ht; wd] corr
  | _ => Raise (ValueError "not enough or too many values to unpack (expected 4)")
  end.

End MemoryEncoder.


(** ** [MemoryEncoder.corr] with the rounding of float32 *)

(** The feature maps are float32 tensors.  On entries that are integers a
    float32 product or sum is the exact integer result rounded to a
    significand of 24 bits, to nearest and ties to even; the results met
    below stay far from the overflow threshold [2^128], which is not
    modelled. *)
Module Float32.
Import Tensor.

Definition round24 (z : Z) : Z :=
  let a := Z.abs z in
  if (a <? 2 ^ 24)%Z then z
  else
    let e := (Z.log2 a - 23)%Z in
    let q := Z.shiftr a e in
    let r := (a - Z.shiftl q e)%Z in
    let half := Z.shiftl 1 (e - 1) in
    let q' := if (r <? half)%Z then q
              else if (half <? r)%Z then (q + 1)%Z
              else if Z.even q then q else (q + 1)%Z in
    (Z.sgn z * Z.shiftl q' e)%Z.

Definition mul32 (a b : Z) : Z := round24 (a * b).

(** [s * t] for a scalar [s]: every product is rounded. *)
Definition scale32 (s : Z) (t : tensor) : tensor :=
  mk (shape t) (map (mul32 s) (data t)).


Section Corr.

(** The inner product [torch.bmm] computes for a list of pairs of entries:
    the order of its additions and whether it fuses them with the products
    are the library's. *)
Variable dot32 : list (Z * Z) -> Z.

(** [torch.bmm(a, b)]. *)
Definition bmm (a b : tensor) : result tensor :=
  match shape a, shape b with
  | [n; p; q], [n'; q'; r] =>
      if (n =? n') && (q =? q') then
        Ok (init [n; p; r]
              (fun idx =>
                 match idx with
                 | [i; j; l] =>
                     dot32 (map (fun c => (get a [i; j; c], get b [i; c; l])) (seq 0 q))
                 | _ => 0%Z
                 end))
      else Raise (RuntimeError "bmm: batch or inner sizes differ")
  | _, _ => Raise (RuntimeError "bmm: batch1 and batch2 must be 3D tensors")
  end.

(** [MemoryEncoder.corr]; [heads] is [self.cfg.cost_heads_num]. *)
Definition corr (heads : nat) (fmap1 fmap2 : tensor) : result tensor :=
  match shape fmap1 with
  | [batch; dim; ht; wd] =>
      d <- floordiv dim heads ;;
      fmap1 <- view [batch; heads; d; ht; wd] fmap1 ;;
      fmap1 <- permute [0; 1; 3; 4; 2] fmap1 ;;
      fmap1 <- reshape [batch; heads; ht * wd; d] fmap1 ;;
      fmap2 <- view [batch; heads; d; ht; wd] fmap2 ;;
      fmap2 <- permute [0; 1; 3; 4; 2] fmap2 ;;
      fmap2 <- reshape [batch; heads; ht * wd; d] fmap2 ;;
      fmap1_bmm <- reshape [batch * heads; ht * wd; d] fmap1 ;;
      fmap2_bmm <- reshape [batch * heads; ht * wd; d] fmap2 ;;
      fmap2_t <- transpose 1 2 fmap2_bmm ;;
      corr_bmm <- bmm fmap1_bmm fmap2_t ;;
      corr <- view [batch; heads; ht * wd; ht * wd] corr_bmm ;;
      corr <- permute [0; 2; 1; 3] corr ;;
      corr <- reshape [batch * ht * wd; heads; ht; wd] corr ;;
      corr <- reshape [batch; ht * wd; heads; ht * wd] corr ;;
      corr <- permute [0; 2; 1; 3] corr ;;
      reshape [batch; heads; ht; wd; ht; wd] corr
  | _ => Raise (ValueError "not enough or too many values to unpack (expected 4)")
  end.

End Corr.


End Float32.
(** ** The functions of core/attention.py, by their shapes *)

Module Attention.
Import Shp.

(** Modelled from the spec: [LinearPositionEmbeddingSine] of core/attention.py
    is not among the sources.  "A sinusoidal encoding of 2D coordinates into a
    vector of a specified even dimension": the last axis, of size 2, becomes
    [dim]. *)
Definition LinearPositionEmbeddingSine (x : shp) (dim : nat) : result shp :=
  match x with
  | [] => Raise IndexError
  | _ => if last x 0 =? 2 then Ok (set_last dim x) else Raise IndexError
  end.

(** Modelled from the spec: [MultiHeadAttention.forward] of core/attention.py is
    not among the sources.  "Standard multi-head self-attention applied
    independently per spatial position": queries [(b, n, d)], keys [(b, m, d)]
    and values [(b, m, dv)] give one output per query, [(b, n, dv)]. *)
Definition MultiHeadAttention (q k v : shp) : result shp :=
  match q, k, v with
  | [b; n; d], [b'; m; d'], [b''; m'; dv] =>
      if (b =? b') && (b =? b'') && (d =? d') && (m =? m') then Ok [b; n; dv]
      else Raise (RuntimeError "attention: sizes do not match")
  | _, _, _ => Raise (RuntimeError "attention: expected 3-D inputs")
  end.

(** Modelled from the spec: [BroadMultiHeadAttention.forward] of
    core/attention.py is not among the sources.  "A fixed bank of learned latent
    tokens, broadcast to the batch size, acts as queries": queries [(1, n, d)],
    keys [(b, m, d)] and values [(b, m, dv)] give [(b, n, dv)]. *)
Definition BroadMultiHeadAttention (q k v : shp) : result shp :=
  match q, k, v with
  | [1; n; d], [b; m; d'], [b'; m'; dv] =>
      if (b =? b') && (d =? d') && (m =? m') then Ok [b; n; dv]
      else Raise (RuntimeError "attention: sizes do not match")
  | _, _, _ => Raise (RuntimeError "attention: expected 3-D inputs")
  end.

End Attention.

(** ** Sample configurations and inputs *)

Module EncoderSamples.

(** One correlation head, two latent tokens of width 8, depth 1. *)
Definition sample_cfg : config :=
  mk_config 1 2 8 4 1 4 256.

(** The same encoder without layers in its stack. *)
Definition depth0_cfg : config :=
  mk_config 1 2 8 4 0 4 256.

(** Three correlation heads for 256 feature channels (3 does not divide
    256), 8 latent tokens of width 128, depth 3. *)
Definition odd_heads_cfg : config :=
  mk_config 3 8 128 64 3 64 256.

Definition sample_local : LocallyGroupedAttnRPEContext.t :=
  LocallyGroupedAttnRPEContext.mk 8 8 4 7.

Definition sample_global : GlobalSubSampleAttnRPEContext.t :=
  GlobalSubSampleAttnRPEContext.mk 8 8 4 4 true.

(** A feature map with 3 channels, to be split over 2 heads. *)
Definition fmap_3ch : Tensor.tensor := Tensor.mk [1; 3; 1; 1] [1; 2; 3]%Z.

End EncoderSamples.

(** ** Further sample inputs *)

Module MoreSamples.
Import Sampler.

(** Object 0 holds one 1-vector, object 1 a tensor whose last axis is empty. *)
Definition short_store : store expr :=
  fun r => if r =? 0 then mk_ctensor 1 [[Num 3]] else mk_ctensor 0 [[]].

End MoreSamples.

(** ** The body of [coords_grid], with entries (core/utils/utils.py)

    [Utils.coords_grid] above binds the arguments and gives the shape; here
    are the entries the body computes for [batch], [ht] and [wd].  The
    entries are floats holding small integers. *)

Module CoordsGrid.
Import Tensor.

(** [torch.arange(0, n)]. *)
Definition arange (n : nat) : tensor :=
  init [n] (fun idx => Z.of_nat (nth 0 idx 0)).

(** [torch.meshgrid(a, b, indexing="ij")]: the first grid repeats [a] along
    the columns, the second repeats [b] along the rows. *)
Definition meshgrid_ij (a b : tensor) : result (tensor * tensor) :=
  match shape a, shape b with
  | [n], [m] =>
      Ok (init [n; m] (fun idx => get a [nth 0 idx 0]),
          init [n; m] (fun idx => get b [nth 1 idx 0]))
  | _, _ => Raise (RuntimeError "meshgrid expects 1-D tensors")
  end.

(** [torch.stack((a, b), dim=0)]. *)
Definition stack2 (a b : tensor) : result tensor :=
  if list_eq_dec Nat.eq_dec (shape a) (shape b)
  then Ok (mk (2 :: shape a) (data a ++ data b))
  else Raise (RuntimeError "stack expects each tensor to be equal size").

(** [t.unsqueeze(0)]. *)
Definition unsqueeze0 (t : tensor) : tensor := mk (1 :: shape t) (data t).

(** [t.repeat(batch, 1, 1, 1)] on a 4-D tensor: [batch] copies along the
    first axis. *)
Definition repeat_batch (batch : nat) (t : tensor) : result tensor :=
  match shape t with
  | [n; c; h; w] => Ok (mk [batch * n; c; h; w] (List.concat (repeat (data t) batch)))
  | _ => Raise (RuntimeError "repeat: expected a 4-D tensor")
  end.

Definition coords_grid (batch ht wd : nat) : result tensor :=
  coords <- meshgrid_ij (arange ht) (arange wd) ;;
  coords <- stack2 (snd coords) (fst coords) ;;
  repeat_batch batch (unsqueeze0 coords).

End CoordsGrid.

(** ** More feature maps *)

(** Feature maps for the cost volume: the entries of [fmap_b] in the
    arrangement [(1, 2, 2, 1)], a map with fewer entries and a 1-D tensor. *)
Module CorrMoreSamples.
Import Tensor.

Definition fmap_b_swapped : tensor := mk [1; 2; 2; 1] [5; 6; 7; 8]%Z.
Definition fmap_short : tensor := mk [1; 2; 1; 1] [5; 6]%Z.
Definition fmap_flat : tensor := mk [4] [1; 2; 3; 4]%Z.

End CorrMoreSamples.


(** ** Python dictionaries with string keys *)

Module PyDict.

Section Dict.

Context {V : Type}.

(** A [dict] (or [OrderedDict]) in insertion order, one entry per key. *)
Definition dict : Type := list (string * V).

Definition keys (d : dict) : list string := map fst d.

(** [d[k]]; [None] stands for [KeyError]. *)
Fixpoint getitem (d : dict) (k : string) : option V :=
  match d with
  | [] => None
  | (k', v) :: d' => if String.eqb k' k then Some v else getitem d' k
  end.

(** [d[k] = v]: the value of an existing key is replaced where it stands, a
    new key is appended. *)
Fixpoint setitem (d : dict) (k : string) (v : V) : dict :=
  match d with
  | [] => [(k, v)]
  | (k', v') :: d' =>
      if String.eqb k' k then (k', v) :: d' else (k', v') :: setitem d' k v
  end.

End Dict.

Arguments dict V : clear implicits.

End PyDict.

(** ** Batches of tensors *)

Module TensorBatch.
Import Tensor.

Definition shape_eqb (a b : list nat) : bool :=
  if list_eq_dec Nat.eq_dec a b then true else false.

(** [torch.cat([a, b], dim=0)].  A 1-D tensor of shape [(0,)] is skipped;
    otherwise both tensors have at least one axis and agree on the others. *)
Definition cat0 (a b : tensor) : result tensor :=
  match shape a, shape b with
  | [], _ | _, [] =>
      Raise (RuntimeError "zero-dimensional tensor cannot be concatenated")
  | [0], _ => Ok b
  | _, [0] => Ok a
  | na :: ra, nb :: rb =>
      if shape_eqb ra rb then Ok (mk ((na + nb) :: ra) (data a ++ data b))
      else Raise (RuntimeError "Sizes of tensors must match except in dimension 0")
  end.

(** [t.shape[0]]. *)
Definition shape0 (t : tensor) : result nat :=
  match shape t with
  | n :: _ => Ok n
  | [] => Raise IndexError
  end.

(** [t[lo:hi]] for non-negative bounds: a slice along the first axis. *)
Definition slice0 (lo hi : nat) (t : tensor) : result tensor :=
  match shape t with
  | n :: rest =>
      let lo := Nat.min lo n in
      let hi := Nat.max lo (Nat.min hi n) in
      Ok (mk ((hi - lo) :: rest)
             (firstn ((hi - lo) * numel rest) (skipn (lo * numel rest) (data t))))
  | [] => Raise IndexError
  end.

(** [(2 * t) - 1.0], entry by entry. *)
Definition rescale (t : tensor) : tensor :=
  mk (shape t) (map (fun x => (2 * x - 1)%Z) (data t)).

End TensorBatch.

(** ** [MemoryEncoder.forward] (core/encoder.py) *)

Module MemoryEncoderForward.
Import Tensor TensorBatch PyDict.

(** What [forward] stores in [data]. *)
Inductive entry : Type :=
| CostMaps (cost_maps : Shp.shp)
| H3W3 (h3w3 : nat * nat).

Section Forward.

(** [TwinsSVTLarge] (core/twins_svt.py) and the weights of the 1x1
    convolution [channel_convertor] are not among the sources. *)
Variable feat_encoder : tensor -> result tensor.
Variable channel_convertor : tensor -> result tensor.
Variable LinearPositionEmbeddingSine : Shp.shp -> nat -> result Shp.shp.
Variable MultiHeadAttention : Shp.shp -> Shp.shp -> Shp.shp -> result Shp.shp.
Variable BroadMultiHeadAttention : Shp.shp -> Shp.shp -> Shp.shp -> result Shp.shp.

(** The statements of [forward] before it writes to [data]; the cost volume
    enters the perceiver encoder by its shape. *)
Definition encode (self : MemoryEncoder.t) (img1 img2 : tensor)
    (context : option Shp.shp) : result (Shp.shp * Shp.shp * (nat * nat)) :=
  imgs <- cat0 img1 img2 ;;
  feats <- feat_encoder imgs ;;
  feats <- channel_convertor feats ;;
  n <- shape0 feats ;;
  B <- floordiv n 2 ;;
  feat_s <- slice0 0 B feats ;;
  feat_t <- slice0 B n feats ;;
  cost_volume <- MemoryEncoder.corr (cost_heads_num (MemoryEncoder.cfg self)) feat_s feat_t ;;
  CostPerceiverEncoder.forward LinearPositionEmbeddingSine MultiHeadAttention
    BroadMultiHeadAttention (MemoryEncoder.cost_perceiver_encoder self)
    (shape cost_volume) context.

(** [forward(img1, img2, data, context)]: the dictionary [data] is written
    in place, so it is returned next to the result. *)
Definition forward (self : MemoryEncoder.t) (img1 img2 : tensor) (data : dict entry)
    (context : option Shp.shp) : dict entry * result Shp.shp :=
  match encode self img1 img2 context with
  | Ok (x, cost_maps, h3w3) =>
      let data := setitem data "cost_maps" (CostMaps cost_maps) in
      let data := setitem data "H3W3" (H3W3 h3w3) in
      (data, Ok x)
  | Raise e => (data, Raise e)
  end.

End Forward.

End MemoryEncoderForward.

(** ** [FlowFormer] (core/transformer.py) *)

Module FlowFormer.
Import Tensor TensorBatch PyDict MemoryEncoderForward.

(** What a call ends with: a value, an exception of [Py.exn], or the
    [KeyError] of a dictionary lookup. *)
Inductive outcome (A : Type) : Type :=
| Return (a : A)
| Raises (e : exn)
| KeyError (key : string).

Arguments Return {A} a.
Arguments Raises {A} e.
Arguments KeyError {A} key.

Section Forward.

(** [TwinsSVTLarge] and [MemoryDecoder] (core/decoder.py) are not among the
    sources. *)
Variable flow : Type.
Variable context_encoder : tensor -> result Shp.shp.
Variable memory_encoder :
  tensor -> tensor -> dict entry -> option Shp.shp -> dict entry * result Shp.shp.
Variable memory_decoder : Shp.shp -> Shp.shp -> entry -> result flow.

Definition forward (image1 image2 : tensor) : outcome flow :=
  let image1 := rescale image1 in
  let image2 := rescale image2 in
  let data : dict entry := [] in
  match context_encoder image1 with
  | Raise e => Raises e
  | Ok context =>
      match memory_encoder image1 image2 data (Some context) with
      | (_, Raise e) => Raises e
      | (data, Ok cost_memory) =>
          match getitem data "cost_maps" with
          | None => KeyError "cost_maps"
          | Some cost_maps =>
              match memory_decoder cost_memory context cost_maps with
              | Ok flow_predictions => Return flow_predictions
              | Raise e => Raises e
              end
          end
      end
  end.

End Forward.

(** *** [load_ddp_state_dict] *)

(** [k.startswith(p)] and [k[n:]]. *)
Definition startswith (k p : string) : bool := String.prefix p k.

Definition slice_from (n : nat) (k : string) : string :=
  String.substring n (String.length k - n) k.

(** The key under which the entry of [k] is stored. *)
Definition cvt_key (k : string) : string :=
  if startswith k "module." then slice_from 7 k else k.

Section Load.

Context {V R : Type}.

(** [nn.Module.load_state_dict], of torch. *)
Variable load_state_dict : dict V -> R.

(** The loop [for k in ckpt] over the keys [ks] that are left. *)
Fixpoint convert (ckpt : dict V) (ks : list string) (cvt_ckpt : dict V)
  : option (dict V) :=
  match ks with
  | [] => Some cvt_ckpt
  | k :: ks' =>
      match getitem ckpt k with
      | None => None
      | Some v => convert ckpt ks' (setitem cvt_ckpt (cvt_key k) v)
      end
  end.

(** The method ends with the call of [load_state_dict] on the converted
    dictionary; [None] stands for a [KeyError] of [ckpt[k]]. *)
Definition load_ddp_state_dict (ckpt : dict V) : option R :=
  option_map load_state_dict (convert ckpt (keys ckpt) []).

End Load.

Section Checkpoints.

Context {V : Type}.

(** One turn of the loop, on an entry [kv] of the checkpoint. *)
Definition step (cvt_ckpt : dict V) (kv : string * V) : dict V :=
  setitem cvt_ckpt (cvt_key (fst kv)) (snd kv).

(** The state dictionary of a model wrapped for distributed training: every
    key [k] of the model is stored as ["module." ++ k]. *)
Definition wrapped (sd : dict V) : dict V :=
  map (fun kv => ("module." ++ fst kv, snd kv)%string) sd.

End Checkpoints.

End FlowFormer.

(** Checkpoints and images to run the functions above on. *)
Module ChainSamples.
Import Tensor.

(** A checkpoint saved from a wrapped model next to a plain key of the same
    name. *)
Definition mixed_ckpt : PyDict.dict nat :=
  [("module.a", 1); ("b", 2); ("a", 3)]%string.

(** The state dictionary of a model one of whose own keys starts with
    ["module."], and one with plain keys only. *)
Definition plain_sd : PyDict.dict nat :=
  [("encoder.weight", 1); ("module.bias", 2)]%string.

Definition bare_sd : PyDict.dict nat :=
  [("encoder.weight", 1); ("bias", 2)]%string.

Definition img_a : tensor := mk [1; 1; 1; 2] [1; 2]%Z.
Definition img_b : tensor := mk [1; 1; 1; 2] [3; 4]%Z.

(** A stand-in for the backbone: the feature map is the image. *)
Definition id_encoder (t : tensor) : result tensor := Ok t.

(** The encoders that [EncoderSamples.sample_cfg] constructs. *)
Definition sample_perceiver : CostPerceiverEncoder.t :=
  CostPerceiverEncoder.mk EncoderSamples.sample_cfg 8 (PatchEmbed.init 1 4) 1 [1; 2; 8]
    (CrossAttentionLayer.mk 8 8 8 8 8) [SelfAttentionLayer.mk 8 8]
    [VerticalSelfAttentionLayer.mk
       (Block.mk 8 (Block.Local EncoderSamples.sample_local) 32)
       (Block.mk 8 (Block.Global EncoderSamples.sample_global) 32)].

Definition sample_memory_encoder : MemoryEncoder.t :=
  MemoryEncoder.mk_encoder EncoderSamples.sample_cfg sample_perceiver.

End ChainSamples.
(* ================================================================== *)
(** * Part II: properties *)
(* ================================================================== *)

(** ** Row-major indexing *)

Module TensorFacts.
Import Tensor.

Lemma ravel_lt (s idx : list nat) : in_bounds s idx -> ravel s idx < numel s.
Proof.
  revert idx; induction s as [|n s IH]; intros [|i idx]; simpl; try tauto.
  - lia.
  - intros [Hi Hb]. specialize (IH _ Hb). nia.
Qed.

Lemma unravel_ravel (s idx : list nat) :
  in_bounds s idx -> unravel s (ravel s idx) = idx.
Proof.
  revert idx; induction s as [|n s IH]; intros [|i idx]; simpl; try tauto.
  intros [Hi Hb]. pose proof (ravel_lt _ _ Hb) as Hlt.
  f_equal.
  - symmetry. apply Nat.div_unique with (ravel s idx); lia.
  - rewrite <- (IH _ Hb) at 2. f_equal.
    symmetry. apply Nat.mod_unique with i; lia.
Qed.

Lemma unravel_in_bounds (s : list nat) (k : nat) :
  k < numel s -> in_bounds s (unravel s k).
Proof.
  revert k; induction s as [|n s IH]; intros k Hk; simpl in *; [exact I|].
  assert (Hpos : numel s <> 0) by (intro E; rewrite E in Hk; lia).
  split.
  - apply Nat.Div0.div_lt_upper_bound. lia.
  - apply IH. apply Nat.mod_upper_bound; exact Hpos.
Qed.

Lemma ravel_unravel (s : list nat) (k : nat) :
  k < numel s -> ravel s (unravel s k) = k.
Proof.
  revert k; induction s as [|n s IH]; intros k Hk; simpl in *; [lia|].
  assert (Hpos : numel s <> 0) by (intro E; rewrite E in Hk; lia).
  rewrite IH by (apply Nat.mod_upper_bound; exact Hpos).
  pose proof (Nat.div_mod_eq k (numel s)). lia.
Qed.

Lemma nth_map_seq (g : nat -> Z) (n k : nat) :
  k < n -> nth k (map g (seq 0 n)) 0%Z = g k.
Proof.
  intros Hk.
  rewrite (nth_indep _ 0%Z (g 0)) by (rewrite length_map, length_seq; exact Hk).
  rewrite map_nth, seq_nth by exact Hk. reflexivity.
Qed.

Lemma init_shape (s : list nat) (f : list nat -> Z) : shape (init s f) = s.
Proof. reflexivity. Qed.

Lemma init_wf (s : list nat) (f : list nat -> Z) : wf (init s f).
Proof. unfold wf, init; simpl. now rewrite length_map, length_seq. Qed.

Lemma get_init (s : list nat) (f : list nat -> Z) (idx : list nat) :
  in_bounds s idx -> get (init s f) idx = f idx.
Proof.
  intros Hb. unfold get, init; simpl.
  rewrite nth_map_seq by (apply ravel_lt; exact Hb).
  now rewrite unravel_ravel.
Qed.

End TensorFacts.

(** ** The tensor operations, entry by entry *)

Module OpFacts.
Import Tensor TensorFacts.

Lemma view_inv (s : list nat) (t : tensor) :
  wf t -> numel s = numel (shape t) ->
  exists t', view s t = Ok t' /\ shape t' = s /\ wf t' /\
    forall idx, in_bounds s idx ->
      get t' idx = get t (unravel (shape t) (ravel s idx)).
Proof.
  intros Hwf Hn. exists (mk s (data t)). unfold view.
  rewrite Hn, Nat.eqb_refl. repeat split.
  - unfold wf in *; simpl. congruence.
  - intros idx Hb. unfold get; simpl.
    rewrite ravel_unravel; [reflexivity|].
    rewrite <- Hn. now apply ravel_lt.
Qed.

Lemma permute_inv (dims : list nat) (t : tensor) :
  is_perm dims (List.length (shape t)) = true ->
  exists t', permute dims t = Ok t' /\
    shape t' = map (fun a => nth a (shape t) 0) dims /\ wf t' /\
    forall idx, in_bounds (map (fun a => nth a (shape t) 0) dims) idx ->
      get t' idx = get t (unpermute dims idx).
Proof.
  intros Hp. unfold permute. rewrite Hp.
  eexists; split; [reflexivity|]. repeat split.
  - apply init_wf.
  - intros idx Hb. now rewrite get_init.
Qed.

Lemma bmm_inv (a b : tensor) (n p q r : nat) :
  shape a = [n; p; q] -> shape b = [n; q; r] ->
  exists t', bmm a b = Ok t' /\ shape t' = [n; p; r] /\ wf t' /\
    forall i j l, i < n -> j < p -> l < r ->
      get t' [i; j; l] = sumZ q (fun c => (get a [i; j; c] * get b [i; c; l])%Z).
Proof.
  intros Ha Hb. unfold bmm. rewrite Ha, Hb, !Nat.eqb_refl. simpl.
  eexists; split; [reflexivity|]. repeat split.
  - apply init_wf.
  - intros i j l Hi Hj Hl. rewrite get_init; [reflexivity|].
    simpl; tauto.
Qed.

Example permute_2x3 :
  permute [1; 0] (mk [2; 3] [1; 2; 3; 4; 5; 6]%Z) = Ok (mk [3; 2] [1; 4; 2; 5; 3; 6]%Z).
Proof. reflexivity. Qed.

Example bmm_1x2x2 :
  bmm (mk [1; 2; 2] [1; 2; 3; 4]%Z) (mk [1; 2; 2] [5; 6; 7; 8]%Z)
  = Ok (mk [1; 2; 2] [19; 22; 43; 50]%Z).
Proof. reflexivity. Qed.

Lemma sumZ_ext (n : nat) (f g : nat -> Z) :
  (forall c, c < n -> f c = g c) -> sumZ n f = sumZ n g.
Proof.
  intros H. unfold sumZ. f_equal. apply map_ext_in.
  intros c Hc. apply in_seq in Hc. apply H. lia.
Qed.

Lemma sumZ_scale (s : Z) (n : nat) (f : nat -> Z) :
  sumZ n (fun c => (s * f c)%Z) = (s * sumZ n f)%Z.
Proof.
  unfold sumZ. induction (seq 0 n) as [|c l IH]; simpl; [lia|].
  rewrite IH. lia.
Qed.

Lemma offset_lt (i j a b : nat) : i < a -> j < b -> i * b + j < a * b.
Proof. intros Hi Hj. nia. Qed.

End OpFacts.

(** ** The cost volume *)

Module CorrFacts.
Import Tensor TensorFacts OpFacts CorrSamples.

Ltac bounds :=
  simpl; repeat split; try assumption; try (apply offset_lt; assumption); try lia; try nia.

(** The three statements that bring a feature map to the layout [bmm] reads:
    entry [(n, p, c)] of the result is channel [h*d + c] of head [h] at pixel
    [(i, j)], where [n = b*heads + h] and [p = i*wd + j]. *)
Lemma fmap_to_bmm (heads d batch ht wd : nat) (fm : tensor) :
  shape fm = [batch; heads * d; ht; wd] -> wf fm ->
  exists a1 a2 a3 a4,
    view [batch; heads; d; ht; wd] fm = Ok a1 /\
    permute [0; 1; 3; 4; 2] a1 = Ok a2 /\
    reshape [batch; heads; ht * wd; d] a2 = Ok a3 /\
    reshape [batch * heads; ht * wd; d] a3 = Ok a4 /\
    shape a4 = [batch * heads; ht * wd; d] /\ wf a4 /\
    forall b h i j c, b < batch -> h < heads -> i < ht -> j < wd -> c < d ->
      get a4 [b * heads + h; i * wd + j; c] = get fm [b; h * d + c; i; j].
Proof.
  intros Hs Hwf.
  destruct (view_inv [batch; heads; d; ht; wd] fm Hwf) as (a1 & E1 & S1 & W1 & G1).
  { rewrite Hs; simpl; ring. }
  destruct (permute_inv [0; 1; 3; 4; 2] a1) as (a2 & E2 & S2 & W2 & G2).
  { rewrite S1; reflexivity. }
  rewrite S1 in S2, G2; simpl in S2, G2.
  destruct (view_inv [batch; heads; ht * wd; d] a2 W2) as (a3 & E3 & S3 & W3 & G3).
  { rewrite S2; simpl; ring. }
  destruct (view_inv [batch * heads; ht * wd; d] a3 W3) as (a4 & E4 & S4 & W4 & G4).
  { rewrite S3; simpl; ring. }
  exists a1, a2, a3, a4. repeat split; try assumption.
  intros b h i j c Hb Hh Hi Hj Hc.
  rewrite G4 by bounds. rewrite S3.
  replace (ravel [batch * heads; ht * wd; d] [b * heads + h; i * wd + j; c])
    with (ravel [batch; heads; ht * wd; d] [b; h; i * wd + j; c]) by (simpl; ring).
  rewrite unravel_ravel by bounds.
  rewrite G3 by bounds. rewrite S2.
  replace (ravel [batch; heads; ht * wd; d] [b; h; i * wd + j; c])
    with (ravel [batch; heads; ht; wd; d] [b; h; i; j; c]) by (simpl; ring).
  rewrite unravel_ravel by bounds.
  rewrite G2 by bounds. unfold unpermute; simpl.
  rewrite G1 by bounds. rewrite Hs.
  replace (ravel [batch; heads; d; ht; wd] [b; h; c; i; j])
    with (ravel [batch; heads * d; ht; wd] [b; h * d + c; i; j]) by (simpl; ring).
  rewrite unravel_ravel by bounds. reflexivity.
Qed.


(** C1. For same-shaped feature maps [(batch, dim, ht, wd)] with [dim]
    divisible by the head count, [corr] returns a tensor of shape
    [(batch, heads, ht, wd, ht, wd)] whose entry [(b, h, i, j, k, l)] is the
    raw dot product of head [h]'s channel group of [fmap1] at pixel [(i, j)]
    with that of [fmap2] at pixel [(k, l)]; with both inputs the same map, the
    entry [(b, h, i, j, i, j)] is the self dot product at pixel [(i, j)]. *)
Theorem corr_entries (heads batch dim ht wd : nat) (fmap1 fmap2 : tensor) :
  shape fmap1 = [batch; dim; ht; wd] ->
  shape fmap2 = [batch; dim; ht; wd] ->
  wf fmap1 -> wf fmap2 ->
  0 < heads -> dim mod heads = 0 ->
  exists c,
    MemoryEncoder.corr heads fmap1 fmap2 = Ok c /\
    shape c = [batch; heads; ht; wd; ht; wd] /\
    wf c /\
    (forall b h i j k l,
        b < batch -> h < heads -> i < ht -> j < wd -> k < ht -> l < wd ->
        get c [b; h; i; j; k; l] =
        dot (dim / heads)
            (fun ch => get fmap1 [b; h * (dim / heads) + ch; i; j])
            (fun ch => get fmap2 [b; h * (dim / heads) + ch; k; l])) /\
    (fmap2 = fmap1 ->
     forall b h i j, b < batch -> h < heads -> i < ht -> j < wd ->
        get c [b; h; i; j; i; j] =
        dot (dim / heads)
            (fun ch => get fmap1 [b; h * (dim / heads) + ch; i; j])
            (fun ch => get fmap1 [b; h * (dim / heads) + ch; i; j])).
Proof.
  intros Hs1 Hs2 Hw1 Hw2 Hheads Hdiv.
  set (d := dim / heads).
  assert (Hdim : dim = heads * d).
  { unfold d. apply Nat.Div0.div_exact. exact Hdiv. }
  rewrite Hdim in Hs1, Hs2.
  destruct (fmap_to_bmm heads d batch ht wd fmap1 Hs1 Hw1)
    as (a1 & a2 & a3 & a4 & Ea1 & Ea2 & Ea3 & Ea4 & Sa & Wa & Ga).
  destruct (fmap_to_bmm heads d batch ht wd fmap2 Hs2 Hw2)
    as (b1 & b2 & b3 & b4 & Eb1 & Eb2 & Eb3 & Eb4 & Sb & Wb & Gb).
  destruct (permute_inv [0; 2; 1] b4) as (bt & Ebt & Sbt & Wbt & Gbt).
  { rewrite Sb; reflexivity. }
  rewrite Sb in Sbt, Gbt; simpl in Sbt, Gbt.
  destruct (bmm_inv a4 bt (batch * heads) (ht * wd) d (ht * wd) Sa Sbt)
    as (cb & Ecb & Scb & Wcb & Gcb).
  destruct (view_inv [batch; heads; ht * wd; ht * wd] cb Wcb)
    as (c1 & Ec1 & Sc1 & Wc1 & Gc1).
  { rewrite Scb; simpl; ring. }
  destruct (permute_inv [0; 2; 1; 3] c1) as (c2 & Ec2 & Sc2 & Wc2 & Gc2).
  { rewrite Sc1; reflexivity. }
  rewrite Sc1 in Sc2, Gc2; simpl in Sc2, Gc2.
  destruct (view_inv [batch * ht * wd; heads; ht; wd] c2 Wc2)
    as (c3 & Ec3 & Sc3 & Wc3 & Gc3).
  { rewrite Sc2; simpl; ring. }
  destruct (view_inv [batch; ht * wd; heads; ht * wd] c3 Wc3)
    as (c4 & Ec4 & Sc4 & Wc4 & Gc4).
  { rewrite Sc3; simpl; ring. }
  destruct (permute_inv [0; 2; 1; 3] c4) as (c5 & Ec5 & Sc5 & Wc5 & Gc5).
  { rewrite Sc4; reflexivity. }
  rewrite Sc4 in Sc5, Gc5; simpl in Sc5, Gc5.
  destruct (view_inv [batch; heads; ht; wd; ht; wd] c5 Wc5)
    as (c6 & Ec6 & Sc6 & Wc6 & Gc6).
  { rewrite Sc5; simpl; ring. }
  assert (Hentry : forall b h i j k l,
             b < batch -> h < heads -> i < ht -> j < wd -> k < ht -> l < wd ->
             get c6 [b; h; i; j; k; l] =
             dot d (fun ch => get fmap1 [b; h * d + ch; i; j])
                   (fun ch => get fmap2 [b; h * d + ch; k; l])).
  { intros b h i j k l Hb Hh Hi Hj Hk Hl.
    rewrite Gc6 by bounds. rewrite Sc5.
    replace (ravel [batch; heads; ht; wd; ht; wd] [b; h; i; j; k; l])
      with (ravel [batch; heads; ht * wd; ht * wd] [b; h; i * wd + j; k * wd + l])
      by (simpl; ring).
    rewrite unravel_ravel by bounds.
    rewrite Gc5 by bounds. unfold unpermute; simpl.
    rewrite Gc4 by bounds. rewrite Sc3.
    assert (Hflat : ravel [batch; ht * wd; heads; ht * wd] [b; i * wd + j; h; k * wd + l]
                    < numel [batch * ht * wd; heads; ht; wd]).
    { replace (numel [batch * ht * wd; heads; ht; wd])
        with (numel [batch; ht * wd; heads; ht * wd]) by (simpl; ring).
      apply ravel_lt; bounds. }
    rewrite Gc3 by (apply unravel_in_bounds; exact Hflat).
    rewrite ravel_unravel by exact Hflat.
    rewrite Sc2, unravel_ravel by bounds.
    rewrite Gc2 by bounds. unfold unpermute; simpl.
    rewrite Gc1 by bounds. rewrite Scb.
    replace (ravel [batch; heads; ht * wd; ht * wd] [b; h; i * wd + j; k * wd + l])
      with (ravel [batch * heads; ht * wd; ht * wd] [b * heads + h; i * wd + j; k * wd + l])
      by (simpl; ring).
    rewrite unravel_ravel by bounds.
    rewrite Gcb by bounds.
    unfold dot. apply sumZ_ext. intros ch Hch.
    rewrite Ga by assumption.
    rewrite Gbt by bounds. unfold unpermute; simpl.
    rewrite Gb by assumption. reflexivity. }
  exists c6. repeat split; try assumption.
  - unfold MemoryEncoder.corr. rewrite Hs1. unfold floordiv.
    replace (heads * d / heads) with d
      by (symmetry; rewrite Nat.mul_comm; apply Nat.div_mul; lia).
    destruct (heads =? 0) eqn:Ez; [apply Nat.eqb_eq in Ez; lia|].
    cbn [bind].
    rewrite Ea1; cbn [bind]. rewrite Ea2; cbn [bind]. rewrite Ea3; cbn [bind].
    rewrite Eb1; cbn [bind]. rewrite Eb2; cbn [bind]. rewrite Eb3; cbn [bind].
    rewrite Ea4; cbn [bind]. rewrite Eb4; cbn [bind].
    unfold transpose. rewrite Sb. cbn [List.length seq swap map Nat.eqb].
    rewrite Ebt; cbn [bind]. rewrite Ecb; cbn [bind].
    rewrite Ec1; cbn [bind]. rewrite Ec2; cbn [bind].
    unfold reshape. rewrite Ec3; cbn [bind]. rewrite Ec4; cbn [bind].
    rewrite Ec5; cbn [bind]. exact Ec6.
  - intros ->. intros b h i j Hb Hh Hi Hj. now apply Hentry.
Qed.


Example corr_fmap_a_b :
  MemoryEncoder.corr 2 fmap_a fmap_b = Ok (mk [1; 2; 1; 2; 1; 2] [5; 6; 10; 12; 21; 24; 28; 32]%Z).
Proof. vm_compute. reflexivity. Qed.

Lemma corr_entries_witness :
  exists c,
    MemoryEncoder.corr 2 fmap_a fmap_b = Ok c /\
    shape c = [1; 2; 1; 2; 1; 2] /\
    wf c /\
    (forall b h i j k l,
        b < 1 -> h < 2 -> i < 1 -> j < 2 -> k < 1 -> l < 2 ->
        get c [b; h; i; j; k; l] =
        dot (2 / 2)
            (fun ch => get fmap_a [b; h * (2 / 2) + ch; i; j])
            (fun ch => get fmap_b [b; h * (2 / 2) + ch; k; l])) /\
    (fmap_b = fmap_a ->
     forall b h i j, b < 1 -> h < 2 -> i < 1 -> j < 2 ->
        get c [b; h; i; j; i; j] =
        dot (2 / 2)
            (fun ch => get fmap_a [b; h * (2 / 2) + ch; i; j])
            (fun ch => get fmap_a [b; h * (2 / 2) + ch; i; j])).
Proof.
  apply (corr_entries 2 1 2 1 2 fmap_a fmap_b);
    [reflexivity | reflexivity | reflexivity | reflexivity | lia | reflexivity].
Defined.

(** *** Scaling *)







End CorrFacts.

(** ** The cost volume under rounding *)

Module Float32Facts.
Import Tensor TensorFacts OpFacts CorrFacts CorrSamples Float32.

Lemma round24_opp (z : Z) : round24 (- z) = (- round24 z)%Z.
Proof.
  unfold round24. rewrite Z.abs_opp, Z.sgn_opp.
  destruct (Z.abs z <? 2 ^ 24)%Z; [reflexivity|].
  cbv zeta. lia.
Qed.

Example round24_ties :
  round24 16785409 = 16785408%Z /\ round24 50356227 = 50356228%Z /\
  round24 16777217 = 16777216%Z /\ round24 16777219 = 16777220%Z /\
  round24 16777215 = 16777215%Z.
Proof. repeat split. Qed.





(** On float32 values the products by [1] and by [-1] are exact: the rounded
    and the exact scaling agree. *)
Lemma scale32_sign (s : Z) (t : tensor) :
  s = 1%Z \/ s = (-1)%Z -> Forall (fun x => round24 x = x) (data t) ->
  scale32 s t = scale s t.
Proof.
  intros Hs Hrep. unfold scale32, scale. f_equal. apply map_ext_in.
  intros x Hx. rewrite Forall_forall in Hrep. specialize (Hrep x Hx).
  unfold mul32. destruct Hs as [->| ->].
  - now rewrite Z.mul_1_l, Hrep.
  - replace (-1 * x)%Z with (- x)%Z by lia. now rewrite round24_opp, Hrep.
Qed.


Section Corr.

Variable dot32 : list (Z * Z) -> Z.

(** Rounding is symmetric in the sign: flipping the sign of every left or of
    every right factor flips the sign of the inner product, whatever the
    order of its additions. *)
Hypothesis dot32_opp_l :
  forall l, dot32 (map (fun p => (- fst p, snd p)%Z) l) = (- dot32 l)%Z.
Hypothesis dot32_opp_r :
  forall l, dot32 (map (fun p => (fst p, - snd p)%Z) l) = (- dot32 l)%Z.




End Corr.


End Float32Facts.

(** ** Padding and cropping *)

Module PadderFacts.
Import InputPadder.

Example pad_sample_image :
  fmap (map image_shape)
       (p <- init (image_shape sample_image) sintel ;; pad p [sample_image])
  = Ok [[1; 1; 8; 8]].
Proof. vm_compute. reflexivity. Qed.

Example replicate_pad_row :
  replicate_pad 2 3 0%Z [7; 8; 9]%Z = [7; 7; 7; 8; 9; 9; 9; 9]%Z.
Proof. reflexivity. Qed.

Example py_slice_negative_bound :
  py_slice 1 (-2) [10; 20; 30; 40; 50]%Z = [20; 30]%Z.
Proof. reflexivity. Qed.

Lemma clamp_nonneg (n : nat) (i : Z) :
  (0 <= i)%Z -> clamp_index n i = Nat.min (Z.to_nat i) n.
Proof.
  intros Hi. unfold clamp_index.
  destruct (i <? 0)%Z eqn:E; [apply Z.ltb_lt in E; lia | reflexivity].
Qed.

(** Cropping a list that was padded on both sides gives the list back. *)
Lemma slice_replicate_pad {A : Type} (before after : Z) (d : A) (l : list A) :
  (0 <= before)%Z -> (0 <= after)%Z ->
  py_slice before
    (Z.of_nat (List.length (replicate_pad before after d l)) - after)
    (replicate_pad before after d l) = l.
Proof.
  intros Hb Ha. unfold replicate_pad, pad_back, pad_front.
  destruct (0 <=? after)%Z eqn:Ea; [|apply Z.leb_gt in Ea; lia].
  destruct (0 <=? before)%Z eqn:Eb; [|apply Z.leb_gt in Eb; lia].
  set (pre := repeat (hd d l) (Z.to_nat before)).
  set (post := repeat (last l d) (Z.to_nat after)).
  assert (Hpre : List.length pre = Z.to_nat before) by apply repeat_length.
  assert (Hpost : List.length post = Z.to_nat after) by apply repeat_length.
  unfold py_slice. rewrite !length_app, Hpre, Hpost.
  rewrite !clamp_nonneg by lia.
  replace (Nat.min (Z.to_nat before) (Z.to_nat before + List.length l + Z.to_nat after))
    with (List.length pre) by lia.
  replace (Nat.min _ _ - List.length pre) with (List.length l) by lia.
  rewrite <- app_assoc, skipn_app, skipn_all, Nat.sub_diag. simpl.
  rewrite firstn_app, firstn_all, Nat.sub_diag. simpl. apply app_nil_r.
Qed.

Lemma length_replicate_pad {A : Type} (before after : Z) (d : A) (l : list A) :
  (0 <= before)%Z -> (0 <= after)%Z ->
  List.length (replicate_pad before after d l)
  = Z.to_nat (Z.of_nat (List.length l) + before + after).
Proof.
  intros Hb Ha. unfold replicate_pad, pad_back, pad_front.
  destruct (0 <=? after)%Z eqn:Ea; [|apply Z.leb_gt in Ea; lia].
  destruct (0 <=? before)%Z eqn:Eb; [|apply Z.leb_gt in Eb; lia].
  rewrite !length_app, !repeat_length. lia.
Qed.

Lemma slice_len_pad (n : nat) (before after : Z) :
  (0 <= before)%Z -> (0 <= after)%Z ->
  slice_len (Z.to_nat (Z.of_nat n + before + after)) before
    (Z.of_nat (Z.to_nat (Z.of_nat n + before + after)) - after) = n.
Proof.
  intros Hb Ha. unfold slice_len. rewrite !clamp_nonneg by lia. lia.
Qed.


Lemma slice_all {A : Type} (n : nat) (l : list A) :
  List.length l = n -> py_slice 0 (Z.of_nat n - 0) l = l.
Proof.
  intros Hn. unfold py_slice. rewrite !clamp_nonneg by lia. rewrite Hn.
  replace (Nat.min (Z.to_nat 0) n) with 0 by lia.
  replace (Nat.min (Z.to_nat (Z.of_nat n - 0)) n - 0) with (List.length l) by lia.
  simpl. apply firstn_all.
Qed.

Lemma map_id_on {A : Type} (f : A -> A) (l : list A) :
  Forall (fun a => f a = a) l -> map f l = l.
Proof. induction 1; simpl; congruence. Qed.

(** With nothing to pad, [unpad] is the identity. *)
Lemma unpad_zero (p : t) (x : image) :
  _pad p = [0; 0; 0; 0]%Z -> wf_image x -> unpad p x = x.
Proof.
  intros Hp [_ Hwf]. destruct x as [N C H W ps]; simpl in *.
  unfold unpad; simpl. rewrite Hp; simpl nth.
  f_equal.
  - unfold slice_len. rewrite !clamp_nonneg by lia. lia.
  - unfold slice_len. rewrite !clamp_nonneg by lia. lia.
  - apply map_id_on. eapply Forall_impl; [|exact Hwf].
    intros pl [Hl Hrows]. simpl in *.
    rewrite (slice_all H) by exact Hl.
    apply map_id_on. eapply Forall_impl; [|exact Hrows].
    intros r Hr. simpl in *. now apply slice_all.
Qed.

(** Cropping what [F.pad] added gives the image back. *)
Lemma unpad_F_pad (p : t) (x : image) (l r u b : Z) :
  _pad p = [l; r; u; b] ->
  (0 <= l)%Z -> (0 <= r)%Z -> (0 <= u)%Z -> (0 <= b)%Z ->
  wf_image x -> 0 < img_C x -> 0 < img_H x -> 0 < img_W x ->
  exists x', F_pad_replicate [l; r; u; b] x = Ok x' /\ unpad p x' = x.
Proof.
  intros Hp Hl Hr Hu Hb [_ Hwf] HC HH HW.
  destruct x as [N C H W ps]; simpl in *.
  unfold F_pad_replicate; simpl.
  destruct (C =? 0) eqn:EC; [apply Nat.eqb_eq in EC; lia|].
  destruct (H =? 0) eqn:EH; [apply Nat.eqb_eq in EH; lia|].
  destruct (W =? 0) eqn:EW; [apply Nat.eqb_eq in EW; lia|].
  simpl.
  destruct (Z.of_nat W + l + r <? 1)%Z eqn:EW'; [apply Z.ltb_lt in EW'; lia|].
  destruct (Z.of_nat H + u + b <? 1)%Z eqn:EH'; [apply Z.ltb_lt in EH'; lia|].
  simpl. eexists; split; [reflexivity|].
  unfold unpad; simpl. rewrite Hp; simpl nth.
  f_equal.
  - now apply slice_len_pad.
  - now apply slice_len_pad.
  - rewrite map_map. apply map_id_on. eapply Forall_impl; [|exact Hwf].
    intros pl [Hlen Hrows]. simpl in *.
    assert (Hout :
      Z.of_nat (Z.to_nat (Z.of_nat H + u + b))
      = Z.of_nat (List.length (replicate_pad u b [] (map (replicate_pad l r 0%Z) pl)))).
    { rewrite length_replicate_pad by assumption. now rewrite length_map, Hlen. }
    rewrite Hout, slice_replicate_pad by assumption.
    rewrite map_map. apply map_id_on. eapply Forall_impl; [|exact Hrows].
    intros row Hrow. simpl in *.
    assert (Hin :
      Z.of_nat (Z.to_nat (Z.of_nat W + l + r))
      = Z.of_nat (List.length (replicate_pad l r 0%Z row))).
    { rewrite length_replicate_pad by assumption. now rewrite Hrow. }
    rewrite Hin. now apply slice_replicate_pad.
Qed.

(** The amounts [__init__] records are never negative (for [kitti400], as
    long as the image is at most 400 rows high). *)
Lemma init_pad_nonneg (dims : list nat) (m : pad_mode) (h w : nat) (rest : list nat) :
  rev dims = w :: h :: rest ->
  (m = kitti400 -> h <= 400) ->
  exists l r u b,
    init dims m = Ok (mk_padder h w [l; r; u; b]) /\
    (0 <= l)%Z /\ (0 <= r)%Z /\ (0 <= u)%Z /\ (0 <= b)%Z.
Proof.
  intros Hd Hk. unfold init. rewrite Hd.
  set (ph := Z.of_nat ((((h / 8) + 1) * 8 - h) mod 8)).
  set (pw := Z.of_nat ((((w / 8) + 1) * 8 - w) mod 8)).
  assert (0 <= ph)%Z by (unfold ph; lia).
  assert (0 <= pw)%Z by (unfold pw; lia).
  assert (0 <= ph / 2 <= ph)%Z by (split; [apply Z.div_pos; lia | apply Z.div_le_upper_bound; lia]).
  assert (0 <= pw / 2 <= pw)%Z by (split; [apply Z.div_pos; lia | apply Z.div_le_upper_bound; lia]).
  destruct m; do 4 eexists; (split; [reflexivity|]); repeat split; try lia.
  specialize (Hk eq_refl). lia.
Qed.

(** C9. Padding an image with a padder built from its shape and cropping the
    result with the recorded amounts gives the image back. *)
Theorem pad_unpad_roundtrip (x : image) (m : pad_mode) :
  wf_image x -> 0 < img_C x -> 0 < img_H x -> 0 < img_W x ->
  (m = kitti400 -> img_H x <= 400) ->
  exists p x',
    init (image_shape x) m = Ok p /\
    pad p [x] = Ok [x'] /\
    unpad p x' = x.
Proof.
  intros Hwf HC HH HW Hk.
  destruct (init_pad_nonneg (image_shape x) m (img_H x) (img_W x) [img_C x; img_N x]
              eq_refl Hk) as (l & r & u & b & Hinit & Hl & Hr & Hu & Hb).
  exists (mk_padder (img_H x) (img_W x) [l; r; u; b]).
  unfold pad; simpl _pad.
  destruct (fold_right Z.add 0 [l; r; u; b] =? 0)%Z eqn:Esum.
  - exists x. repeat split; try assumption.
    apply unpad_zero; [|exact Hwf]. simpl.
    apply Z.eqb_eq in Esum. simpl in Esum.
    repeat f_equal; lia.
  - destruct (unpad_F_pad (mk_padder (img_H x) (img_W x) [l; r; u; b]) x l r u b
                eq_refl Hl Hr Hu Hb Hwf HC HH HW) as (x' & HF & Hun).
    exists x'. repeat split; try assumption.
    cbn [mapM]. rewrite HF. reflexivity.
Qed.

Lemma pad_unpad_roundtrip_witness :
  exists p x',
    init (image_shape sample_image) sintel = Ok p /\
    pad p [sample_image] = Ok [x'] /\
    unpad p x' = sample_image.
Proof.
  apply (pad_unpad_roundtrip sample_image sintel).
  - split; [reflexivity|]. repeat constructor.
  - simpl; lia.
  - simpl; lia.
  - simpl; lia.
  - discriminate.
Defined.

End PadderFacts.

(** ** In-place normalisation of the sampling grid *)

Module SamplerFacts.
Import Sampler.

Section Entries.

Variable elt : Type.
Variable mul_int : Z -> elt -> elt.
Variable div_int : elt -> Z -> elt.
Variable sub_int : elt -> Z -> elt.
Variable gt_int : elt -> Z -> bool.
Variable lt_int : elt -> Z -> bool.
Variable pixels : Type.
Variable sampled : Type.
Variable grid_sample : image pixels -> ctensor elt -> bool -> result sampled.

Local Abbreviation normalize := (normalize mul_int div_int sub_int).
Local Abbreviation bilinear_sampler := (bilinear_sampler mul_int div_int sub_int grid_sample).
Local Abbreviation indexing := (indexing mul_int div_int sub_int gt_int lt_int grid_sample).
Local Abbreviation normalized_vec := (normalized_vec mul_int div_int sub_int).

Lemma upd_same (st : store elt) (r : ref) (t : ctensor elt) : upd st r t r = t.
Proof. unfold upd. now rewrite Nat.eqb_refl. Qed.

Lemma upd_other (st : store elt) (r r' : ref) (t : ctensor elt) :
  r' <> r -> upd st r t r' = st r'.
Proof. intros H. unfold upd. apply Nat.eqb_neq in H. now rewrite H. Qed.

(** [indexing] never writes to the store. *)
Lemma indexing_pure (st : store elt) (img : image pixels) (coords : ref) (mask : bool) :
  fst (indexing img coords mask st) = st.
Proof.
  unfold Sampler.indexing, bindM, read, lift, ret.
  destruct (split_1_1 (st coords)) as [xy|e]; [|reflexivity].
  destruct (grid_sample _ _ _); [|reflexivity].
  now destruct mask.
Qed.

(** The store after [bilinear_sampler]: only [coords] changes. *)
Lemma bilinear_sampler_frame (st : store elt) (img : image pixels) (coords r' : ref) :
  r' <> coords -> fst (bilinear_sampler img coords st) r' = st r'.
Proof.
  intros Hr. unfold Sampler.bilinear_sampler, bindM, setitem_last, read, lift.
  destruct (0 <? last_dim (st coords)); [|reflexivity].
  rewrite upd_same; cbn [last_dim].
  destruct (1 <? last_dim (st coords)); cbn [fst];
    now rewrite ?upd_other by exact Hr.
Qed.

Lemma update_both (img : image pixels) (v : list elt) :
  update_nth 1 (normalize (img_H img)) (update_nth 0 (normalize (img_W img)) v)
  = normalized_vec img v.
Proof. now destruct v as [|x [|y rest]]. Qed.

Lemma bilinear_sampler_coords (st : store elt) (img : image pixels) (coords : ref) :
  wf_ctensor (st coords) ->
  vecs (fst (bilinear_sampler img coords st) coords)
  = map (normalized_vec img) (vecs (st coords)) /\
  last_dim (fst (bilinear_sampler img coords st) coords) = last_dim (st coords).
Proof.
  intros Hwf. unfold Sampler.bilinear_sampler, bindM, setitem_last, read, lift.
  unfold wf_ctensor in Hwf. rewrite Forall_forall in Hwf.
  destruct (0 <? last_dim (st coords)) eqn:E0.
  - rewrite upd_same; cbn [last_dim vecs].
    destruct (1 <? last_dim (st coords)) eqn:E1; cbn [fst];
      rewrite upd_same; cbn [last_dim vecs]; (split; [|reflexivity]).
    + rewrite map_map. apply map_ext. intros v. apply update_both.
    + apply Nat.ltb_ge in E1. apply Nat.ltb_lt in E0.
      apply map_ext_in. intros v Hv. specialize (Hwf v Hv).
      destruct v as [|x [|y rest]]; simpl in *; try lia. reflexivity.
  - apply Nat.ltb_ge in E0. cbn [fst]. split; [|reflexivity].
    rewrite <- (map_id (vecs (st coords))) at 1.
    apply map_ext_in. intros v Hv. specialize (Hwf v Hv).
    destruct v as [|x rest]; simpl in *; [reflexivity | lia].
Qed.

(** C10. [bilinear_sampler] overwrites the caller's [coords] with the
    normalized coordinates (and touches no other object), whether it returns or
    raises; [indexing] leaves the store as it found it. *)
Theorem bilinear_sampler_mutates_coords
    (st : store elt) (img : image pixels) (coords : ref) (mask : bool) :
  wf_ctensor (st coords) ->
  vecs (fst (bilinear_sampler img coords st) coords)
  = map (normalized_vec img) (vecs (st coords)) /\
  last_dim (fst (bilinear_sampler img coords st) coords) = last_dim (st coords) /\
  (forall r', r' <> coords -> fst (bilinear_sampler img coords st) r' = st r') /\
  fst (indexing img coords mask st) = st.
Proof.
  intros Hwf. destruct (bilinear_sampler_coords st img coords Hwf) as [Hv Hd].
  repeat split; try assumption.
  - intros r' Hr. now apply bilinear_sampler_frame.
  - apply indexing_pure.
Qed.

End Entries.

(** Sample run: symbolic entries, a 5 x 9 image, [grid_sample] returning. *)
Example bilinear_sampler_sample :
  vecs (fst (bilinear_sampler Mul Div Sub (fun _ _ _ => Ok tt) sample_image 0 sample_store) 0)
  = [[Sub (Div (Mul 2 (Num 3)) 8) 1; Sub (Div (Mul 2 (Num 1)) 4) 1];
     [Sub (Div (Mul 2 (Num 0)) 8) 1; Sub (Div (Mul 2 (Num 2)) 4) 1]].
Proof. reflexivity. Qed.

Lemma bilinear_sampler_mutates_coords_witness :
  vecs (fst (bilinear_sampler Mul Div Sub (fun _ _ _ => Ok tt) sample_image 0 sample_store) 0)
  = map (normalized_vec Mul Div Sub sample_image) (vecs (sample_store 0)) /\
  last_dim (fst (bilinear_sampler Mul Div Sub (fun _ _ _ => Ok tt) sample_image 0 sample_store) 0)
  = last_dim (sample_store 0) /\
  (forall r', r' <> 0 ->
     fst (bilinear_sampler Mul Div Sub (fun _ _ _ => Ok tt) sample_image 0 sample_store) r'
     = sample_store r') /\
  fst (indexing Mul Div Sub (fun _ _ => true) (fun _ _ => true) (fun _ _ _ => Ok tt)
         sample_image 0 true sample_store) = sample_store.
Proof.
  apply (bilinear_sampler_mutates_coords expr Mul Div Sub (fun _ _ => true)
           (fun _ _ => true) unit unit (fun _ _ _ => Ok tt) sample_store sample_image 0 true).
  repeat constructor.
Defined.

End SamplerFacts.

(** ** Shapes: when the operations succeed *)

Module ShpFacts.
Import Shp.

Lemma view_exact (spec : list size) (s : shp) :
  n_infer spec = 0 -> known spec = numel s -> view spec s = Ok (fill 0 spec).
Proof. intros Hn Hk. unfold view. now rewrite Hn, Hk, Nat.eqb_refl. Qed.

Lemma view_infer (spec : list size) (s : shp) (m : nat) :
  n_infer spec = 1 -> known spec <> 0 -> numel s = known spec * m ->
  view spec s = Ok (fill m spec).
Proof.
  intros Hn Hk Hm. unfold view. rewrite Hn.
  destruct (known spec =? 0) eqn:E; [apply Nat.eqb_eq in E; contradiction|].
  rewrite Hm, Nat.mul_comm, Nat.Div0.mod_mul, Nat.div_mul by exact Hk.
  reflexivity.
Qed.

Lemma linear_ok (in_f out_f : nat) (s : shp) :
  s <> [] -> last s 0 = in_f -> linear in_f out_f s = Ok (set_last out_f s).
Proof.
  intros Hs Hl. unfold linear. destruct s; [contradiction|].
  now rewrite Hl, Nat.eqb_refl.
Qed.

Lemma layer_norm_ok (d : nat) (s : shp) :
  s <> [] -> last s 0 = d -> layer_norm d s = Ok s.
Proof.
  intros Hs Hl. unfold layer_norm. destruct s; [contradiction|].
  now rewrite Hl, Nat.eqb_refl.
Qed.

Lemma conv2d_ok (in_c out_c k stride padding N H W : nat) :
  stride <> 0 -> in_c <> 0 -> out_c <> 0 ->
  k <= H + 2 * padding -> k <= W + 2 * padding ->
  conv2d in_c out_c k stride padding [N; in_c; H; W]
  = Ok [N; out_c; conv_out H k stride padding; conv_out W k stride padding].
Proof.
  intros Hs Hi Ho HH HW. unfold conv2d.
  destruct (stride =? 0) eqn:E; [apply Nat.eqb_eq in E; contradiction|].
  destruct (in_c =? 0) eqn:Ei; [apply Nat.eqb_eq in Ei; contradiction|].
  destruct (out_c =? 0) eqn:Eo; [apply Nat.eqb_eq in Eo; contradiction|].
  cbn [orb].
  rewrite Nat.eqb_refl. simpl negb.
  destruct (H + 2 * padding <? k) eqn:E1; [apply Nat.ltb_lt in E1; lia|].
  destruct (W + 2 * padding <? k) eqn:E2; [apply Nat.ltb_lt in E2; lia|].
  reflexivity.
Qed.

Lemma cat_last4 (a b c d e : nat) :
  cat 3 [a; b; c; d] [a; b; c; e] = Ok [a; b; c; d + e].
Proof. simpl. now rewrite !Nat.eqb_refl. Qed.

Lemma F_pad_hw (B H W C pr pb : nat) :
  F_pad [(0, 0); (0, pr); (0, pb)] [B; H; W; C] = Ok [B; H + pb; W + pr; C].
Proof. unfold F_pad. simpl. now rewrite Nat.add_0_r. Qed.

Lemma F_pad_last2 (B C H W pr pb : nat) :
  F_pad [(0, pr); (0, pb)] [B; C; H; W] = Ok [B; C; H + pb; W + pr].
Proof. reflexivity. Qed.

Lemma pad_to_ok (k n : nat) : k <> 0 -> pad_to k n = Ok ((k - n mod k) mod k).
Proof.
  intros Hk. unfold pad_to, pymod.
  destruct (k =? 0) eqn:E; [apply Nat.eqb_eq in E; contradiction|].
  reflexivity.
Qed.

(** Padding by [(k - n % k) % k] reaches the next multiple of [k]. *)
Lemma padded_multiple (k n : nat) :
  k <> 0 -> ((n + (k - n mod k) mod k) / k) * k = n + (k - n mod k) mod k.
Proof.
  intros Hk.
  pose proof (Nat.div_mod_eq n k) as Hn.
  pose proof (Nat.mod_upper_bound n k Hk) as Hlt.
  destruct (Nat.eq_dec (n mod k) 0) as [Hz|Hnz].
  - rewrite Hz, Nat.sub_0_r, Nat.Div0.mod_same, Nat.add_0_r.
    rewrite Hz, Nat.add_0_r in Hn. rewrite Hn at 1.
    rewrite (Nat.mul_comm k), Nat.div_mul by exact Hk. lia.
  - rewrite (Nat.mod_small (k - n mod k) k) by lia.
    replace (n + (k - n mod k)) with ((n / k + 1) * k) by nia.
    now rewrite Nat.div_mul.
Qed.

Lemma padded_positive (k n : nat) :
  k <> 0 -> 0 < n -> k <= n + (k - n mod k) mod k.
Proof.
  intros Hk Hn.
  pose proof (padded_multiple k n Hk) as Hm.
  destruct ((n + (k - n mod k) mod k) / k) as [|q]; simpl in Hm; lia.
Qed.

Lemma floordiv_ok (a b : nat) : b <> 0 -> floordiv a b = Ok (a / b).
Proof.
  intros Hb. unfold floordiv.
  destruct (b =? 0) eqn:E; [apply Nat.eqb_eq in E; contradiction|reflexivity].
Qed.

(** Five positional arguments never bind to the four parameters of
    [coords_grid]. *)
Lemma coords_grid_five (a b c d e : Utils.pyval) :
  Utils.coords_grid [a; b; c; d; e] = Raise (arity_error "coords_grid" Utils.coords_grid_params 5).
Proof. reflexivity. Qed.

Example coords_grid_message :
  arity_error "coords_grid" Utils.coords_grid_params 5
  = TypeError "coords_grid() takes 4 positional arguments but 5 were given".
Proof. reflexivity. Qed.

Example coords_grid_missing :
  arity_error "coords_grid" Utils.coords_grid_params 3
  = TypeError "coords_grid() missing 1 required positional argument: 'device'" /\
  arity_error "coords_grid" Utils.coords_grid_params 2
  = TypeError "coords_grid() missing 2 required positional arguments: 'wd' and 'device'" /\
  arity_error "coords_grid" Utils.coords_grid_params 1
  = TypeError
      "coords_grid() missing 3 required positional arguments: 'ht', 'wd', and 'device'".
Proof. repeat split. Qed.

(** The channel counts of the three convolutions of [PatchEmbed.proj]. *)
Lemma proj_channels (embed_dim : nat) :
  4 <= embed_dim -> embed_dim / 4 <> 0 /\ embed_dim / 2 <> 0 /\ embed_dim <> 0.
Proof.
  intros H.
  pose proof (Nat.div_mod_eq embed_dim 4). pose proof (Nat.mod_upper_bound embed_dim 4).
  pose proof (Nat.div_mod_eq embed_dim 2). pose proof (Nat.mod_upper_bound embed_dim 2).
  lia.
Qed.

Example coords_grid_four :
  Utils.coords_grid [Utils.PInt 2; Utils.PInt 3; Utils.PInt 5; Utils.PDevice]
  = Ok [2; 2; 3; 5].
Proof. reflexivity. Qed.

End ShpFacts.

(** ** The five-argument calls of [coords_grid] *)

Module ForwardFacts.
Import Shp Utils ShpFacts.

Section Absent.

Variable LinearPositionEmbeddingSine : shp -> nat -> result shp.

Lemma conv_out_6_2_2 (n : nat) :
  2 <= n -> 2 * conv_out n 6 2 2 <= n /\ n <= 2 * conv_out n 6 2 2 + 1.
Proof.
  intros Hn. unfold conv_out.
  pose proof (Nat.div_mod_eq (n + 2 * 2 - 6) 2) as E.
  pose proof (Nat.mod_upper_bound (n + 2 * 2 - 6) 2 ltac:(lia)) as U.
  lia.
Qed.

(** [PatchEmbed.forward] on a batch of cost maps with the configured channel
    count and a non-empty grid. *)
Lemma PatchEmbed_forward_raises (in_chans embed_dim B H W : nat) :
  0 < in_chans -> 4 <= embed_dim -> 0 < H -> 0 < W ->
  PatchEmbed.forward LinearPositionEmbeddingSine (PatchEmbed.init in_chans embed_dim)
    [B; in_chans; H; W]
  = Raise (arity_error "coords_grid" coords_grid_params 5).
Proof.
  intros Hin Hdim HH HW. destruct (proj_channels embed_dim Hdim) as (D4 & D2 & D1).
  unfold PatchEmbed.forward, PatchEmbed.init.
  cbn [unpack4 bind PatchEmbed.patch_size].
  rewrite !pad_to_ok by lia. cbn [bind].
  rewrite F_pad_last2. cbn [bind].
  unfold PatchEmbed.proj. cbn [PatchEmbed.in_chans PatchEmbed.dim].
  pose proof (padded_positive 8 H ltac:(lia) HH) as HH8.
  pose proof (padded_positive 8 W ltac:(lia) HW) as HW8.
  set (H' := H + (8 - H mod 8) mod 8) in *.
  set (W' := W + (8 - W mod 8) mod 8) in *.
  destruct (conv_out_6_2_2 H' ltac:(lia)) as [? ?].
  destruct (conv_out_6_2_2 W' ltac:(lia)) as [? ?].
  rewrite conv2d_ok by lia. cbn [bind].
  destruct (conv_out_6_2_2 (conv_out H' 6 2 2) ltac:(lia)) as [? ?].
  destruct (conv_out_6_2_2 (conv_out W' 6 2 2) ltac:(lia)) as [? ?].
  rewrite conv2d_ok by lia. cbn [bind].
  rewrite conv2d_ok by lia. cbn [bind unpack4].
  rewrite coords_grid_five. reflexivity.
Qed.

Local Arguments Nat.div : simpl never.
Local Arguments Nat.modulo : simpl never.
Local Arguments Nat.mul : simpl never.
Local Arguments Nat.add : simpl never.
Local Arguments Nat.sub : simpl never.

(** [context.repeat(B // context.shape[0], 1, 1, 1)] up to
    [context.view(B, H, W, -1)], for a context whose batch divides [B]. *)
Lemma repeat_context (B Bc H W : nat) :
  Bc <> 0 -> B mod Bc = 0 ->
  repeat_ [B / Bc; 1; 1; 1] [Bc; 256; H; W] = Ok [B; 256; H; W].
Proof.
  intros HBc Hdiv. unfold repeat_. simpl.
  apply Nat.Div0.div_exact in Hdiv.
  rewrite !Nat.mul_1_l. do 2 f_equal. lia.
Qed.

Ltac shape_arith := simpl; try reflexivity; try lia; try nia.

(** Replace an operation on explicit shapes by the shape it computes. *)
Ltac computes op r :=
  replace op with (@Ok shp r) by reflexivity; cbn [bind].

Lemma LocallyGrouped_forward_raises
    (self : LocallyGroupedAttnRPEContext.t) (B Bc H W : nat) :
  let dim := LocallyGroupedAttnRPEContext.dim self in
  let num_heads := LocallyGroupedAttnRPEContext.num_heads self in
  let ws := LocallyGroupedAttnRPEContext.ws self in
  ws <> 0 -> num_heads <> 0 -> dim mod num_heads = 0 ->
  0 < B -> 0 < H -> 0 < W -> Bc <> 0 -> B mod Bc = 0 ->
  LocallyGroupedAttnRPEContext.forward LinearPositionEmbeddingSine self
    [B; H * W; dim] (H, W) (Some [Bc; 256; H; W])
  = Raise (arity_error "coords_grid" coords_grid_params 5).
Proof.
  intros dim num_heads ws Hws Hnh Hdiv HB HH HW HBc HBdiv.
  destruct self as [dim' nh vc ws']. simpl in dim, num_heads, ws.
  subst dim num_heads ws.
  unfold LocallyGroupedAttnRPEContext.forward, reshape.
  cbn [unpack3 bind use_context shape0
       LocallyGroupedAttnRPEContext.dim LocallyGroupedAttnRPEContext.num_heads
       LocallyGroupedAttnRPEContext.ws LocallyGroupedAttnRPEContext.vert_c_dim].
  rewrite floordiv_ok by assumption. cbn [bind].
  rewrite repeat_context by assumption. cbn [bind].
  rewrite (view_infer [D B; Infer; D (H * W)] [B; 256; H; W] 256) by shape_arith.
  cbn [bind fill map].
  computes (permute [0; 2; 1] [B; 256; H * W]) [B; H * W; 256].
  rewrite linear_ok by (discriminate || reflexivity).
  cbn [bind set_last removelast app].
  rewrite (view_infer [D B; D H; D W; Infer] [B; H * W; vc] vc) by shape_arith.
  cbn [bind fill map].
  rewrite (view_exact [D B; D H; D W; D dim'] [B; H * W; dim']) by shape_arith.
  cbn [bind fill map].
  rewrite cat_last4. cbn [bind].
  rewrite !pad_to_ok by assumption. cbn [bind].
  rewrite !F_pad_hw. cbn [bind unpack4].
  rewrite !floordiv_ok by assumption. cbn [bind].
  pose proof (padded_multiple ws' H Hws) as EH.
  pose proof (padded_multiple ws' W Hws) as EW.
  set (Hp := H + (ws' - H mod ws') mod ws') in *.
  set (Wp := W + (ws' - W mod ws') mod ws') in *.
  set (_h := Hp / ws') in *. set (_w := Wp / ws') in *.
  rewrite (view_exact [D B; D _h; D ws'; D _w; D ws'; D dim'] [B; Hp; Wp; dim'])
    by (try reflexivity; simpl; rewrite <- EH, <- EW; ring).
  cbn [bind fill map].
  computes (transpose 2 3 [B; _h; ws'; _w; ws'; dim']) [B; _h; _w; ws'; ws'; dim'].
  rewrite (view_exact [D B; D _h; D ws'; D _w; D ws'; D (dim' + vc)] [B; Hp; Wp; dim' + vc])
    by (try reflexivity; simpl; rewrite <- EH, <- EW; ring).
  cbn [bind fill map].
  computes (transpose 2 3 [B; _h; ws'; _w; ws'; dim' + vc])
           [B; _h; _w; ws'; ws'; dim' + vc].
  rewrite linear_ok by (discriminate || reflexivity).
  cbn [bind set_last removelast app].
  apply Nat.Div0.div_exact in Hdiv.
  set (hd := dim' / nh) in *.
  rewrite (view_exact [D B; D (_h * _w); D (ws' * ws'); D 1; D nh; D hd]
             [B; _h; _w; ws'; ws'; dim'])
    by (try reflexivity; simpl; rewrite Hdiv; ring).
  cbn [bind fill map].
  computes (permute [3; 0; 1; 4; 2; 5] [B; _h * _w; ws' * ws'; 1; nh; hd])
           [1; B; _h * _w; nh; ws' * ws'; hd].
  cbn [index0 bind].
  rewrite coords_grid_five. reflexivity.
Qed.

Lemma GlobalSubSample_forward_raises
    (self : GlobalSubSampleAttnRPEContext.t) (B Bc H W : nat) :
  let dim := GlobalSubSampleAttnRPEContext.dim self in
  let sr_ratio := GlobalSubSampleAttnRPEContext.sr_ratio self in
  sr_ratio <> 0 -> dim <> 0 ->
  0 < B -> 0 < H -> 0 < W -> Bc <> 0 -> B mod Bc = 0 ->
  GlobalSubSampleAttnRPEContext.forward LinearPositionEmbeddingSine self
    [B; H * W; dim] (H, W) (Some [Bc; 256; H; W])
  = Raise (arity_error "coords_grid" coords_grid_params 5).
Proof.
  intros dim sr_ratio Hsr Hdim HB HH HW HBc HBdiv.
  destruct self as [dim' nh vc sr has]. simpl in dim, sr_ratio.
  subst dim sr_ratio.
  unfold GlobalSubSampleAttnRPEContext.forward, reshape.
  cbn [unpack3 bind use_context shape0
       GlobalSubSampleAttnRPEContext.dim GlobalSubSampleAttnRPEContext.num_heads
       GlobalSubSampleAttnRPEContext.sr_ratio GlobalSubSampleAttnRPEContext.vert_c_dim].
  rewrite floordiv_ok by assumption. cbn [bind].
  rewrite repeat_context by assumption. cbn [bind].
  rewrite (view_infer [D B; Infer; D (H * W)] [B; 256; H; W] 256) by shape_arith.
  cbn [bind fill map].
  computes (permute [0; 2; 1] [B; 256; H * W]) [B; H * W; 256].
  rewrite linear_ok by (discriminate || reflexivity).
  cbn [bind set_last removelast app].
  rewrite (view_infer [D B; D H; D W; Infer] [B; H * W; vc] vc) by shape_arith.
  cbn [bind fill map].
  rewrite (view_exact [D B; D H; D W; D dim'] [B; H * W; dim']) by shape_arith.
  cbn [bind fill map].
  rewrite cat_last4. cbn [bind].
  rewrite !pad_to_ok by assumption. cbn [bind].
  rewrite !F_pad_hw. cbn [bind unpack4].
  set (Hp := H + (sr - H mod sr) mod sr).
  set (Wp := W + (sr - W mod sr) mod sr).
  rewrite (view_infer [D B; Infer; D dim'] [B; Hp; Wp; dim'] (Hp * Wp)) by shape_arith.
  cbn [bind fill map].
  rewrite (view_infer [D B; Infer; D (dim' + vc)] [B; Hp; Wp; dim' + vc] (Hp * Wp))
    by shape_arith.
  cbn [bind fill map].
  rewrite coords_grid_five. reflexivity.
Qed.

(** *** No input gets past the call *)

Ltac no_return :=
  repeat match goal with
  | E : coords_grid [_; _; _; _; _] = Ok _ |- _ =>
      rewrite coords_grid_five in E; discriminate E
  | |- is_ok (bind ?m _) = false =>
      destruct m eqn:?; cbn [bind is_ok]; [|reflexivity]
  | |- is_ok (match ?p with pair _ _ => _ end) = false => destruct p
  end.

Lemma PatchEmbed_forward_no_return (self : PatchEmbed.t) (x : shp) :
  is_ok (PatchEmbed.forward LinearPositionEmbeddingSine self x) = false.
Proof. unfold PatchEmbed.forward. no_return. Qed.

Lemma LocallyGrouped_forward_no_return (self : LocallyGroupedAttnRPEContext.t)
    (x : shp) (size : nat * nat) (context : option shp) :
  is_ok (LocallyGroupedAttnRPEContext.forward LinearPositionEmbeddingSine self
           x size context) = false.
Proof. unfold LocallyGroupedAttnRPEContext.forward. no_return. Qed.

Lemma GlobalSubSample_forward_no_return (self : GlobalSubSampleAttnRPEContext.t)
    (x : shp) (size : nat * nat) (context : option shp) :
  is_ok (GlobalSubSampleAttnRPEContext.forward LinearPositionEmbeddingSine self
           x size context) = false.
Proof. unfold GlobalSubSampleAttnRPEContext.forward. no_return. Qed.

End Absent.

(** The claim C3 as stated fails here: without a context tensor the
    attention raises [AttributeError] at [context.repeat], and a tokenizer
    whose first convolution has no output channel raises [RuntimeError] in
    [self.proj]; neither reaches the call of [coords_grid]. *)
Lemma forward_raises_before_coords_grid :
  LocallyGroupedAttnRPEContext.forward Attention.LinearPositionEmbeddingSine
    EncoderSamples.sample_local [2; 1; 8] (1, 1) None
  = Raise (AttributeError "'NoneType' object has no attribute 'repeat'") /\
  GlobalSubSampleAttnRPEContext.forward Attention.LinearPositionEmbeddingSine
    EncoderSamples.sample_global [2; 1; 8] (1, 1) None
  = Raise (AttributeError "'NoneType' object has no attribute 'repeat'") /\
  (exists msg,
     PatchEmbed.forward Attention.LinearPositionEmbeddingSine (PatchEmbed.init 1 3)
       [1; 1; 8; 8]
     = Raise (RuntimeError msg)).
Proof. split; [|split]; [reflexivity | reflexivity | eexists; reflexivity]. Qed.

(** C3, amended.  [PatchEmbed.forward], [LocallyGroupedAttnRPEContext.forward]
    and [GlobalSubSampleAttnRPEContext.forward] each call [coords_grid] with
    five positional arguments, and [coords_grid] binds exactly four: on no
    input does any of them return, and on every input that reaches the call
    (a non-empty grid with the configured channels, convolutions with at
    least one channel, a context tensor whose batch divides the batch of [x])
    the exception is the [TypeError] of that call. *)
Theorem coords_grid_arity_TypeError (LinearPositionEmbeddingSine : shp -> nat -> result shp) :
  (forall args, List.length args <> 4 ->
     coords_grid args = Raise (arity_error "coords_grid" coords_grid_params (List.length args))) /\
  (forall in_chans embed_dim B H W,
     0 < in_chans -> 4 <= embed_dim -> 0 < H -> 0 < W ->
     PatchEmbed.forward LinearPositionEmbeddingSine (PatchEmbed.init in_chans embed_dim)
       [B; in_chans; H; W]
     = Raise (TypeError "coords_grid() takes 4 positional arguments but 5 were given")) /\
  (forall self B Bc H W,
     LocallyGroupedAttnRPEContext.ws self <> 0 ->
     LocallyGroupedAttnRPEContext.num_heads self <> 0 ->
     LocallyGroupedAttnRPEContext.dim self mod LocallyGroupedAttnRPEContext.num_heads self = 0 ->
     0 < B -> 0 < H -> 0 < W -> Bc <> 0 -> B mod Bc = 0 ->
     LocallyGroupedAttnRPEContext.forward LinearPositionEmbeddingSine self
       [B; H * W; LocallyGroupedAttnRPEContext.dim self] (H, W) (Some [Bc; 256; H; W])
     = Raise (TypeError "coords_grid() takes 4 positional arguments but 5 were given")) /\
  (forall self B Bc H W,
     GlobalSubSampleAttnRPEContext.sr_ratio self <> 0 ->
     GlobalSubSampleAttnRPEContext.dim self <> 0 ->
     0 < B -> 0 < H -> 0 < W -> Bc <> 0 -> B mod Bc = 0 ->
     GlobalSubSampleAttnRPEContext.forward LinearPositionEmbeddingSine self
       [B; H * W; GlobalSubSampleAttnRPEContext.dim self] (H, W) (Some [Bc; 256; H; W])
     = Raise (TypeError "coords_grid() takes 4 positional arguments but 5 were given")) /\
  (forall self x,
     is_ok (PatchEmbed.forward LinearPositionEmbeddingSine self x) = false) /\
  (forall self x size context,
     is_ok (LocallyGroupedAttnRPEContext.forward LinearPositionEmbeddingSine self
              x size context) = false) /\
  (forall self x size context,
     is_ok (GlobalSubSampleAttnRPEContext.forward LinearPositionEmbeddingSine self
              x size context) = false).
Proof.
  repeat split.
  - intros args Hlen. unfold coords_grid, bind_positional.
    change (List.length coords_grid_params) with 4.
    destruct (List.length args =? 4) eqn:E; [apply Nat.eqb_eq in E; contradiction|].
    reflexivity.
  - intros. now apply PatchEmbed_forward_raises.
  - intros. now apply LocallyGrouped_forward_raises.
  - intros. now apply GlobalSubSample_forward_raises.
  - intros. apply PatchEmbed_forward_no_return.
  - intros. apply LocallyGrouped_forward_no_return.
  - intros. apply GlobalSubSample_forward_no_return.
Qed.

Lemma coords_grid_arity_TypeError_witness :
  PatchEmbed.forward Attention.LinearPositionEmbeddingSine (PatchEmbed.init 1 4)
    [1; 1; 8; 8]
  = Raise (TypeError "coords_grid() takes 4 positional arguments but 5 were given") /\
  LocallyGroupedAttnRPEContext.forward Attention.LinearPositionEmbeddingSine
    EncoderSamples.sample_local [2; 1 * 1; 8] (1, 1) (Some [1; 256; 1; 1])
  = Raise (TypeError "coords_grid() takes 4 positional arguments but 5 were given") /\
  GlobalSubSampleAttnRPEContext.forward Attention.LinearPositionEmbeddingSine
    EncoderSamples.sample_global [2; 1 * 1; 8] (1, 1) (Some [1; 256; 1; 1])
  = Raise (TypeError "coords_grid() takes 4 positional arguments but 5 were given").
Proof.
  destruct (coords_grid_arity_TypeError Attention.LinearPositionEmbeddingSine)
    as (_ & HP & HL & HG & _).
  split; [|split].
  - apply (HP 1 4 1 8 8); lia.
  - apply (HL EncoderSamples.sample_local 2 1 1 1); simpl; lia.
  - apply (HG EncoderSamples.sample_global 2 1 1 1); simpl; lia.
Defined.

End ForwardFacts.

(** ** Construction: head counts and window sizes *)

Module InitFacts.
Import Shp ShpFacts EncoderSamples.

Lemma assert_heads_fails (dim num_heads : nat) :
  num_heads <> 0 -> dim mod num_heads <> 0 ->
  assert_heads dim num_heads = Raise (AssertionError (heads_message dim num_heads)).
Proof.
  intros Hnh Hdiv. unfold assert_heads, pymod.
  destruct (num_heads =? 0) eqn:E; [apply Nat.eqb_eq in E; contradiction|].
  cbn [bind]. unfold py_assert.
  destruct (dim mod num_heads =? 0) eqn:E'; [apply Nat.eqb_eq in E'; contradiction|].
  reflexivity.
Qed.

Lemma assert_heads_passes (dim num_heads : nat) :
  num_heads <> 0 -> dim mod num_heads = 0 -> assert_heads dim num_heads = Ok tt.
Proof.
  intros Hnh Hdiv. unfold assert_heads, pymod.
  destruct (num_heads =? 0) eqn:E; [apply Nat.eqb_eq in E; contradiction|].
  cbn [bind]. now rewrite Hdiv.
Qed.

Example heads_message_sample :
  heads_message 100 8 = "dim 100 should be divided by num_heads 8."%string.
Proof. reflexivity. Qed.

(** [corr] on a non-empty feature map whose channels the head count does not
    divide: the first [view] refuses the sizes. *)
Lemma corr_indivisible (heads batch dim ht wd : nat) (fmap1 fmap2 : Tensor.tensor) :
  Tensor.shape fmap1 = [batch; dim; ht; wd] ->
  heads <> 0 -> dim mod heads <> 0 ->
  0 < batch -> 0 < ht -> 0 < wd ->
  MemoryEncoder.corr heads fmap1 fmap2
  = Raise (RuntimeError "shape is invalid for input size").
Proof.
  intros Hs Hh Hdiv Hb Hht Hwd. unfold MemoryEncoder.corr.
  rewrite Hs, floordiv_ok by exact Hh. cbn [bind].
  unfold Tensor.view. rewrite Hs.
  destruct (Tensor.numel [batch; heads; dim / heads; ht; wd]
            =? Tensor.numel [batch; dim; ht; wd]) eqn:E; [|reflexivity].
  exfalso. apply Nat.eqb_eq in E. simpl in E.
  apply Nat.mul_cancel_l in E; [|lia].
  rewrite Nat.mul_assoc in E.
  apply Nat.mul_cancel_r in E; [|nia].
  pose proof (Nat.div_mod_eq dim heads) as Hd. lia.
Qed.

(** Whatever the correlation head count and the feature width, the encoder
    is constructed as soon as the backbone is and the latent width is a
    positive multiple of the 8 attention heads. *)
Lemma MemoryEncoder_init_ignores_cost_heads (cfg : config) :
  0 < cost_latent_dim cfg -> cost_latent_dim cfg mod 8 = 0 ->
  is_ok (MemoryEncoder.init (Ok tt) cfg) = true.
Proof.
  intros Hpos Hdiv.
  assert (Hhd : cost_latent_dim cfg / 8 <> 0).
  { pose proof (Nat.div_mod_eq (cost_latent_dim cfg) 8). lia. }
  assert (Hscale : scale_of (cost_latent_dim cfg) 8 = Ok (cost_latent_dim cfg / 8)).
  { unfold scale_of. rewrite floordiv_ok by lia. cbn [bind].
    destruct (cost_latent_dim cfg / 8 =? 0) eqn:E; [apply Nat.eqb_eq in E; lia|].
    reflexivity. }
  assert (Hassert : assert_heads (cost_latent_dim cfg) 8 = Ok tt)
    by (apply assert_heads_passes; [lia | exact Hdiv]).
  unfold MemoryEncoder.init, CostPerceiverEncoder.init. cbn [bind].
  unfold CrossAttentionLayer.init.
  repeat (rewrite ?Hassert, ?Hscale; cbn [bind]).
  assert (Hself : SelfAttentionLayer.init (cost_latent_dim cfg) 8
                  = Ok (SelfAttentionLayer.mk (cost_latent_dim cfg) 8)).
  { unfold SelfAttentionLayer.init. rewrite Hassert. cbn [bind].
    now rewrite Hscale. }
  assert (Hvert : is_ok (VerticalSelfAttentionLayer.init (cost_latent_dim cfg) cfg 8) = true).
  { unfold VerticalSelfAttentionLayer.init, Block.init,
      LocallyGroupedAttnRPEContext.init, GlobalSubSampleAttnRPEContext.init.
    repeat (rewrite ?Hassert, ?Hscale;
            cbn [bind Nat.eqb negb py_assert fmap is_ok]).
    reflexivity. }
  destruct (VerticalSelfAttentionLayer.init (cost_latent_dim cfg) cfg 8) as [v|e];
    [|discriminate].
  rewrite Hself.
  induction (encoder_depth cfg) as [|n IH]; [reflexivity|].
  cbn [CostPerceiverEncoder.build bind] in *.
  destruct (CostPerceiverEncoder.build n (Ok (SelfAttentionLayer.mk (cost_latent_dim cfg) 8)));
    [|discriminate].
  cbn [bind] in *.
  destruct (CostPerceiverEncoder.build n (Ok v)); [reflexivity | discriminate].
Qed.

(** The claim C4 as stated fails here: three correlation heads for 256 feature
    channels, and the encoder is constructed all the same. *)
Lemma cost_heads_unchecked_at_construction :
  encoder_latent_dim odd_heads_cfg mod cost_heads_num odd_heads_cfg <> 0 /\
  is_ok (MemoryEncoder.init (Ok tt) odd_heads_cfg) = true.
Proof. split; [discriminate | reflexivity]. Qed.

(** C4, amended.  A non-zero head count that does not divide the token
    dimension makes the constructors of [SelfAttentionLayer] and
    [CrossAttentionLayer] raise [AssertionError] with the message
    "dim ... should be divided by num_heads ...".  The correlation head count
    is not checked when [MemoryEncoder] is constructed; when it does not
    divide the channels of a non-empty feature map, [corr] raises at its first
    [view] instead of truncating the channels. *)
Theorem head_count_checks :
  (forall dim num_heads,
     num_heads <> 0 -> dim mod num_heads <> 0 ->
     SelfAttentionLayer.init dim num_heads
     = Raise (AssertionError (heads_message dim num_heads))) /\
  (forall qk_dim v_dim query_token_dim tgt_token_dim num_heads,
     num_heads <> 0 -> qk_dim mod num_heads <> 0 ->
     CrossAttentionLayer.init qk_dim v_dim query_token_dim tgt_token_dim num_heads
     = Raise (AssertionError (heads_message qk_dim num_heads))) /\
  (forall qk_dim v_dim query_token_dim tgt_token_dim num_heads,
     num_heads <> 0 -> qk_dim mod num_heads = 0 -> v_dim mod num_heads <> 0 ->
     CrossAttentionLayer.init qk_dim v_dim query_token_dim tgt_token_dim num_heads
     = Raise (AssertionError (heads_message v_dim num_heads))) /\
  (forall cfg,
     0 < cost_latent_dim cfg -> cost_latent_dim cfg mod 8 = 0 ->
     is_ok (MemoryEncoder.init (Ok tt) cfg) = true) /\
  (forall heads batch dim ht wd fmap1 fmap2,
     Tensor.shape fmap1 = [batch; dim; ht; wd] ->
     heads <> 0 -> dim mod heads <> 0 ->
     0 < batch -> 0 < ht -> 0 < wd ->
     MemoryEncoder.corr heads fmap1 fmap2
     = Raise (RuntimeError "shape is invalid for input size")).
Proof.
  repeat split.
  - intros dim nh Hnh Hdiv. unfold SelfAttentionLayer.init.
    now rewrite assert_heads_fails.
  - intros qk v q t nh Hnh Hdiv. unfold CrossAttentionLayer.init.
    now rewrite assert_heads_fails.
  - intros qk v q t nh Hnh Hqk Hv. unfold CrossAttentionLayer.init.
    rewrite assert_heads_passes by assumption. cbn [bind].
    now rewrite assert_heads_fails.
  - apply MemoryEncoder_init_ignores_cost_heads.
  - intros. eapply corr_indivisible; eassumption.
Qed.

Lemma head_count_checks_witness :
  SelfAttentionLayer.init 100 8
  = Raise (AssertionError "dim 100 should be divided by num_heads 8.") /\
  CrossAttentionLayer.init 100 64 64 128 8
  = Raise (AssertionError "dim 100 should be divided by num_heads 8.") /\
  CrossAttentionLayer.init 64 100 64 128 8
  = Raise (AssertionError "dim 100 should be divided by num_heads 8.") /\
  is_ok (MemoryEncoder.init (Ok tt) odd_heads_cfg) = true /\
  MemoryEncoder.corr 2 fmap_3ch fmap_3ch
  = Raise (RuntimeError "shape is invalid for input size").
Proof.
  destruct head_count_checks as (HS & HC1 & HC2 & HM & HR).
  split; [|split; [|split; [|split]]].
  - apply (HS 100 8); [lia | discriminate].
  - apply (HC1 100 64 64 128 8); [lia | discriminate].
  - apply (HC2 64 100 64 128 8); [lia | reflexivity | discriminate].
  - apply (HM odd_heads_cfg); [simpl; lia | reflexivity].
  - apply (HR 2 1 3 1 1 fmap_3ch fmap_3ch); try reflexivity; try lia; discriminate.
Defined.

(** The claim C2 as stated fails here: a local-window attention with window
    size 1 is not constructed at all. *)
Lemma local_window_ws_1_not_constructed :
  LocallyGroupedAttnRPEContext.init 64 8 1 0 = Raise (AssertionError "").
Proof. reflexivity. Qed.

(** C2, amended.  The constructor of the local-window attention asserts
    [ws != 1] before anything else; a [Block] with [ws = 1] is built on the
    global-subsampled attention and a [Block] with another [ws] on the
    local-window attention. *)
Theorem window_size_one_selects_global :
  (forall dim num_heads vert_c_dim,
     LocallyGroupedAttnRPEContext.init dim num_heads 1 vert_c_dim
     = Raise (AssertionError "")) /\
  (forall dim num_heads mlp_ratio sr_ratio vert_c_dim,
     Block.init dim num_heads mlp_ratio sr_ratio 1 vert_c_dim
     = fmap (fun g => Block.mk dim (Block.Global g) (dim * mlp_ratio))
            (GlobalSubSampleAttnRPEContext.init dim num_heads sr_ratio vert_c_dim)) /\
  (forall dim num_heads mlp_ratio sr_ratio ws vert_c_dim,
     ws <> 1 ->
     Block.init dim num_heads mlp_ratio sr_ratio ws vert_c_dim
     = fmap (fun l => Block.mk dim (Block.Local l) (dim * mlp_ratio))
            (LocallyGroupedAttnRPEContext.init dim num_heads ws vert_c_dim)).
Proof.
  repeat split.
  - intros dim nh mr sr vc. unfold Block.init. cbn [Nat.eqb].
    now destruct (GlobalSubSampleAttnRPEContext.init dim nh sr vc).
  - intros dim nh mr sr ws vc Hws. unfold Block.init.
    destruct (ws =? 1) eqn:E; [apply Nat.eqb_eq in E; contradiction|].
    now destruct (LocallyGroupedAttnRPEContext.init dim nh ws vc).
Qed.

Lemma window_size_one_selects_global_witness :
  LocallyGroupedAttnRPEContext.init 64 8 1 0 = Raise (AssertionError "") /\
  Block.init 64 8 4 4 1 0
  = fmap (fun g => Block.mk 64 (Block.Global g) (64 * 4))
         (GlobalSubSampleAttnRPEContext.init 64 8 4 0) /\
  Block.init 64 8 4 4 7 0
  = fmap (fun l => Block.mk 64 (Block.Local l) (64 * 4))
         (LocallyGroupedAttnRPEContext.init 64 8 7 0).
Proof.
  destruct window_size_one_selects_global as (HL & HG & HW).
  split; [|split].
  - apply (HL 64 8 0).
  - apply (HG 64 8 4 4 0).
  - apply (HW 64 8 4 4 7 0). discriminate.
Defined.

End InitFacts.

(** ** The latent bottleneck *)

Module BottleneckFacts.
Import Shp ShpFacts EncoderSamples.

Lemma broadcast_rev_same (r : list nat) : broadcast_rev r r = Ok r.
Proof.
  induction r as [|x r IH]; [reflexivity|].
  cbn [broadcast_rev]. rewrite IH. cbn [bind]. now rewrite Nat.eqb_refl.
Qed.

Lemma add_same (s : shp) : add s s = Ok s.
Proof. unfold add. rewrite broadcast_rev_same. cbn [fmap]. now rewrite rev_involutive. Qed.

(** The residual [short_cut + x] of the bottleneck: the single latent bank is
    broadcast over the batch of cost maps. *)
Lemma add_latent (n T Dm : nat) : add [1; T; Dm] [n; T; Dm] = Ok [n; T; Dm].
Proof.
  unfold add. cbn [rev app broadcast_rev bind].
  rewrite !Nat.eqb_refl.
  destruct (1 =? n) eqn:E; [apply Nat.eqb_eq in E; subst n|]; reflexivity.
Qed.

Lemma CrossAttentionLayer_init_inv (qk v q t nh : nat) (l : CrossAttentionLayer.t) :
  CrossAttentionLayer.init qk v q t nh = Ok l -> l = CrossAttentionLayer.mk qk v q t nh.
Proof.
  unfold CrossAttentionLayer.init. intros H.
  destruct (assert_heads qk nh); [|discriminate]. cbn [bind] in H.
  destruct (assert_heads v nh); [|discriminate]. cbn [bind] in H.
  destruct (scale_of qk nh); [|discriminate]. cbn [bind] in H.
  now inversion H.
Qed.

Lemma CostPerceiverEncoder_init_inv (cfg : config) (self : CostPerceiverEncoder.t) :
  CostPerceiverEncoder.init cfg = Ok self ->
  CostPerceiverEncoder.cfg self = cfg /\
  CostPerceiverEncoder.latent_tokens self
  = [1; cost_latent_token_num cfg; cost_latent_dim cfg] /\
  CostPerceiverEncoder.input_layer self
  = CrossAttentionLayer.mk (cost_latent_dim cfg) (cost_latent_dim cfg)
      (cost_latent_dim cfg) (cost_latent_input_dim cfg * 2) 8 /\
  CostPerceiverEncoder.build (encoder_depth cfg)
    (SelfAttentionLayer.init (cost_latent_dim cfg) 8)
  = Ok (CostPerceiverEncoder.encoder_layers self) /\
  CostPerceiverEncoder.build (encoder_depth cfg)
    (VerticalSelfAttentionLayer.init (cost_latent_dim cfg) cfg 8)
  = Ok (CostPerceiverEncoder.vertical_encoder_layers self).
Proof.
  unfold CostPerceiverEncoder.init. intros H.
  destruct (CrossAttentionLayer.init _ _ _ _ _) as [l|] eqn:El; [|discriminate].
  cbn [bind] in H.
  destruct (CostPerceiverEncoder.build _ (SelfAttentionLayer.init _ _)) as [ls|] eqn:Es;
    [|discriminate].
  cbn [bind] in H.
  destruct (CostPerceiverEncoder.build _ (VerticalSelfAttentionLayer.init _ _ _))
    as [vs|] eqn:Ev; [|discriminate].
  cbn [bind] in H. inversion H; subst self; clear H. cbn.
  apply CrossAttentionLayer_init_inv in El. subst l. repeat split; reflexivity.
Qed.

Section Absent.

(** [BroadMultiHeadAttention.forward], a parameter. *)
Variable BroadMultiHeadAttention : shp -> shp -> shp -> result shp.

(** C6. Whatever the number [n] of cost maps and the number [M] of patch
    tokens per map (that is, whatever the input resolution), the latent
    cross-attention applied to the learned latent tokens and the patch tokens
    returns [cost_latent_token_num] tokens per map, provided the attention
    itself returns one vector per query. *)
Theorem bottleneck_token_count (cfg : config) (self : CostPerceiverEncoder.t) (n M : nat) :
  CostPerceiverEncoder.init cfg = Ok self ->
  BroadMultiHeadAttention
    [1; cost_latent_token_num cfg; cost_latent_dim cfg]
    [n; M; cost_latent_dim cfg] [n; M; cost_latent_dim cfg]
  = Ok [n; cost_latent_token_num cfg; cost_latent_dim cfg] ->
  CrossAttentionLayer.forward BroadMultiHeadAttention
    (CostPerceiverEncoder.input_layer self) (CostPerceiverEncoder.latent_tokens self)
    [n; M; cost_latent_input_dim cfg * 2]
  = Ok [n; cost_latent_token_num cfg; cost_latent_dim cfg].
Proof.
  intros Hinit Hattn.
  destruct (CostPerceiverEncoder_init_inv cfg self Hinit) as (_ & Hlat & Hlayer & _).
  rewrite Hlat, Hlayer. unfold CrossAttentionLayer.forward, CrossAttentionLayer.ffn.
  cbn [CrossAttentionLayer.qk_dim CrossAttentionLayer.v_dim
       CrossAttentionLayer.query_token_dim CrossAttentionLayer.tgt_token_dim].
  rewrite layer_norm_ok by (discriminate || reflexivity). cbn [bind].
  repeat (rewrite linear_ok by (discriminate || reflexivity);
          cbn [bind set_last removelast app]).
  rewrite Hattn. cbn [bind].
  rewrite linear_ok by (discriminate || reflexivity).
  cbn [bind set_last removelast app].
  rewrite add_latent. cbn [bind].
  rewrite layer_norm_ok by (discriminate || reflexivity). cbn [bind].
  repeat (rewrite linear_ok by (discriminate || reflexivity);
          cbn [bind set_last removelast app]).
  apply add_same.
Qed.

End Absent.

Lemma bottleneck_token_count_witness :
  exists self,
    CostPerceiverEncoder.init sample_cfg = Ok self /\
    CrossAttentionLayer.forward Attention.BroadMultiHeadAttention
      (CostPerceiverEncoder.input_layer self) (CostPerceiverEncoder.latent_tokens self)
      [6; 35; cost_latent_input_dim sample_cfg * 2]
    = Ok [6; cost_latent_token_num sample_cfg; cost_latent_dim sample_cfg].
Proof.
  destruct (CostPerceiverEncoder.init sample_cfg) as [self|e] eqn:E;
    [|vm_compute in E; discriminate E].
  exists self. split; [reflexivity|].
  apply (bottleneck_token_count Attention.BroadMultiHeadAttention sample_cfg self 6 35 E).
  reflexivity.
Defined.

End BottleneckFacts.

(** ** The patch tokenizer and the alternating stack *)

Module StackFacts.
Import Shp Utils ShpFacts ForwardFacts BottleneckFacts EncoderSamples.

Lemma is_ok_bind_false {A B : Type} (m : result A) (k : A -> result B) :
  is_ok m = false -> is_ok (bind m k) = false.
Proof. destruct m; [discriminate | reflexivity]. Qed.

Lemma conv_out_even (n : nat) : 0 < n -> conv_out (2 * n) 6 2 2 = n.
Proof.
  intros Hn. unfold conv_out.
  replace (2 * n + 2 * 2 - 6) with ((n - 1) * 2) by lia.
  rewrite Nat.div_mul by lia. lia.
Qed.

(** On a grid whose sides are multiples of the patch size nothing is padded. *)
Lemma pad_to_multiple (k n : nat) : k <> 0 -> pad_to k (k * n) = Ok 0.
Proof.
  intros Hk. rewrite pad_to_ok by exact Hk.
  rewrite (Nat.mul_comm k n), Nat.Div0.mod_mul, Nat.sub_0_r, Nat.Div0.mod_same.
  reflexivity.
Qed.

(** The three strided convolutions bring an [8h x 8w] map to [h x w]. *)
Lemma proj_grid (in_chans embed_dim B h w : nat) :
  0 < in_chans -> 4 <= embed_dim -> 0 < h -> 0 < w ->
  PatchEmbed.proj (PatchEmbed.init in_chans embed_dim) [B; in_chans; 8 * h; 8 * w]
  = Ok [B; embed_dim; h; w].
Proof.
  intros Hin Hdim Hh Hw. destruct (proj_channels embed_dim Hdim) as (D4 & D2 & D1).
  unfold PatchEmbed.proj, PatchEmbed.init.
  cbn [PatchEmbed.in_chans PatchEmbed.dim].
  replace (8 * h) with (2 * (4 * h)) by lia.
  replace (8 * w) with (2 * (4 * w)) by lia.
  rewrite conv2d_ok by lia. cbn [bind]. rewrite !conv_out_even by lia.
  replace (4 * h) with (2 * (2 * h)) by lia.
  replace (4 * w) with (2 * (2 * w)) by lia.
  rewrite conv2d_ok by lia. cbn [bind]. rewrite !conv_out_even by lia.
  rewrite conv2d_ok by lia. now rewrite !conv_out_even by lia.
Qed.

(** X1.  What the tokenizer computes before it calls [coords_grid]: on an
    [8h x 8w] map both padding amounts are 0 and the grid is [h x w], for a
    tokenizer each of whose convolutions has a channel ([in_chans > 0],
    [embed_dim >= 4]). *)
Lemma PatchEmbed_grid_on_multiples (in_chans embed_dim B h w : nat) :
  0 < in_chans -> 4 <= embed_dim -> 0 < h -> 0 < w ->
  pad_to 8 (8 * w) = Ok 0 /\
  pad_to 8 (8 * h) = Ok 0 /\
  F_pad [(0, 0); (0, 0)] [B; in_chans; 8 * h; 8 * w] = Ok [B; in_chans; 8 * h; 8 * w] /\
  PatchEmbed.proj (PatchEmbed.init in_chans embed_dim) [B; in_chans; 8 * h; 8 * w]
  = Ok [B; embed_dim; h; w].
Proof.
  intros Hin Hdim Hh Hw. split; [|split; [|split]].
  - apply pad_to_multiple. lia.
  - apply pad_to_multiple. lia.
  - rewrite F_pad_last2. now rewrite !Nat.add_0_r.
  - now apply proj_grid.
Qed.

Lemma PatchEmbed_grid_on_multiples_witness :
  pad_to 8 (8 * 3) = Ok 0 /\
  pad_to 8 (8 * 2) = Ok 0 /\
  F_pad [(0, 0); (0, 0)] [5; 1; 8 * 2; 8 * 3] = Ok [5; 1; 8 * 2; 8 * 3] /\
  PatchEmbed.proj (PatchEmbed.init 1 64) [5; 1; 8 * 2; 8 * 3] = Ok [5; 64; 2; 3].
Proof. apply (PatchEmbed_grid_on_multiples 1 64 5 2 3); lia. Defined.

Section Absent.

Variable LinearPositionEmbeddingSine : shp -> nat -> result shp.
Variable MultiHeadAttention : shp -> shp -> shp -> result shp.

(** C7, at the failing input.  On an [8 x 8] cost map the tokenizer pads
    nothing and its convolutions reach a [1 x 1] grid, but the call of
    [coords_grid] raises before any token is produced. *)
Lemma PatchEmbed_forward_8x8 :
  PatchEmbed.forward LinearPositionEmbeddingSine (PatchEmbed.init 1 64) [1; 1; 8; 8]
  = Raise (TypeError "coords_grid() takes 4 positional arguments but 5 were given").
Proof. reflexivity. Qed.

Lemma Block_forward_no_return (self : Block.t) (x : shp) (size : nat * nat)
    (context : option shp) :
  is_ok (Block.forward LinearPositionEmbeddingSine self x size context) = false.
Proof.
  unfold Block.forward.
  destruct (layer_norm (Block.dim self) x); [|reflexivity]. cbn [bind].
  apply is_ok_bind_false. unfold Block.attn_forward.
  destruct (Block.attn self).
  - apply GlobalSubSample_forward_no_return.
  - apply LocallyGrouped_forward_no_return.
Qed.

Lemma Vertical_forward_no_return (self : VerticalSelfAttentionLayer.t) (x : shp)
    (size : nat * nat) (context : option shp) :
  is_ok (VerticalSelfAttentionLayer.forward LinearPositionEmbeddingSine self
           x size context) = false.
Proof.
  unfold VerticalSelfAttentionLayer.forward.
  apply is_ok_bind_false, Block_forward_no_return.
Qed.

Lemma stack_step_no_return (self : CostPerceiverEncoder.t) (B H1 W1 : nat)
    (context : option shp)
    (layers : SelfAttentionLayer.t * VerticalSelfAttentionLayer.t) (x : shp) :
  is_ok (CostPerceiverEncoder.stack_step LinearPositionEmbeddingSine MultiHeadAttention
           self B H1 W1 context layers x) = false.
Proof.
  unfold CostPerceiverEncoder.stack_step.
  destruct (SelfAttentionLayer.forward _ _ _); [|reflexivity]. cbn [bind].
  destruct (view _ _); [|reflexivity]. cbn [bind].
  destruct (permute _ _); [|reflexivity]. cbn [bind].
  destruct (reshape _ _); [|reflexivity]. cbn [bind].
  apply is_ok_bind_false, Vertical_forward_no_return.
Qed.

Lemma build_length {A : Type} (n : nat) (f : result A) (l : list A) :
  CostPerceiverEncoder.build n f = Ok l -> List.length l = n.
Proof.
  revert l; induction n as [|n IH]; intros l H; cbn in H.
  - now inversion H.
  - destruct f as [a|]; [|discriminate]. cbn [bind] in H.
    destruct (CostPerceiverEncoder.build n (Ok a)) as [r|] eqn:E; [|discriminate].
    cbn [bind] in H. inversion H; subst l. cbn. f_equal. now apply IH.
Qed.

(** X3.  With at least one layer, nothing leaves the stack: the first vertical
    layer raises. *)
Lemma encoder_stack_no_return (cfg : config) (self : CostPerceiverEncoder.t)
    (B H1 W1 : nat) (context : option shp) (x : shp) :
  CostPerceiverEncoder.init cfg = Ok self -> 0 < encoder_depth cfg ->
  is_ok (CostPerceiverEncoder.encoder_stack LinearPositionEmbeddingSine
           MultiHeadAttention self B H1 W1 context x) = false.
Proof.
  intros Hinit Hdepth.
  destruct (CostPerceiverEncoder_init_inv cfg self Hinit) as (_ & _ & _ & Hs & Hv).
  apply build_length in Hs. apply build_length in Hv.
  unfold CostPerceiverEncoder.encoder_stack. apply is_ok_bind_false.
  destruct (CostPerceiverEncoder.encoder_layers self) as [|l ls]; [simpl in Hs; lia|].
  destruct (CostPerceiverEncoder.vertical_encoder_layers self) as [|v vs];
    [simpl in Hv; lia|].
  cbn [combine CostPerceiverEncoder.stack_loop].
  apply is_ok_bind_false, stack_step_no_return.
Qed.

End Absent.

(** C5, at a failing input.  [CostPerceiverEncoder.forward] on a cost volume
    of shape [(1, 1, 1, 1, 8, 8)] with a context of shape [(1, 256, 1, 1)],
    for the encoder of depth 1 and for the one of depth 0: the patch
    tokenizer raises at its call of [coords_grid], so no token tensor enters
    the alternating stack and none leaves it. *)
Theorem CostPerceiverEncoder_forward_never_reaches_stack
    (LinearPositionEmbeddingSine : shp -> nat -> result shp)
    (MultiHeadAttention BroadMultiHeadAttention : shp -> shp -> shp -> result shp) :
  (self <- CostPerceiverEncoder.init sample_cfg ;;
   CostPerceiverEncoder.forward LinearPositionEmbeddingSine MultiHeadAttention
     BroadMultiHeadAttention self [1; 1; 1; 1; 8; 8] (Some [1; 256; 1; 1]))
  = Raise (TypeError "coords_grid() takes 4 positional arguments but 5 were given") /\
  (self <- CostPerceiverEncoder.init depth0_cfg ;;
   CostPerceiverEncoder.forward LinearPositionEmbeddingSine MultiHeadAttention
     BroadMultiHeadAttention self [1; 1; 1; 1; 8; 8] (Some [1; 256; 1; 1]))
  = Raise (TypeError "coords_grid() takes 4 positional arguments but 5 were given").
Proof. split; reflexivity. Qed.

Lemma encoder_stack_no_return_witness :
  exists self,
    CostPerceiverEncoder.init sample_cfg = Ok self /\
    is_ok (CostPerceiverEncoder.encoder_stack Attention.LinearPositionEmbeddingSine
             Attention.MultiHeadAttention self 1 2 3 (Some [1; 256; 2; 3]) [6; 2; 8])
    = false.
Proof.
  destruct (CostPerceiverEncoder.init sample_cfg) as [self|e] eqn:E;
    [|vm_compute in E; discriminate E].
  exists self. split; [reflexivity|].
  apply (encoder_stack_no_return Attention.LinearPositionEmbeddingSine
           Attention.MultiHeadAttention sample_cfg self 1 2 3 (Some [1; 256; 2; 3])
           [6; 2; 8] E).
  simpl; lia.
Defined.

End StackFacts.

(** ** More on the sampling grid: repeated calls, the grid itself, errors *)

Module SamplerMoreFacts.
Import Sampler SamplerFacts MoreSamples.

Section Entries.

Variable elt : Type.
Variable mul_int : Z -> elt -> elt.
Variable div_int : elt -> Z -> elt.
Variable sub_int : elt -> Z -> elt.
Variable gt_int : elt -> Z -> bool.
Variable lt_int : elt -> Z -> bool.
Variable pixels : Type.
Variable sampled : Type.
Variable grid_sample : image pixels -> ctensor elt -> bool -> result sampled.

Local Abbreviation normalize := (normalize mul_int div_int sub_int).
Local Abbreviation bilinear_sampler := (bilinear_sampler mul_int div_int sub_int grid_sample).
Local Abbreviation indexing := (indexing mul_int div_int sub_int gt_int lt_int grid_sample).
Local Abbreviation normalized_vec := (normalized_vec mul_int div_int sub_int).

Lemma normalized_vec_length (img : image pixels) (v : list elt) :
  List.length (normalized_vec img v) = List.length v.
Proof. now destruct v as [|x [|y rest]]. Qed.

Lemma bilinear_sampler_keeps_wf (st : store elt) (img : image pixels) (coords : ref) :
  wf_ctensor (st coords) ->
  wf_ctensor (fst (bilinear_sampler img coords st) coords).
Proof.
  intros Hwf. destruct (bilinear_sampler_coords elt mul_int div_int sub_int pixels sampled grid_sample
                          st img coords Hwf) as [Hv Hd].
  unfold wf_ctensor in *. rewrite Hv, Hd.
  apply Forall_map. eapply Forall_impl; [|exact Hwf].
  intros v Hlen. simpl. now rewrite normalized_vec_length.
Qed.

(** X4.  A second call on the same [coords] normalises what the first call left
    there: the tensor ends up normalised twice, once for each image. *)
Theorem bilinear_sampler_twice
    (st : store elt) (img1 img2 : image pixels) (coords : ref) :
  wf_ctensor (st coords) ->
  vecs (fst (bilinear_sampler img2 coords (fst (bilinear_sampler img1 coords st))) coords)
  = map (fun v => normalized_vec img2 (normalized_vec img1 v)) (vecs (st coords)).
Proof.
  intros Hwf.
  destruct (bilinear_sampler_coords elt mul_int div_int sub_int pixels sampled grid_sample
              st img1 coords Hwf) as [Hv1 _].
  pose proof (bilinear_sampler_keeps_wf st img1 coords Hwf) as Hwf1.
  destruct (bilinear_sampler_coords elt mul_int div_int sub_int pixels sampled grid_sample
              _ img2 coords Hwf1) as [Hv2 _].
  rewrite Hv2, Hv1. apply map_map.
Qed.

Lemma combine_map_same {A B C : Type} (f : A -> B) (g : A -> C) (l : list A) :
  combine (map f l) (map g l) = map (fun a => (f a, g a)) l.
Proof. induction l; simpl; congruence. Qed.

(** The grid [indexing] builds from a tensor of 2-vectors. *)
Lemma indexing_grid (img : image pixels) (t : ctensor elt) :
  last_dim t = 2 -> wf_ctensor t ->
  cat_last
    (map_entries (normalize (img_W img)) (mk_ctensor 1 (map (firstn 1) (vecs t))))
    (map_entries (normalize (img_H img))
       (mk_ctensor 1 (map (fun v => firstn 1 (skipn 1 v)) (vecs t))))
  = mk_ctensor 2 (map (normalized_vec img) (vecs t)).
Proof.
  intros Hd Hwf. unfold cat_last, map_entries. cbn [last_dim vecs Nat.add].
  f_equal. rewrite !map_map, combine_map_same, map_map.
  apply map_ext_in. intros v Hv.
  unfold wf_ctensor in Hwf. rewrite Forall_forall in Hwf. specialize (Hwf v Hv).
  rewrite Hd in Hwf.
  destruct v as [|x [|y [|z rest]]]; simpl in Hwf; try discriminate. reflexivity.
Qed.

(** X5.  On a tensor of 2-vectors [bilinear_sampler] and [indexing] hand the same
    grid to [F.grid_sample], the normalised coordinates: they differ in the
    interpolation mode, and in that only the first writes the grid back into
    [coords]. *)
Theorem samplers_share_grid
    (st : store elt) (img : image pixels) (coords : ref) (mask : bool) :
  last_dim (st coords) = 2 -> wf_ctensor (st coords) ->
  let grid := mk_ctensor 2 (map (normalized_vec img) (vecs (st coords))) in
  snd (bilinear_sampler img coords st) = grid_sample img grid false /\
  fmap fst (snd (indexing img coords mask st)) = grid_sample img grid true /\
  fst (bilinear_sampler img coords st) coords = grid.
Proof.
  intros Hd Hwf grid.
  assert (Hstore : fst (bilinear_sampler img coords st) coords = grid).
  { destruct (bilinear_sampler_coords elt mul_int div_int sub_int pixels sampled grid_sample
                st img coords Hwf) as [Hv Hl].
    destruct (fst (bilinear_sampler img coords st) coords) as [d vs].
    simpl in Hv, Hl. subst grid. now rewrite Hv, Hl, Hd. }
  split; [|split; [|exact Hstore]].
  - revert Hstore.
    unfold Sampler.bilinear_sampler, bindM, setitem_last, read, lift.
    rewrite Hd. cbn [Nat.ltb Nat.leb]. rewrite !upd_same.
    cbn [last_dim Nat.ltb Nat.leb fst snd]. rewrite !upd_same.
    now intros ->.
  - unfold Sampler.indexing, bindM, read, lift, ret, split_1_1.
    rewrite Hd. cbn [Nat.eqb fst snd].
    rewrite indexing_grid by assumption. fold grid.
    destruct (grid_sample img grid true); [|reflexivity].
    now destruct mask.
Qed.

(** X6.  On a tensor whose last axis has size 0 or 1 [bilinear_sampler]
    raises [IndexError] at the component it cannot index: for size 0 at once,
    for size 1 only after it has overwritten component 0 in place.  On a
    tensor whose last axis has any size other than 2 [indexing] raises
    at its [split], before it samples, and writes nothing. *)
Theorem samplers_on_wrong_last_axis
    (st : store elt) (img : image pixels) (coords : ref) (mask : bool) :
  (last_dim (st coords) = 0 ->
     bilinear_sampler img coords st = (st, Raise IndexError)) /\
  (last_dim (st coords) = 1 ->
     snd (bilinear_sampler img coords st) = Raise IndexError /\
     vecs (fst (bilinear_sampler img coords st) coords)
     = map (update_nth 0 (normalize (img_W img))) (vecs (st coords))) /\
  (last_dim (st coords) <> 2 ->
     exists msg, indexing img coords mask st = (st, Raise (RuntimeError msg))).
Proof.
  split; [|split].
  - intros Hd. unfold Sampler.bilinear_sampler, bindM, setitem_last. now rewrite Hd.
  - intros Hd. unfold Sampler.bilinear_sampler, bindM, setitem_last.
    rewrite Hd. cbn [Nat.ltb Nat.leb]. rewrite upd_same.
    cbn [last_dim Nat.ltb Nat.leb fst snd]. now rewrite upd_same.
  - intros Hd. unfold Sampler.indexing, bindM, read, lift, split_1_1.
    destruct (last_dim (st coords) =? 2) eqn:E; [apply Nat.eqb_eq in E; contradiction|].
    eexists. reflexivity.
Qed.

End Entries.

Lemma bilinear_sampler_twice_witness :
  vecs (fst (bilinear_sampler Mul Div Sub (fun _ _ _ => Ok tt) sample_image 0
               (fst (bilinear_sampler Mul Div Sub (fun _ _ _ => Ok tt) sample_image 0
                       sample_store))) 0)
  = map (fun v => normalized_vec Mul Div Sub sample_image
                    (normalized_vec Mul Div Sub sample_image v))
        (vecs (sample_store 0)).
Proof.
  apply (bilinear_sampler_twice expr Mul Div Sub unit unit (fun _ _ _ => Ok tt)
           sample_store sample_image sample_image 0).
  repeat constructor.
Defined.

Lemma samplers_share_grid_witness :
  snd (bilinear_sampler Mul Div Sub (fun _ g _ => Ok g) sample_image 0 sample_store)
  = Ok (mk_ctensor 2 (map (normalized_vec Mul Div Sub sample_image) (vecs (sample_store 0)))) /\
  fmap fst (snd (indexing Mul Div Sub (fun _ _ => true) (fun _ _ => true)
                   (fun _ g _ => Ok g) sample_image 0 true sample_store))
  = Ok (mk_ctensor 2 (map (normalized_vec Mul Div Sub sample_image) (vecs (sample_store 0)))) /\
  fst (bilinear_sampler Mul Div Sub (fun _ g _ => Ok g) sample_image 0 sample_store) 0
  = mk_ctensor 2 (map (normalized_vec Mul Div Sub sample_image) (vecs (sample_store 0))).
Proof.
  apply (samplers_share_grid expr Mul Div Sub (fun _ _ => true) (fun _ _ => true)
           unit (ctensor expr) (fun _ g _ => Ok g) sample_store sample_image 0 true).
  - reflexivity.
  - repeat constructor.
Defined.

Lemma samplers_on_wrong_last_axis_witness :
  bilinear_sampler Mul Div Sub (fun _ _ _ => Ok tt) sample_image 1 short_store
  = (short_store, Raise IndexError) /\
  (snd (bilinear_sampler Mul Div Sub (fun _ _ _ => Ok tt) sample_image 0 short_store)
   = Raise IndexError /\
   vecs (fst (bilinear_sampler Mul Div Sub (fun _ _ _ => Ok tt) sample_image 0 short_store) 0)
   = [[Sub (Div (Mul 2 (Num 3)) 8) 1]]) /\
  (exists msg,
     indexing Mul Div Sub (fun _ _ => true) (fun _ _ => true) (fun _ _ _ => Ok tt)
       sample_image 0 false short_store
     = (short_store, Raise (RuntimeError msg))).
Proof.
  destruct (samplers_on_wrong_last_axis expr Mul Div Sub (fun _ _ => true)
              (fun _ _ => true) unit unit (fun _ _ _ => Ok tt) short_store sample_image 1 false)
    as (H0 & _ & _).
  destruct (samplers_on_wrong_last_axis expr Mul Div Sub (fun _ _ => true)
              (fun _ _ => true) unit unit (fun _ _ _ => Ok tt) short_store sample_image 0 false)
    as (_ & H1 & H2).
  split; [|split].
  - apply H0. reflexivity.
  - apply H1. reflexivity.
  - apply H2. discriminate.
Defined.

End SamplerMoreFacts.

(** ** The coordinate grid *)

Module CoordsGridFacts.
Import Tensor TensorFacts CoordsGrid.

Example coords_grid_1_2_3 :
  coords_grid 1 2 3 = Ok (mk [1; 2; 2; 3] [0; 1; 2; 0; 1; 2; 0; 0; 0; 1; 1; 1]%Z).
Proof. reflexivity. Qed.

Lemma nth_concat_repeat (d : list Z) (batch n r : nat) :
  n < batch -> r < List.length d ->
  nth (n * List.length d + r) (List.concat (repeat d batch)) 0%Z = nth r d 0%Z.
Proof.
  revert n; induction batch as [|batch IH]; intros n Hn Hr; [lia|].
  simpl. destruct n as [|n].
  - simpl. now rewrite app_nth1.
  - rewrite app_nth2 by (simpl; lia).
    replace (S n * List.length d + r - List.length d) with (n * List.length d + r)
      by (simpl; lia).
    apply IH; lia.
Qed.

Lemma get_arange (n i : nat) : i < n -> get (arange n) [i] = Z.of_nat i.
Proof. intros Hi. unfold arange. rewrite get_init; [reflexivity | simpl; tauto]. Qed.

(** X7.  With its four arguments [coords_grid] returns a tensor of shape
    [(batch, 2, ht, wd)] which holds, for every batch item and every pixel
    [(i, j)], the column [j] in channel 0 and the row [i] in channel 1. *)
Theorem coords_grid_entries (batch ht wd : nat) :
  exists g,
    coords_grid batch ht wd = Ok g /\
    shape g = [batch; 2; ht; wd] /\
    wf g /\
    Utils.coords_grid [Utils.PInt batch; Utils.PInt ht; Utils.PInt wd; Utils.PDevice]
    = Ok (shape g) /\
    forall n i j, n < batch -> i < ht -> j < wd ->
      get g [n; 0; i; j] = Z.of_nat j /\ get g [n; 1; i; j] = Z.of_nat i.
Proof.
  unfold coords_grid, meshgrid_ij. cbn [arange init shape bind fst snd].
  unfold stack2. cbn [shape init].
  destruct (list_eq_dec Nat.eq_dec [ht; wd] [ht; wd]) as [_|Hne]; [|contradiction].
  cbn [bind]. unfold repeat_batch, unsqueeze0. cbn [shape data init].
  set (gx := map (fun k => get (arange wd) [nth 1 (unravel [ht; wd] k) 0])
                 (seq 0 (numel [ht; wd]))).
  set (gy := map (fun k => get (arange ht) [nth 0 (unravel [ht; wd] k) 0])
                 (seq 0 (numel [ht; wd]))).
  assert (Lx : List.length gx = ht * wd)
    by (unfold gx; rewrite length_map, length_seq; simpl; lia).
  assert (Ly : List.length gy = ht * wd)
    by (unfold gy; rewrite length_map, length_seq; simpl; lia).
  eexists; split; [reflexivity|].
  assert (Hshape : [batch * 1; 2; ht; wd] = [batch; 2; ht; wd])
    by (now rewrite Nat.mul_1_r).
  split; [exact Hshape|]. split; [|split].
  - unfold wf; cbn [shape data].
    assert (Hc : forall b, List.length (List.concat (repeat (gx ++ gy) b))
                           = b * (2 * (ht * wd))).
    { induction b as [|b IHb]; [reflexivity|].
      cbn [repeat List.concat]. rewrite length_app, IHb, length_app, Lx, Ly. lia. }
    rewrite Hc. simpl. lia.
  - cbn [shape]. rewrite Hshape. reflexivity.
  - intros n i j Hn Hi Hj.
    assert (Hij : i * wd + j < ht * wd) by nia.
    assert (Hun : unravel [ht; wd] (i * wd + j) = [i; j]).
    { replace (i * wd + j) with (ravel [ht; wd] [i; j]) by (simpl; lia).
      apply unravel_ravel. simpl; tauto. }
    unfold get; cbn [shape data]. split.
    + replace (ravel [batch * 1; 2; ht; wd] [n; 0; i; j])
        with (n * List.length (gx ++ gy) + (i * wd + j))
        by (rewrite length_app, Lx, Ly; simpl; lia).
      rewrite nth_concat_repeat by (rewrite ?length_app, ?Lx, ?Ly; lia).
      rewrite app_nth1 by lia. unfold gx.
      rewrite nth_map_seq by (simpl; lia). rewrite Hun. cbn [nth].
      now apply get_arange.
    + replace (ravel [batch * 1; 2; ht; wd] [n; 1; i; j])
        with (n * List.length (gx ++ gy) + (ht * wd + (i * wd + j)))
        by (rewrite length_app, Lx, Ly; simpl; lia).
      rewrite nth_concat_repeat by (rewrite ?length_app, ?Lx, ?Ly; lia).
      rewrite app_nth2 by lia. rewrite Lx.
      replace (ht * wd + (i * wd + j) - ht * wd) with (i * wd + j) by lia.
      unfold gy. rewrite nth_map_seq by (simpl; lia). rewrite Hun. cbn [nth].
      now apply get_arange.
Qed.

End CoordsGridFacts.

(** ** What [InputPadder] pads *)

Module PadderMoreFacts.
Import InputPadder PadderFacts.

(** The amount [__init__] computes for a side of length [n]. *)
Lemma pad_amount (n : nat) :
  (n + (((n / 8) + 1) * 8 - n) mod 8) mod 8 = 0 /\
  (((n / 8) + 1) * 8 - n) mod 8 < 8 /\
  (n mod 8 = 0 <-> (((n / 8) + 1) * 8 - n) mod 8 = 0).
Proof.
  pose proof (Nat.div_mod_eq n 8) as E.
  pose proof (Nat.mod_upper_bound n 8 ltac:(lia)) as U.
  set (q := n / 8) in *. set (r := n mod 8) in *.
  replace ((q + 1) * 8 - n) with (8 - r) by lia.
  destruct (Nat.eq_dec r 0) as [Hz|Hnz].
  - rewrite Hz. change ((8 - 0) mod 8) with 0.
    rewrite Nat.add_0_r. fold r. repeat split; lia.
  - rewrite (Nat.mod_small (8 - r) 8) by lia.
    replace (n + (8 - r)) with ((q + 1) * 8) by lia.
    rewrite Nat.Div0.mod_mul. repeat split; lia.
Qed.

Lemma half_split (p : Z) :
  (0 <= p)%Z ->
  (0 <= p / 2 /\ p / 2 <= p - p / 2 <= p / 2 + 1)%Z.
Proof.
  intros Hp. pose proof (Z.div_mod p 2 ltac:(lia)) as E.
  pose proof (Z.mod_pos_bound p 2 ltac:(lia)) as B. lia.
Qed.

(** X8.  In the modes ['sintel'] and the fallback, [pad] brings height and width
    to the next multiple of 8 (fewer than 8 rows and columns are added, batch
    and channels are kept), and returns an image whose sides already are
    multiples of 8 as it is.  ['sintel'] splits each amount in two halves
    that differ by at most one, the smaller first; the fallback adds all
    rows at the bottom. *)
Theorem pad_reaches_multiple_of_8 (x : image) (m : pad_mode) :
  m <> kitti400 -> 0 < img_C x -> 0 < img_H x -> 0 < img_W x ->
  exists p x' l r u b,
    init (image_shape x) m = Ok p /\
    pad p [x] = Ok [x'] /\
    _pad p = [l; r; u; b] /\
    img_N x' = img_N x /\ img_C x' = img_C x /\
    Z.of_nat (img_H x') = (Z.of_nat (img_H x) + u + b)%Z /\
    Z.of_nat (img_W x') = (Z.of_nat (img_W x) + l + r)%Z /\
    img_H x' mod 8 = 0 /\ img_W x' mod 8 = 0 /\
    img_H x' < img_H x + 8 /\ img_W x' < img_W x + 8 /\
    (0 <= l <= r)%Z /\ (r <= l + 1)%Z /\ (0 <= u <= b)%Z /\
    (m = sintel -> (b <= u + 1)%Z) /\
    (m = other_mode -> u = 0%Z) /\
    (img_H x mod 8 = 0 -> img_W x mod 8 = 0 -> x' = x).
Proof.
  intros Hm HC HH HW.
  destruct x as [N C H W ps]. cbn [img_N img_C img_H img_W] in *.
  destruct (pad_amount H) as (HmH & HltH & HzH).
  destruct (pad_amount W) as (HmW & HltW & HzW).
  set (ph := (((H / 8) + 1) * 8 - H) mod 8) in *.
  set (pw := (((W / 8) + 1) * 8 - W) mod 8) in *.
  destruct (half_split (Z.of_nat ph) ltac:(lia)) as (Hh0 & Hh1).
  destruct (half_split (Z.of_nat pw) ltac:(lia)) as (Hw0 & Hw1).
  assert (Hpad : forall l r u b,
            (0 <= l)%Z -> (0 <= r)%Z -> (0 <= u)%Z -> (0 <= b)%Z ->
            (l + r = Z.of_nat pw)%Z -> (u + b = Z.of_nat ph)%Z ->
            exists x',
              pad (mk_padder H W [l; r; u; b]) [mk_image N C H W ps] = Ok [x'] /\
              img_N x' = N /\ img_C x' = C /\
              Z.of_nat (img_H x') = (Z.of_nat H + u + b)%Z /\
              Z.of_nat (img_W x') = (Z.of_nat W + l + r)%Z /\
              (H mod 8 = 0 -> W mod 8 = 0 -> x' = mk_image N C H W ps)).
  { intros l r u b Hl Hr Hu Hb Hlr Hub. unfold pad. cbn [_pad fold_right].
    destruct (l + (r + (u + (b + 0))) =? 0)%Z eqn:Es.
    - apply Z.eqb_eq in Es. exists (mk_image N C H W ps).
      cbn [img_N img_C img_H img_W]. repeat split; try reflexivity; lia.
    - apply Z.eqb_neq in Es. cbn [mapM]. unfold F_pad_replicate.
      cbn [img_N img_C img_H img_W].
      destruct (C =? 0) eqn:EC; [apply Nat.eqb_eq in EC; lia|].
      destruct (H =? 0) eqn:EH; [apply Nat.eqb_eq in EH; lia|].
      destruct (W =? 0) eqn:EW; [apply Nat.eqb_eq in EW; lia|].
      cbn [orb].
      destruct (Z.of_nat W + l + r <? 1)%Z eqn:EW'; [apply Z.ltb_lt in EW'; lia|].
      destruct (Z.of_nat H + u + b <? 1)%Z eqn:EH'; [apply Z.ltb_lt in EH'; lia|].
      cbn [orb bind]. eexists; split; [reflexivity|].
      cbn [img_N img_C img_H img_W]. repeat split; try reflexivity; try lia. }
  destruct m; [|contradiction|].
  - destruct (Hpad (Z.of_nat pw / 2) (Z.of_nat pw - Z.of_nat pw / 2)
                (Z.of_nat ph / 2) (Z.of_nat ph - Z.of_nat ph / 2))%Z
      as (x' & Hp & HN & HC' & HH' & HW' & Hid); try lia.
    exists (mk_padder H W [Z.of_nat pw / 2; Z.of_nat pw - Z.of_nat pw / 2;
                           Z.of_nat ph / 2; Z.of_nat ph - Z.of_nat ph / 2]%Z), x'.
    do 4 eexists. split; [reflexivity|]. split; [exact Hp|]. split; [reflexivity|].
    assert (img_H x' = H + ph) by lia. assert (img_W x' = W + pw) by lia.
    repeat split; try assumption; try lia; try discriminate; congruence.
  - destruct (Hpad (Z.of_nat pw / 2) (Z.of_nat pw - Z.of_nat pw / 2) 0 (Z.of_nat ph))%Z
      as (x' & Hp & HN & HC' & HH' & HW' & Hid); try lia.
    exists (mk_padder H W [Z.of_nat pw / 2; Z.of_nat pw - Z.of_nat pw / 2;
                           0; Z.of_nat ph]%Z), x'.
    do 4 eexists. split; [reflexivity|]. split; [exact Hp|]. split; [reflexivity|].
    assert (img_H x' = H + ph) by lia. assert (img_W x' = W + pw) by lia.
    repeat split; try assumption; try lia; try discriminate; congruence.
Qed.

Lemma pad_reaches_multiple_of_8_witness :
  exists p x' l r u b,
    init (image_shape sample_image) sintel = Ok p /\
    pad p [sample_image] = Ok [x'] /\
    _pad p = [l; r; u; b] /\
    img_N x' = img_N sample_image /\ img_C x' = img_C sample_image /\
    Z.of_nat (img_H x') = (Z.of_nat (img_H sample_image) + u + b)%Z /\
    Z.of_nat (img_W x') = (Z.of_nat (img_W sample_image) + l + r)%Z /\
    img_H x' mod 8 = 0 /\ img_W x' mod 8 = 0 /\
    img_H x' < img_H sample_image + 8 /\ img_W x' < img_W sample_image + 8 /\
    (0 <= l <= r)%Z /\ (r <= l + 1)%Z /\ (0 <= u <= b)%Z /\
    (sintel = sintel -> (b <= u + 1)%Z) /\
    (sintel = other_mode -> u = 0%Z) /\
    (img_H sample_image mod 8 = 0 -> img_W sample_image mod 8 = 0 -> x' = sample_image).
Proof.
  apply (pad_reaches_multiple_of_8 sample_image sintel); [discriminate | | | ];
    simpl; lia.
Defined.

End PadderMoreFacts.

(** ** More on the cost volume: its tail, sums, swapped inputs, errors *)

Module CorrMoreFacts.
Import Tensor TensorFacts OpFacts CorrFacts CorrSamples CorrMoreSamples.

(** The statements of [corr] after [torch.bmm]: entry [(b, h, i, j, k, l)] of
    the result is entry [(b*heads + h, i*wd + j, k*wd + l)] of the product. *)
Lemma bmm_to_volume (heads batch ht wd : nat) (cb : tensor) :
  shape cb = [batch * heads; ht * wd; ht * wd] -> wf cb ->
  exists c,
    (c1 <- view [batch; heads; ht * wd; ht * wd] cb ;;
     c2 <- permute [0; 2; 1; 3] c1 ;;
     c3 <- reshape [batch * ht * wd; heads; ht; wd] c2 ;;
     c4 <- reshape [batch; ht * wd; heads; ht * wd] c3 ;;
     c5 <- permute [0; 2; 1; 3] c4 ;;
     reshape [batch; heads; ht; wd; ht; wd] c5) = Ok c /\
    shape c = [batch; heads; ht; wd; ht; wd] /\ wf c /\
    forall b h i j k l,
      b < batch -> h < heads -> i < ht -> j < wd -> k < ht -> l < wd ->
      get c [b; h; i; j; k; l] = get cb [b * heads + h; i * wd + j; k * wd + l].
Proof.
  intros Scb Wcb. unfold reshape.
  destruct (view_inv [batch; heads; ht * wd; ht * wd] cb Wcb)
    as (c1 & Ec1 & Sc1 & Wc1 & Gc1); [rewrite Scb; simpl; ring|].
  destruct (permute_inv [0; 2; 1; 3] c1) as (c2 & Ec2 & Sc2 & Wc2 & Gc2);
    [rewrite Sc1; reflexivity|].
  rewrite Sc1 in Sc2, Gc2; simpl in Sc2, Gc2.
  destruct (view_inv [batch * ht * wd; heads; ht; wd] c2 Wc2)
    as (c3 & Ec3 & Sc3 & Wc3 & Gc3); [rewrite Sc2; simpl; ring|].
  destruct (view_inv [batch; ht * wd; heads; ht * wd] c3 Wc3)
    as (c4 & Ec4 & Sc4 & Wc4 & Gc4); [rewrite Sc3; simpl; ring|].
  destruct (permute_inv [0; 2; 1; 3] c4) as (c5 & Ec5 & Sc5 & Wc5 & Gc5);
    [rewrite Sc4; reflexivity|].
  rewrite Sc4 in Sc5, Gc5; simpl in Sc5, Gc5.
  destruct (view_inv [batch; heads; ht; wd; ht; wd] c5 Wc5)
    as (c6 & Ec6 & Sc6 & Wc6 & Gc6); [rewrite Sc5; simpl; ring|].
  exists c6. split.
  { rewrite Ec1; cbn [bind]. rewrite Ec2; cbn [bind]. rewrite Ec3; cbn [bind].
    rewrite Ec4; cbn [bind]. rewrite Ec5; cbn [bind]. exact Ec6. }
  split; [exact Sc6|]. split; [exact Wc6|].
  intros b h i j k l Hb Hh Hi Hj Hk Hl.
  assert (Hflat : ravel [batch; ht * wd; heads; ht * wd] [b; i * wd + j; h; k * wd + l]
                  < numel [batch * ht * wd; heads; ht; wd]).
  { replace (numel [batch * ht * wd; heads; ht; wd])
      with (numel [batch; ht * wd; heads; ht * wd]) by (simpl; ring).
    apply ravel_lt; bounds. }
  rewrite Gc6 by bounds. rewrite Sc5.
  replace (ravel [batch; heads; ht; wd; ht; wd] [b; h; i; j; k; l])
    with (ravel [batch; heads; ht * wd; ht * wd] [b; h; i * wd + j; k * wd + l])
    by (simpl; ring).
  rewrite unravel_ravel by bounds.
  rewrite Gc5 by bounds. unfold unpermute; simpl.
  rewrite Gc4 by bounds. rewrite Sc3.
  rewrite Gc3 by (apply unravel_in_bounds; exact Hflat).
  rewrite ravel_unravel by exact Hflat.
  rewrite Sc2, unravel_ravel by bounds.
  rewrite Gc2 by bounds. unfold unpermute; simpl.
  rewrite Gc1 by bounds. rewrite Scb.
  replace (ravel [batch; heads; ht * wd; ht * wd] [b; h; i * wd + j; k * wd + l])
    with (ravel [batch * heads; ht * wd; ht * wd] [b * heads + h; i * wd + j; k * wd + l])
    by (simpl; ring).
  now rewrite unravel_ravel by bounds.
Qed.

(** [corr] on two maps of shape [(batch, heads * d, ht, wd)]. *)
Lemma corr_get (heads d batch ht wd : nat) (fmap1 fmap2 : tensor) :
  shape fmap1 = [batch; heads * d; ht; wd] ->
  shape fmap2 = [batch; heads * d; ht; wd] ->
  wf fmap1 -> wf fmap2 -> 0 < heads ->
  exists c,
    MemoryEncoder.corr heads fmap1 fmap2 = Ok c /\
    shape c = [batch; heads; ht; wd; ht; wd] /\ wf c /\
    forall b h i j k l,
      b < batch -> h < heads -> i < ht -> j < wd -> k < ht -> l < wd ->
      get c [b; h; i; j; k; l] =
      dot d (fun ch => get fmap1 [b; h * d + ch; i; j])
            (fun ch => get fmap2 [b; h * d + ch; k; l]).
Proof.
  intros Hs1 Hs2 Hw1 Hw2 Hheads.
  destruct (fmap_to_bmm heads d batch ht wd fmap1 Hs1 Hw1)
    as (a1 & a2 & a3 & a4 & Ea1 & Ea2 & Ea3 & Ea4 & Sa & Wa & Ga).
  destruct (fmap_to_bmm heads d batch ht wd fmap2 Hs2 Hw2)
    as (b1 & b2 & b3 & b4 & Eb1 & Eb2 & Eb3 & Eb4 & Sb & Wb & Gb).
  destruct (permute_inv [0; 2; 1] b4) as (bt & Ebt & Sbt & Wbt & Gbt);
    [rewrite Sb; reflexivity|].
  rewrite Sb in Sbt, Gbt; simpl in Sbt, Gbt.
  destruct (bmm_inv a4 bt (batch * heads) (ht * wd) d (ht * wd) Sa Sbt)
    as (cb & Ecb & Scb & Wcb & Gcb).
  destruct (bmm_to_volume heads batch ht wd cb Scb Wcb) as (c & Ec & Sc & Wc & Gc).
  exists c. split; [|split; [exact Sc|split; [exact Wc|]]].
  - unfold MemoryEncoder.corr. rewrite Hs1. unfold floordiv.
    replace (heads * d / heads) with d
      by (symmetry; rewrite Nat.mul_comm; apply Nat.div_mul; lia).
    destruct (heads =? 0) eqn:Ez; [apply Nat.eqb_eq in Ez; lia|].
    cbn [bind].
    rewrite Ea1; cbn [bind]. rewrite Ea2; cbn [bind]. rewrite Ea3; cbn [bind].
    rewrite Eb1; cbn [bind]. rewrite Eb2; cbn [bind]. rewrite Eb3; cbn [bind].
    rewrite Ea4; cbn [bind]. rewrite Eb4; cbn [bind].
    unfold transpose. rewrite Sb. cbn [List.length seq swap map Nat.eqb].
    rewrite Ebt; cbn [bind]. rewrite Ecb; cbn [bind]. exact Ec.
  - intros b h i j k l Hb Hh Hi Hj Hk Hl.
    rewrite Gc by assumption. rewrite Gcb by bounds.
    unfold dot. apply sumZ_ext. intros ch Hch.
    rewrite Ga by assumption.
    rewrite Gbt by bounds. unfold unpermute; simpl.
    now rewrite Gb by assumption.
Qed.

(** Two tensors with the same shape and the same entries are equal. *)
Lemma tensor_ext (a b : tensor) :
  shape a = shape b -> wf a -> wf b ->
  (forall idx, in_bounds (shape a) idx -> get a idx = get b idx) -> a = b.
Proof.
  destruct a as [sa da], b as [sb db]. unfold wf; cbn [shape data].
  intros <- Wa Wb H. f_equal.
  apply nth_ext with (d := 0%Z) (d' := 0%Z); [congruence|].
  intros k Hk. rewrite Wa in Hk.
  specialize (H (unravel sa k) (unravel_in_bounds sa k Hk)).
  unfold get in H; cbn [shape data] in H.
  now rewrite ravel_unravel in H by exact Hk.
Qed.

Lemma in_bounds_6 (s0 s1 s2 s3 s4 s5 : nat) (idx : list nat) :
  in_bounds [s0; s1; s2; s3; s4; s5] idx ->
  exists b h i j k l,
    idx = [b; h; i; j; k; l] /\ b < s0 /\ h < s1 /\ i < s2 /\ j < s3 /\ k < s4 /\ l < s5.
Proof.
  destruct idx as [|b [|h [|i [|j [|k [|l [|]]]]]]]; simpl; try tauto.
  intros (? & ? & ? & ? & ? & ? & _). now exists b, h, i, j, k, l.
Qed.

Lemma dot_comm (d : nat) (u v : nat -> Z) : dot d u v = dot d v u.
Proof. unfold dot. apply sumZ_ext. intros c _. lia. Qed.

(** X10.  Swapping the two feature maps swaps the roles of source and target
    pixel: the cost volume of [(fmap2, fmap1)] is that of [(fmap1, fmap2)]
    with the axes [(H1, W1)] and [(H2, W2)] exchanged. *)
Theorem corr_swap (heads d batch ht wd : nat) (fmap1 fmap2 : tensor) :
  shape fmap1 = [batch; heads * d; ht; wd] ->
  shape fmap2 = [batch; heads * d; ht; wd] ->
  wf fmap1 -> wf fmap2 -> 0 < heads ->
  MemoryEncoder.corr heads fmap2 fmap1
  = (c <- MemoryEncoder.corr heads fmap1 fmap2 ;; permute [0; 1; 4; 5; 2; 3] c).
Proof.
  intros S1 S2 W1 W2 Hh.
  destruct (corr_get heads d batch ht wd fmap1 fmap2 S1 S2 W1 W2 Hh)
    as (c & Ec & Sc & Wc & Gc).
  destruct (corr_get heads d batch ht wd fmap2 fmap1 S2 S1 W2 W1 Hh)
    as (c' & Ec' & Sc' & Wc' & Gc').
  destruct (permute_inv [0; 1; 4; 5; 2; 3] c) as (p & Ep & Sp & Wp & Gp);
    [rewrite Sc; reflexivity|].
  rewrite Sc in Sp, Gp; simpl in Sp, Gp.
  rewrite Ec', Ec. cbn [bind]. rewrite Ep. f_equal.
  apply tensor_ext; [congruence | exact Wc' | exact Wp |].
  intros idx Hidx. rewrite Sc' in Hidx.
  destruct (in_bounds_6 _ _ _ _ _ _ _ Hidx)
    as (b & h & k & l & i & j & -> & Hb & Hhd & Hk & Hl & Hi & Hj).
  rewrite Gp by (simpl; tauto). unfold unpermute; simpl.
  rewrite Gc', Gc by assumption. apply dot_comm.
Qed.

Lemma corr_swap_witness :
  MemoryEncoder.corr 2 fmap_b fmap_a
  = (c <- MemoryEncoder.corr 2 fmap_a fmap_b ;; permute [0; 1; 4; 5; 2; 3] c).
Proof.
  apply (corr_swap 2 1 1 1 2 fmap_a fmap_b); try reflexivity; lia.
Defined.



Example corr_accepts_swapped_axes :
  MemoryEncoder.corr 2 fmap_a fmap_b_swapped = MemoryEncoder.corr 2 fmap_a fmap_b.
Proof. reflexivity. Qed.

(** X12.  The errors of [corr]: a first input that is not 4-D cannot be unpacked,
    zero heads divide by zero, and a second input with another number of
    entries than the first is refused by its [view]. *)
Theorem corr_errors (heads : nat) (fmap1 fmap2 : tensor) :
  (List.length (shape fmap1) <> 4 ->
     exists msg, MemoryEncoder.corr heads fmap1 fmap2 = Raise (ValueError msg)) /\
  (List.length (shape fmap1) = 4 ->
     MemoryEncoder.corr 0 fmap1 fmap2 = Raise ZeroDivisionError) /\
  (forall batch d ht wd,
     shape fmap1 = [batch; heads * d; ht; wd] -> wf fmap1 -> 0 < heads ->
     numel (shape fmap2) <> numel (shape fmap1) ->
     exists msg, MemoryEncoder.corr heads fmap1 fmap2 = Raise (RuntimeError msg)).
Proof.
  split; [|split].
  - intros Hr. unfold MemoryEncoder.corr.
    destruct (shape fmap1) as [|? [|? [|? [|? [|]]]]];
      try (eexists; reflexivity).
    now contradiction Hr.
  - intros Hr. unfold MemoryEncoder.corr.
    destruct (shape fmap1) as [|? [|? [|? [|? [|]]]]]; try discriminate Hr.
    reflexivity.
  - intros batch d ht wd Hs Hw Hh Hn.
    destruct (fmap_to_bmm heads d batch ht wd fmap1 Hs Hw)
      as (a1 & a2 & a3 & a4 & Ea1 & Ea2 & Ea3 & _).
    unfold MemoryEncoder.corr. rewrite Hs. unfold floordiv.
    replace (heads * d / heads) with d
      by (symmetry; rewrite Nat.mul_comm; apply Nat.div_mul; lia).
    destruct (heads =? 0) eqn:Ez; [apply Nat.eqb_eq in Ez; lia|].
    cbn [bind]. rewrite Ea1; cbn [bind]. rewrite Ea2; cbn [bind].
    rewrite Ea3; cbn [bind].
    unfold view at 1.
    destruct (numel [batch; heads; d; ht; wd] =? numel (shape fmap2)) eqn:E;
      [|eexists; reflexivity].
    exfalso. apply Nat.eqb_eq in E. apply Hn. rewrite <- E, Hs. simpl. ring.
Qed.

Lemma corr_errors_witness :
  (exists msg, MemoryEncoder.corr 2 fmap_flat fmap_b = Raise (ValueError msg)) /\
  MemoryEncoder.corr 0 fmap_a fmap_b = Raise ZeroDivisionError /\
  (exists msg, MemoryEncoder.corr 2 fmap_a fmap_short = Raise (RuntimeError msg)).
Proof.
  destruct (corr_errors 2 fmap_flat fmap_b) as (H1 & _ & _).
  destruct (corr_errors 0 fmap_a fmap_b) as (_ & H2 & _).
  destruct (corr_errors 2 fmap_a fmap_short) as (_ & _ & H3).
  split; [|split].
  - apply H1. discriminate.
  - apply H2. reflexivity.
  - apply (H3 1 1 1 2); try reflexivity; try lia. discriminate.
Defined.

End CorrMoreFacts.

(** ** From the feature maps to the flow: the calls above the tokenizer *)

Module ChainFacts.
Import Tensor TensorBatch PyDict MemoryEncoderForward.
Import ShpFacts ForwardFacts BottleneckFacts StackFacts CorrMoreFacts.
Import EncoderSamples ChainSamples.

Lemma init_patch_embed (cfg : config) (self : CostPerceiverEncoder.t) :
  CostPerceiverEncoder.init cfg = Ok self ->
  CostPerceiverEncoder.patch_embed self
  = PatchEmbed.init (cost_heads_num cfg) (cost_latent_input_dim cfg).
Proof.
  unfold CostPerceiverEncoder.init. intros H.
  destruct (CrossAttentionLayer.init _ _ _ _ _); [|discriminate]. cbn [bind] in H.
  destruct (CostPerceiverEncoder.build _ (SelfAttentionLayer.init _ _));
    [|discriminate].
  cbn [bind] in H.
  destruct (CostPerceiverEncoder.build _ (VerticalSelfAttentionLayer.init _ _ _));
    [|discriminate].
  cbn [bind] in H. now inversion H.
Qed.

Lemma MemoryEncoder_init_inv (feat : result unit) (cfg : config) (self : MemoryEncoder.t) :
  MemoryEncoder.init feat cfg = Ok self ->
  MemoryEncoder.cfg self = cfg /\
  CostPerceiverEncoder.init cfg = Ok (MemoryEncoder.cost_perceiver_encoder self).
Proof.
  unfold MemoryEncoder.init. intros H.
  destruct feat; [|discriminate]. cbn [bind] in H.
  destruct (CostPerceiverEncoder.init cfg); [|discriminate]. cbn [bind] in H.
  inversion H. now split.
Qed.

Lemma slice0_front (B : nat) (rest : list nat) (g : tensor) :
  shape g = (2 * B) :: rest -> wf g ->
  exists s, slice0 0 B g = Ok s /\ shape s = B :: rest /\ wf s.
Proof.
  intros Hs Hw. unfold slice0. rewrite Hs.
  rewrite Nat.min_0_l, (Nat.min_l B (2 * B)) by lia.
  rewrite Nat.max_r, Nat.sub_0_r by lia.
  eexists; split; [reflexivity|]. split; [reflexivity|].
  unfold wf in *; cbn [shape data numel fold_right] in *.
  rewrite Hs in Hw; cbn [numel fold_right] in Hw.
  fold (numel rest) in *.
  rewrite length_firstn, length_skipn, Hw. nia.
Qed.

Lemma slice0_back (B : nat) (rest : list nat) (g : tensor) :
  shape g = (2 * B) :: rest -> wf g ->
  exists s, slice0 B (2 * B) g = Ok s /\ shape s = B :: rest /\ wf s.
Proof.
  intros Hs Hw. unfold slice0. rewrite Hs.
  rewrite (Nat.min_l B (2 * B)), Nat.min_id by lia.
  rewrite Nat.max_r by lia.
  replace (2 * B - B) with B by lia.
  eexists; split; [reflexivity|]. split; [reflexivity|].
  unfold wf in *; cbn [shape data numel fold_right] in *.
  rewrite Hs in Hw; cbn [numel fold_right] in Hw.
  fold (numel rest) in *.
  rewrite length_firstn, length_skipn, Hw. nia.
Qed.

Section Absent.

Variable feat_encoder : tensor -> result tensor.
Variable channel_convertor : tensor -> result tensor.
Variable LinearPositionEmbeddingSine : Shp.shp -> nat -> result Shp.shp.
Variable MultiHeadAttention : Shp.shp -> Shp.shp -> Shp.shp -> result Shp.shp.
Variable BroadMultiHeadAttention : Shp.shp -> Shp.shp -> Shp.shp -> result Shp.shp.

Local Abbreviation cpe_forward :=
  (CostPerceiverEncoder.forward LinearPositionEmbeddingSine MultiHeadAttention
     BroadMultiHeadAttention).
Local Abbreviation me_encode :=
  (encode feat_encoder channel_convertor LinearPositionEmbeddingSine
     MultiHeadAttention BroadMultiHeadAttention).
Local Abbreviation me_forward :=
  (MemoryEncoderForward.forward feat_encoder channel_convertor
     LinearPositionEmbeddingSine MultiHeadAttention BroadMultiHeadAttention).

Lemma cpe_forward_no_return (self : CostPerceiverEncoder.t) (cost_volume : Shp.shp)
    (context : option Shp.shp) :
  is_ok (cpe_forward self cost_volume context) = false.
Proof.
  unfold CostPerceiverEncoder.forward.
  destruct (Shp.unpack6 cost_volume) as [[[[[[B heads] H1] W1] H2] W2]|];
    [|reflexivity].
  cbn [bind].
  destruct (Shp.permute _ _); [|reflexivity]. cbn [bind].
  destruct (Shp.view _ _); [|reflexivity]. cbn [bind].
  apply is_ok_bind_false, PatchEmbed_forward_no_return.
Qed.

Lemma cpe_forward_raises (cfg : config) (self : CostPerceiverEncoder.t)
    (B H1 W1 H2 W2 : nat) (context : option Shp.shp) :
  CostPerceiverEncoder.init cfg = Ok self ->
  0 < cost_heads_num cfg -> 4 <= cost_latent_input_dim cfg -> 0 < H2 -> 0 < W2 ->
  cpe_forward self [B; cost_heads_num cfg; H1; W1; H2; W2] context
  = Raise (TypeError "coords_grid() takes 4 positional arguments but 5 were given").
Proof.
  intros Hinit Hheads Hdim HH HW.
  pose proof (init_patch_embed cfg self Hinit) as Hpe.
  destruct (CostPerceiverEncoder_init_inv cfg self Hinit) as (Hcfg & _).
  unfold CostPerceiverEncoder.forward. cbn [Shp.unpack6 bind].
  change (Shp.permute [0; 2; 3; 1; 4; 5] [B; cost_heads_num cfg; H1; W1; H2; W2])
    with (@Ok Shp.shp [B; H1; W1; cost_heads_num cfg; H2; W2]).
  cbn [bind]. rewrite Hcfg.
  rewrite (view_exact
             [Shp.D (B * H1 * W1); Shp.D (cost_heads_num cfg); Shp.D H2; Shp.D W2])
    by (try reflexivity; cbn [Shp.known Shp.numel fold_right]; ring).
  cbn [bind Shp.fill map]. rewrite Hpe.
  rewrite PatchEmbed_forward_raises by assumption. reflexivity.
Qed.

Lemma me_encode_no_return (self : MemoryEncoder.t) (img1 img2 : tensor)
    (context : option Shp.shp) :
  is_ok (me_encode self img1 img2 context) = false.
Proof.
  unfold encode.
  repeat match goal with
  | |- is_ok (bind (MemoryEncoder.corr _ _ _) _) = false =>
      destruct (MemoryEncoder.corr _ _ _); cbn [bind is_ok]; [|reflexivity]
  | |- is_ok (bind ?m _) = false =>
      destruct m; cbn [bind is_ok]; [|reflexivity]
  end.
  apply cpe_forward_no_return.
Qed.

Lemma me_encode_raises (cfg : config) (self : MemoryEncoder.t) (img1 img2 : tensor)
    (context : option Shp.shp) (imgs f g : tensor) (B d h w : nat) :
  MemoryEncoder.init (Ok tt) cfg = Ok self ->
  cat0 img1 img2 = Ok imgs -> feat_encoder imgs = Ok f -> channel_convertor f = Ok g ->
  shape g = [2 * B; cost_heads_num cfg * d; h; w] -> wf g ->
  0 < cost_heads_num cfg -> 4 <= cost_latent_input_dim cfg -> 0 < h -> 0 < w ->
  me_encode self img1 img2 context
  = Raise (TypeError "coords_grid() takes 4 positional arguments but 5 were given").
Proof.
  intros Hinit Hcat Hf Hg Hs Hw Hheads Hdim Hh Hwd.
  destruct (MemoryEncoder_init_inv _ _ _ Hinit) as (Hcfg & Hcpe).
  destruct (slice0_front B _ g Hs Hw) as (fs & Efs & Sfs & Wfs).
  destruct (slice0_back B _ g Hs Hw) as (ft & Eft & Sft & Wft).
  destruct (corr_get (cost_heads_num cfg) d B h w fs ft Sfs Sft Wfs Wft Hheads)
    as (c & Ec & Sc & _).
  unfold encode. rewrite Hcat; cbn [bind]. rewrite Hf; cbn [bind].
  rewrite Hg; cbn [bind]. unfold shape0. rewrite Hs. cbn [bind].
  rewrite floordiv_ok by lia. cbn [bind].
  replace (2 * B / 2) with B
    by (symmetry; rewrite Nat.mul_comm; apply Nat.div_mul; lia).
  rewrite Efs; cbn [bind]. rewrite Eft; cbn [bind].
  rewrite Hcfg, Ec; cbn [bind]. rewrite Sc.
  now apply cpe_forward_raises.
Qed.

(** X13.  [CostPerceiverEncoder.forward] returns on no input.  A cost volume that
    is not 6-D cannot be unpacked; one of shape
    [(B, cost_heads_num, H1, W1, H2, W2)] with a non-empty target grid,
    given to an encoder whose tokenizer has a channel in every convolution
    ([cost_heads_num > 0], [cost_latent_input_dim >= 4]), is regrouped into
    cost maps and stopped by the tokenizer's call of [coords_grid], before
    the latent bottleneck is reached. *)
Theorem CostPerceiverEncoder_forward_raises :
  (forall self cost_volume context,
     is_ok (cpe_forward self cost_volume context) = false) /\
  (forall self cost_volume context,
     List.length cost_volume <> 6 ->
     exists msg, cpe_forward self cost_volume context = Raise (ValueError msg)) /\
  (forall cfg self B H1 W1 H2 W2 context,
     CostPerceiverEncoder.init cfg = Ok self ->
     0 < cost_heads_num cfg -> 4 <= cost_latent_input_dim cfg -> 0 < H2 -> 0 < W2 ->
     cpe_forward self [B; cost_heads_num cfg; H1; W1; H2; W2] context
     = Raise (TypeError "coords_grid() takes 4 positional arguments but 5 were given")).
Proof.
  split; [|split].
  - apply cpe_forward_no_return.
  - intros self cv context Hlen. unfold CostPerceiverEncoder.forward.
    destruct cv as [|? [|? [|? [|? [|? [|? [|]]]]]]]; try (eexists; reflexivity).
    now contradiction Hlen.
  - intros. now apply cpe_forward_raises.
Qed.

(** X14.  [MemoryEncoder.forward] returns on no input and leaves [data] as it was
    passed: the entries [cost_maps] and [H3W3] are never written.  When the
    backbone and the channel convertor give feature maps of shape
    [(2B, cost_heads_num * d, h, w)] with a non-empty grid and the tokenizer
    has a channel in every convolution ([cost_latent_input_dim >= 4]), the
    batch is split in two halves, [corr] builds the cost volume and the
    exception is the [TypeError] of the tokenizer's call of [coords_grid]. *)
Theorem MemoryEncoder_forward_never_returns (cfg : config) (self : MemoryEncoder.t)
    (img1 img2 : tensor) (data : dict entry) (context : option Shp.shp) :
  fst (me_forward self img1 img2 data context) = data /\
  is_ok (snd (me_forward self img1 img2 data context)) = false /\
  (forall imgs f g B d h w,
     MemoryEncoder.init (Ok tt) cfg = Ok self ->
     cat0 img1 img2 = Ok imgs -> feat_encoder imgs = Ok f ->
     channel_convertor f = Ok g ->
     shape g = [2 * B; cost_heads_num cfg * d; h; w] -> wf g ->
     0 < cost_heads_num cfg -> 4 <= cost_latent_input_dim cfg -> 0 < h -> 0 < w ->
     snd (me_forward self img1 img2 data context)
     = Raise (TypeError "coords_grid() takes 4 positional arguments but 5 were given")).
Proof.
  unfold MemoryEncoderForward.forward.
  pose proof (me_encode_no_return self img1 img2 context) as Hno.
  split; [|split].
  - destruct (me_encode self img1 img2 context); [discriminate | reflexivity].
  - destruct (me_encode self img1 img2 context); [discriminate | reflexivity].
  - intros imgs f g B d h w Hinit Hcat Hf Hg Hs Hw Hheads Hdim Hh Hwd.
    now rewrite (me_encode_raises cfg self img1 img2 context imgs f g B d h w).
Qed.

(** X15.  [FlowFormer.forward] returns no flow prediction: whatever the context
    backbone and the decoder are, every call ends with an exception, raised
    by the context backbone or inside the memory encoder; the decoder is not
    reached and [data["cost_maps"]] is not looked up. *)
Theorem FlowFormer_forward_never_returns (flow : Type)
    (context_encoder : tensor -> result Shp.shp)
    (memory_decoder : Shp.shp -> Shp.shp -> entry -> result flow)
    (self : MemoryEncoder.t) (image1 image2 : tensor) :
  exists e,
    FlowFormer.forward flow context_encoder (me_forward self) memory_decoder
      image1 image2 = FlowFormer.Raises e /\
    (forall context, context_encoder (rescale image1) = Ok context ->
       snd (me_forward self (rescale image1) (rescale image2) [] (Some context))
       = Raise e) /\
    (forall e', context_encoder (rescale image1) = Raise e' -> e = e').
Proof.
  unfold FlowFormer.forward, MemoryEncoderForward.forward.
  destruct (context_encoder (rescale image1)) as [context|e0].
  - pose proof (me_encode_no_return self (rescale image1) (rescale image2)
                  (Some context)) as Hno.
    destruct (me_encode self (rescale image1) (rescale image2) (Some context))
      as [r|e] eqn:E; [discriminate|].
    exists e. split; [reflexivity|]. split.
    + intros c Hc. inversion Hc; subst c. now rewrite E.
    + intros e' He'. discriminate.
  - exists e0. split; [reflexivity|]. split.
    + intros c Hc. discriminate.
    + intros e' He'. now inversion He'.
Qed.

End Absent.

Lemma CostPerceiverEncoder_forward_raises_witness :
  CostPerceiverEncoder.forward Attention.LinearPositionEmbeddingSine
    Attention.MultiHeadAttention Attention.BroadMultiHeadAttention
    sample_perceiver [1; 1; 1; 1; 8; 8] None
  = Raise (TypeError "coords_grid() takes 4 positional arguments but 5 were given").
Proof.
  destruct (CostPerceiverEncoder_forward_raises Attention.LinearPositionEmbeddingSine
              Attention.MultiHeadAttention Attention.BroadMultiHeadAttention)
    as (_ & _ & H).
  apply (H sample_cfg sample_perceiver 1 1 1 8 8 None);
    [reflexivity | cbn; lia | cbn; lia | lia | lia].
Defined.

Lemma MemoryEncoder_forward_never_returns_witness :
  snd (MemoryEncoderForward.forward id_encoder id_encoder
         Attention.LinearPositionEmbeddingSine Attention.MultiHeadAttention
         Attention.BroadMultiHeadAttention sample_memory_encoder img_a img_b []
         (Some [1; 256; 1; 2]))
  = Raise (TypeError "coords_grid() takes 4 positional arguments but 5 were given").
Proof.
  destruct (MemoryEncoder_forward_never_returns id_encoder id_encoder
              Attention.LinearPositionEmbeddingSine Attention.MultiHeadAttention
              Attention.BroadMultiHeadAttention sample_cfg sample_memory_encoder
              img_a img_b [] (Some [1; 256; 1; 2])) as (_ & _ & H).
  apply (H (mk [2; 1; 1; 2] [1; 2; 3; 4]%Z) (mk [2; 1; 1; 2] [1; 2; 3; 4]%Z)
           (mk [2; 1; 1; 2] [1; 2; 3; 4]%Z) 1 1 1 2); try reflexivity; simpl; lia.
Defined.

End ChainFacts.

(** ** [load_ddp_state_dict]: the keys of a checkpoint *)

Module StateDictFacts.
Import PyDict FlowFormer ChainSamples.

Section Dict.

Context {V : Type}.

Implicit Types (d ckpt : dict V) (k : string) (v : V).

Lemma getitem_setitem_same d k v : getitem (setitem d k v) k = Some v.
Proof.
  induction d as [|[k' v'] d IH]; cbn.
  - now rewrite String.eqb_refl.
  - destruct (String.eqb k' k) eqn:E; cbn; now rewrite E.
Qed.

Lemma getitem_setitem_other d k k' v :
  k' <> k -> getitem (setitem d k v) k' = getitem d k'.
Proof.
  intros Hne. induction d as [|[k0 v0] d IH]; cbn.
  - destruct (String.eqb k k') eqn:E; [apply String.eqb_eq in E; congruence|].
    reflexivity.
  - destruct (String.eqb k0 k) eqn:E; cbn.
    + apply String.eqb_eq in E. subst k0.
      destruct (String.eqb k k') eqn:E'; [apply String.eqb_eq in E'; congruence|].
      reflexivity.
    + now rewrite IH.
Qed.

Lemma setitem_fresh d k v : ~ In k (keys d) -> setitem d k v = d ++ [(k, v)].
Proof.
  induction d as [|[k' v'] d IH]; cbn; intros Hn; [reflexivity|].
  destruct (String.eqb k' k) eqn:E.
  - apply String.eqb_eq in E. tauto.
  - f_equal. apply IH. tauto.
Qed.

Lemma keys_setitem_present d k v : In k (keys d) -> keys (setitem d k v) = keys d.
Proof.
  induction d as [|[k' v'] d IH]; cbn; intros Hin; [contradiction|].
  destruct (String.eqb k' k) eqn:E; [reflexivity|].
  apply String.eqb_neq in E. cbn. f_equal. apply IH.
  destruct Hin; [contradiction | assumption].
Qed.

Lemma NoDup_setitem d k v : NoDup (keys d) -> NoDup (keys (setitem d k v)).
Proof.
  intros Hnd.
  destruct (in_dec string_dec k (keys d)) as [Hin|Hnin].
  - now rewrite keys_setitem_present.
  - rewrite setitem_fresh by exact Hnin. unfold keys in *. rewrite map_app. cbn.
    apply NoDup_app; [exact Hnd | repeat constructor; intros [] | ].
    intros x Hx [<-|[]]. contradiction.
Qed.

Lemma length_setitem d k v :
  List.length (setitem d k v) <= S (List.length d).
Proof.
  induction d as [|[k' v'] d IH]; cbn; [lia|].
  destruct (String.eqb k' k); cbn; lia.
Qed.

Lemma getitem_NoDup (pre post : dict V) k v :
  NoDup (keys (pre ++ (k, v) :: post)) -> getitem (pre ++ (k, v) :: post) k = Some v.
Proof.
  induction pre as [|[k' v'] pre IH]; cbn; intros Hnd.
  - now rewrite String.eqb_refl.
  - inversion Hnd as [|? ? Hnin Hnd']; subst.
    destruct (String.eqb k' k) eqn:E.
    + apply String.eqb_eq in E. subst k'. exfalso. apply Hnin.
      unfold keys. rewrite map_app. apply in_or_app. right. now left.
    + now apply IH.
Qed.

Lemma convert_fold (pre l : dict V) (cvt : dict V) :
  NoDup (keys (pre ++ l)) ->
  convert (pre ++ l) (keys l) cvt = Some (fold_left step l cvt).
Proof.
  revert pre cvt. induction l as [|[k v] l IH]; intros pre cvt Hnd; cbn.
  - reflexivity.
  - rewrite getitem_NoDup by exact Hnd.
    specialize (IH (pre ++ [(k, v)]) (setitem cvt (cvt_key k) v)).
    rewrite <- app_assoc in IH. cbn in IH. now apply IH.
Qed.

Lemma convert_all (ckpt cvt : dict V) :
  NoDup (keys ckpt) -> convert ckpt (keys ckpt) cvt = Some (fold_left step ckpt cvt).
Proof. intros Hnd. exact (convert_fold [] ckpt cvt Hnd). Qed.

Lemma find_app {A : Type} (f : A -> bool) (l1 l2 : list A) :
  find f (l1 ++ l2) = match find f l1 with Some a => Some a | None => find f l2 end.
Proof.
  induction l1 as [|a l1 IH]; cbn; [reflexivity|]. now destruct (f a).
Qed.

Lemma getitem_fold (l cvt : dict V) k :
  getitem (fold_left step l cvt) k
  = match find (fun kv => String.eqb (cvt_key (fst kv)) k) (rev l) with
    | Some kv => Some (snd kv)
    | None => getitem cvt k
    end.
Proof.
  revert cvt. induction l as [|[k' v'] l IH]; intros cvt; cbn; [reflexivity|].
  rewrite IH, find_app.
  destruct (find _ (rev l)); [reflexivity|]. cbn. unfold step. cbn.
  destruct (String.eqb (cvt_key k') k) eqn:E.
  - apply String.eqb_eq in E. subst k. apply getitem_setitem_same.
  - apply String.eqb_neq in E. apply getitem_setitem_other. congruence.
Qed.

Lemma NoDup_fold (l cvt : dict V) :
  NoDup (keys cvt) -> NoDup (keys (fold_left step l cvt)).
Proof.
  revert cvt. induction l as [|kv l IH]; intros cvt Hnd; cbn; [exact Hnd|].
  apply IH, NoDup_setitem, Hnd.
Qed.

Lemma length_fold (l cvt : dict V) :
  List.length (fold_left step l cvt) <= List.length cvt + List.length l.
Proof.
  revert cvt. induction l as [|kv l IH]; intros cvt; cbn; [lia|].
  specialize (IH (step cvt kv)).
  pose proof (length_setitem cvt (cvt_key (fst kv)) (snd kv)). unfold step in *. lia.
Qed.

(** When the converted keys are pairwise distinct the loop renames the keys
    and keeps the order. *)
Lemma fold_distinct (l cvt : dict V) :
  NoDup (keys cvt ++ map cvt_key (keys l)) ->
  fold_left step l cvt = cvt ++ map (fun kv => (cvt_key (fst kv), snd kv)) l.
Proof.
  revert cvt. induction l as [|[k v] l IH]; intros cvt Hnd; cbn.
  - now rewrite app_nil_r.
  - unfold step at 2. cbn [fst snd].
    assert (Hfresh : ~ In (cvt_key k) (keys cvt)).
    { intros Hin. apply NoDup_remove_2 in Hnd. apply Hnd.
      apply in_or_app. now left. }
    rewrite setitem_fresh by exact Hfresh.
    rewrite IH.
    + now rewrite <- app_assoc.
    + unfold keys in *. rewrite map_app. cbn. rewrite <- app_assoc. exact Hnd.
Qed.

End Dict.

Lemma substring_all (s : string) : String.substring 0 (String.length s) s = s.
Proof. induction s as [|c s IH]; cbn; [reflexivity | now rewrite IH]. Qed.

(** Stripping the prefix that wrapping a model puts in front of a key. *)
Lemma cvt_key_wrapped (k : string) : cvt_key ("module." ++ k) = k.
Proof.
  unfold cvt_key, startswith, slice_from. cbn.
  replace (String.prefix "" k) with true by (now destruct k).
  rewrite Nat.sub_0_r. apply substring_all.
Qed.

Lemma cvt_key_plain (k : string) : startswith k "module." = false -> cvt_key k = k.
Proof. unfold cvt_key. now intros ->. Qed.

Section Load.

Context {V R : Type}.
Variable load_state_dict : dict V -> R.

Lemma keys_wrapped (sd : dict V) :
  keys (wrapped sd) = map (fun k => ("module." ++ k)%string) (keys sd).
Proof. unfold keys, wrapped. rewrite !map_map. reflexivity. Qed.

Lemma NoDup_wrapped (sd : dict V) : NoDup (keys sd) -> NoDup (keys (wrapped sd)).
Proof.
  intros Hnd. rewrite keys_wrapped.
  induction Hnd as [|k ks Hnin Hnd IH]; cbn; constructor; [|exact IH].
  intros Hin. apply in_map_iff in Hin. destruct Hin as (k' & Heq & Hin).
  inversion Heq. now subst k'.
Qed.

(** X16.  Loading the checkpoint of a wrapped model loads the state dictionary of
    the model itself: the prefix ["module."] is stripped once from every key,
    order and values are kept.  A checkpoint none of whose keys starts with
    ["module."] is loaded as it is. *)
Theorem load_ddp_state_dict_roundtrip (sd : dict V) :
  NoDup (keys sd) ->
  load_ddp_state_dict load_state_dict (wrapped sd) = Some (load_state_dict sd) /\
  ((forall k, In k (keys sd) -> startswith k "module." = false) ->
   load_ddp_state_dict load_state_dict sd = Some (load_state_dict sd)).
Proof.
  intros Hnd. unfold load_ddp_state_dict. split.
  - rewrite convert_all by (apply NoDup_wrapped, Hnd).
    rewrite fold_distinct.
    + cbn. do 2 f_equal. unfold wrapped. rewrite map_map.
      rewrite <- (map_id sd) at 2. apply map_ext.
      intros [k v]. cbn [fst snd]. now rewrite cvt_key_wrapped.
    + cbn. rewrite keys_wrapped, map_map.
      erewrite map_ext; [rewrite map_id; exact Hnd|].
      intros k. apply cvt_key_wrapped.
  - intros Hplain.
    assert (Hkeys : map cvt_key (keys sd) = keys sd).
    { rewrite <- (map_id (keys sd)) at 2. apply map_ext_in.
      intros k Hk. now apply cvt_key_plain, Hplain. }
    rewrite convert_all by exact Hnd.
    rewrite fold_distinct by (cbn; now rewrite Hkeys).
    cbn. do 2 f_equal.
    rewrite <- (map_id sd) at 2. apply map_ext_in.
    intros [k v] Hin. cbn [fst snd]. f_equal.
    apply cvt_key_plain, Hplain. unfold keys. now apply (in_map fst) in Hin.
Qed.

(** X17.  On every checkpoint the loop ends without [KeyError] and hands
    [load_state_dict] a dictionary in which a key [k] holds the value of the
    last entry of the checkpoint whose converted key ([cvt_key]: the key
    with one leading ["module."] removed) is [k]: when two keys of the
    checkpoint convert to the same key, one entry is left and the later
    value wins. *)
Theorem load_ddp_state_dict_lookup (ckpt : dict V) :
  NoDup (keys ckpt) ->
  exists cvt_ckpt,
    load_ddp_state_dict load_state_dict ckpt = Some (load_state_dict cvt_ckpt) /\
    NoDup (keys cvt_ckpt) /\
    List.length cvt_ckpt <= List.length ckpt /\
    forall k,
      getitem cvt_ckpt k
      = option_map snd
          (find (fun kv => String.eqb (cvt_key (fst kv)) k) (rev ckpt)).
Proof.
  intros Hnd. exists (fold_left step ckpt []).
  split; [|split; [|split]].
  - unfold load_ddp_state_dict.
    now rewrite convert_all by exact Hnd.
  - apply NoDup_fold. constructor.
  - apply (length_fold ckpt []).
  - intros k. rewrite getitem_fold.
    now destruct (find _ (rev ckpt)).
Qed.

End Load.

Lemma load_ddp_state_dict_roundtrip_witness :
  load_ddp_state_dict (fun d => d) (wrapped plain_sd) = Some plain_sd /\
  load_ddp_state_dict (fun d => d) bare_sd = Some bare_sd.
Proof.
  split.
  - apply (load_ddp_state_dict_roundtrip (fun d : dict nat => d) plain_sd).
    repeat constructor; cbn; intuition discriminate.
  - apply (load_ddp_state_dict_roundtrip (fun d : dict nat => d) bare_sd).
    + repeat constructor; cbn; intuition discriminate.
    + intros k [<-|[<-|[]]]; reflexivity.
Defined.

Lemma load_ddp_state_dict_lookup_witness :
  exists cvt_ckpt,
    load_ddp_state_dict (fun d => d) mixed_ckpt = Some cvt_ckpt /\
    NoDup (keys cvt_ckpt) /\
    List.length cvt_ckpt <= List.length mixed_ckpt /\
    forall k,
      getitem cvt_ckpt k
      = option_map snd
          (find (fun kv => String.eqb (cvt_key (fst kv)) k) (rev mixed_ckpt)).
Proof.
  apply (load_ddp_state_dict_lookup (fun d : dict nat => d) mixed_ckpt).
  repeat constructor; cbn; intuition discriminate.
Defined.

(** The wrapped and the plain key of the same name end in one entry, at the
    place of the first and with the value of the second. *)
Example load_ddp_state_dict_mixed :
  load_ddp_state_dict (fun d => d) mixed_ckpt = Some [("a", 3); ("b", 2)]%string.
Proof. reflexivity. Qed.

End StateDictFacts.

(** ** Constructors and layers of the encoder *)

Module LayerFacts.
Import Shp Utils ShpFacts InitFacts BottleneckFacts StackFacts EncoderSamples.

Lemma scale_of_ok (dim num_heads : nat) :
  num_heads <> 0 -> num_heads <= dim -> scale_of dim num_heads = Ok (dim / num_heads).
Proof.
  intros Hnh Hle. unfold scale_of. rewrite floordiv_ok by exact Hnh. cbn [bind].
  destruct (dim / num_heads =? 0) eqn:E; [|reflexivity].
  apply Nat.eqb_eq in E. apply Nat.div_small_iff in E; [lia | exact Hnh].
Qed.

Lemma scale_of_small (dim num_heads : nat) :
  dim < num_heads -> scale_of dim num_heads = Raise ZeroDivisionError.
Proof.
  intros Hlt. unfold scale_of. rewrite floordiv_ok by lia. cbn [bind].
  now rewrite Nat.div_small by exact Hlt.
Qed.

Lemma multiple_ge (dim num_heads : nat) :
  0 < dim -> dim mod num_heads = 0 -> num_heads <= dim.
Proof.
  intros Hpos Hmod. destruct (Nat.eq_dec num_heads 0) as [->|Hnh]; [lia|].
  destruct (Nat.lt_ge_cases dim num_heads) as [Hlt|Hge]; [|exact Hge].
  rewrite Nat.mod_small in Hmod by exact Hlt. lia.
Qed.

Lemma build_ok {A : Type} (n : nat) (a : A) :
  CostPerceiverEncoder.build n (Ok a) = Ok (repeat a n).
Proof.
  induction n as [|n IH]; cbn; [reflexivity|]. now rewrite IH.
Qed.

(** X18.  The constructors of the two attention variants of core/twins.py and of
    [VerticalSelfAttentionLayer], by their arguments: no heads divide by
    zero; a head count that does not divide [dim] fails the assertion, but in
    [VerticalSelfAttentionLayer] only when [dim] is not below the head count,
    since there the scale is computed first; [dim = 0] divides by zero in the
    scale; everything else constructs, and the global variant has its
    [sr_key] exactly for [sr_ratio > 1]. *)
Theorem attention_init_cases (dim num_heads vert_c_dim : nat) :
  (forall sr_ratio ws,
     num_heads = 0 -> ws <> 1 ->
     GlobalSubSampleAttnRPEContext.init dim num_heads sr_ratio vert_c_dim
     = Raise ZeroDivisionError /\
     LocallyGroupedAttnRPEContext.init dim num_heads ws vert_c_dim
     = Raise ZeroDivisionError) /\
  (forall sr_ratio ws,
     num_heads <> 0 -> dim mod num_heads <> 0 -> ws <> 1 ->
     GlobalSubSampleAttnRPEContext.init dim num_heads sr_ratio vert_c_dim
     = Raise (AssertionError (heads_message dim num_heads)) /\
     LocallyGroupedAttnRPEContext.init dim num_heads ws vert_c_dim
     = Raise (AssertionError (heads_message dim num_heads))) /\
  (forall sr_ratio ws,
     num_heads <> 0 -> dim = 0 -> ws <> 1 ->
     GlobalSubSampleAttnRPEContext.init dim num_heads sr_ratio vert_c_dim
     = Raise ZeroDivisionError /\
     LocallyGroupedAttnRPEContext.init dim num_heads ws vert_c_dim
     = Raise ZeroDivisionError) /\
  (forall sr_ratio ws,
     0 < dim -> dim mod num_heads = 0 -> num_heads <> 0 -> ws <> 1 ->
     GlobalSubSampleAttnRPEContext.init dim num_heads sr_ratio vert_c_dim
     = Ok (GlobalSubSampleAttnRPEContext.mk dim num_heads vert_c_dim sr_ratio
             (1 <? sr_ratio)) /\
     LocallyGroupedAttnRPEContext.init dim num_heads ws vert_c_dim
     = Ok (LocallyGroupedAttnRPEContext.mk dim num_heads vert_c_dim ws)) /\
  (forall cfg,
     dim < num_heads \/ num_heads = 0 ->
     VerticalSelfAttentionLayer.init dim cfg num_heads = Raise ZeroDivisionError) /\
  (forall cfg,
     num_heads <> 0 -> num_heads <= dim -> dim mod num_heads <> 0 ->
     VerticalSelfAttentionLayer.init dim cfg num_heads
     = Raise (AssertionError (heads_message dim num_heads))).
Proof.
  assert (Hws : forall ws, ws <> 1 -> py_assert (negb (ws =? 1)) "" = Ok tt).
  { intros ws Hws. destruct (ws =? 1) eqn:E; [apply Nat.eqb_eq in E; contradiction|].
    reflexivity. }
  split; [|split; [|split; [|split; [|split]]]].
  - intros sr ws -> Hw.
    unfold GlobalSubSampleAttnRPEContext.init, LocallyGroupedAttnRPEContext.init.
    rewrite Hws by exact Hw. split; reflexivity.
  - intros sr ws Hnh Hmod Hw.
    unfold GlobalSubSampleAttnRPEContext.init, LocallyGroupedAttnRPEContext.init.
    rewrite Hws by exact Hw. rewrite assert_heads_fails by assumption.
    split; reflexivity.
  - intros sr ws Hnh -> Hw.
    unfold GlobalSubSampleAttnRPEContext.init, LocallyGroupedAttnRPEContext.init.
    rewrite Hws by exact Hw.
    rewrite assert_heads_passes by (try exact Hnh; now apply Nat.Div0.mod_0_l).
    rewrite scale_of_small by lia. split; reflexivity.
  - intros sr ws Hpos Hmod Hnh Hw.
    unfold GlobalSubSampleAttnRPEContext.init, LocallyGroupedAttnRPEContext.init.
    rewrite Hws by exact Hw. rewrite assert_heads_passes by assumption.
    rewrite scale_of_ok by (try exact Hnh; now apply multiple_ge).
    split; reflexivity.
  - intros cfg [Hlt| ->]; unfold VerticalSelfAttentionLayer.init.
    + now rewrite scale_of_small.
    + reflexivity.
  - intros cfg Hnh Hle Hmod. unfold VerticalSelfAttentionLayer.init.
    rewrite scale_of_ok by assumption. cbn [bind].
    unfold Block.init. cbn [Nat.eqb]. unfold LocallyGroupedAttnRPEContext.init.
    cbn [py_assert negb Nat.eqb bind].
    now rewrite assert_heads_fails by assumption.
Qed.

Lemma attention_init_cases_witness :
  LocallyGroupedAttnRPEContext.init 64 0 7 4 = Raise ZeroDivisionError /\
  GlobalSubSampleAttnRPEContext.init 100 8 4 4
  = Raise (AssertionError "dim 100 should be divided by num_heads 8.") /\
  GlobalSubSampleAttnRPEContext.init 0 8 4 4 = Raise ZeroDivisionError /\
  GlobalSubSampleAttnRPEContext.init 64 8 1 4
  = Ok (GlobalSubSampleAttnRPEContext.mk 64 8 4 1 false) /\
  VerticalSelfAttentionLayer.init 4 sample_cfg 8 = Raise ZeroDivisionError /\
  VerticalSelfAttentionLayer.init 100 sample_cfg 8
  = Raise (AssertionError "dim 100 should be divided by num_heads 8.").
Proof.
  destruct (attention_init_cases 64 0 4) as (H1 & _).
  destruct (attention_init_cases 100 8 4) as (_ & H2 & _ & _ & _ & H6).
  destruct (attention_init_cases 0 8 4) as (_ & _ & H3 & _).
  destruct (attention_init_cases 64 8 4) as (_ & _ & _ & H4 & _).
  destruct (attention_init_cases 4 8 4) as (_ & _ & _ & _ & H5 & _).
  split; [|split; [|split; [|split; [|split]]]].
  - apply (H1 4 7); [reflexivity | discriminate].
  - apply (H2 4 7); discriminate.
  - apply (H3 4 7); [discriminate | reflexivity | discriminate].
  - apply (H4 1 7); [lia | reflexivity | discriminate | discriminate].
  - apply (H5 sample_cfg). left. lia.
  - apply (H6 sample_cfg); [discriminate | lia | discriminate].
Defined.

(** X19.  [CostPerceiverEncoder.__init__] checks one thing: that the latent width
    [cost_latent_dim] is a positive multiple of the 8 attention heads.  It
    then builds [encoder_depth] copies of each layer; the head count of the
    cost volume, the patch width, the token count and [vert_c_dim] are stored
    unchecked. *)
Theorem CostPerceiverEncoder_init_cases (cfg : config) :
  (cost_latent_dim cfg mod 8 <> 0 ->
     CostPerceiverEncoder.init cfg
     = Raise (AssertionError (heads_message (cost_latent_dim cfg) 8))) /\
  (cost_latent_dim cfg = 0 ->
     CostPerceiverEncoder.init cfg = Raise ZeroDivisionError) /\
  (0 < cost_latent_dim cfg -> cost_latent_dim cfg mod 8 = 0 ->
     CostPerceiverEncoder.init cfg
     = Ok (CostPerceiverEncoder.mk cfg 8
             (PatchEmbed.init (cost_heads_num cfg) (cost_latent_input_dim cfg))
             (encoder_depth cfg)
             [1; cost_latent_token_num cfg; cost_latent_dim cfg]
             (CrossAttentionLayer.mk (cost_latent_dim cfg) (cost_latent_dim cfg)
                (cost_latent_dim cfg) (cost_latent_input_dim cfg * 2) 8)
             (repeat (SelfAttentionLayer.mk (cost_latent_dim cfg) 8) (encoder_depth cfg))
             (repeat
                (VerticalSelfAttentionLayer.mk
                   (Block.mk (cost_latent_dim cfg)
                      (Block.Local
                         (LocallyGroupedAttnRPEContext.mk (cost_latent_dim cfg) 8
                            (vert_c_dim cfg) 7))
                      (cost_latent_dim cfg * 4))
                   (Block.mk (cost_latent_dim cfg)
                      (Block.Global
                         (GlobalSubSampleAttnRPEContext.mk (cost_latent_dim cfg) 8
                            (vert_c_dim cfg) 4 true))
                      (cost_latent_dim cfg * 4)))
                (encoder_depth cfg)))).
Proof.
  split; [|split].
  - intros Hmod. unfold CostPerceiverEncoder.init, CrossAttentionLayer.init.
    now rewrite assert_heads_fails by (try exact Hmod; lia).
  - intros Hz. unfold CostPerceiverEncoder.init, CrossAttentionLayer.init.
    rewrite Hz. reflexivity.
  - intros Hpos Hmod.
    assert (Hle : 8 <= cost_latent_dim cfg) by (now apply multiple_ge).
    unfold CostPerceiverEncoder.init, CrossAttentionLayer.init.
    rewrite !assert_heads_passes by (try exact Hmod; lia). cbn [bind].
    rewrite scale_of_ok by lia. cbn [bind].
    unfold SelfAttentionLayer.init.
    rewrite assert_heads_passes by (try exact Hmod; lia). cbn [bind].
    rewrite scale_of_ok by lia. cbn [bind].
    rewrite build_ok. cbn [bind].
    unfold VerticalSelfAttentionLayer.init.
    rewrite scale_of_ok by lia. cbn [bind].
    unfold Block.init, LocallyGroupedAttnRPEContext.init,
      GlobalSubSampleAttnRPEContext.init.
    cbn [Nat.eqb py_assert negb bind].
    rewrite !assert_heads_passes by (try exact Hmod; lia). cbn [bind].
    rewrite !scale_of_ok by lia. cbn [bind fmap Nat.ltb Nat.leb].
    rewrite build_ok. reflexivity.
Qed.

Lemma CostPerceiverEncoder_init_cases_witness :
  CostPerceiverEncoder.init (mk_config 1 2 12 4 1 4 256)
  = Raise (AssertionError "dim 12 should be divided by num_heads 8.") /\
  CostPerceiverEncoder.init (mk_config 1 2 0 4 1 4 256) = Raise ZeroDivisionError /\
  CostPerceiverEncoder.init sample_cfg = Ok ChainSamples.sample_perceiver.
Proof.
  destruct (CostPerceiverEncoder_init_cases (mk_config 1 2 12 4 1 4 256)) as (H1 & _).
  destruct (CostPerceiverEncoder_init_cases (mk_config 1 2 0 4 1 4 256)) as (_ & H2 & _).
  destruct (CostPerceiverEncoder_init_cases sample_cfg) as (_ & _ & H3).
  split; [|split].
  - apply H1. discriminate.
  - apply H2. reflexivity.
  - apply H3; [cbn; lia | reflexivity].
Defined.

(** X20.  The token grid of [PatchEmbed.forward], computed before it calls
    [coords_grid], for a tokenizer each of whose convolutions has a channel
    ([in_chans > 0], [embed_dim >= 4]): the map is padded on the right and at
    the bottom by less than a patch, and the three strided convolutions bring
    it to [ceil(H / 8)] by [ceil(W / 8)] positions with [embed_dim]
    channels. *)
Theorem PatchEmbed_grid_is_ceiling (in_chans embed_dim B H W : nat) :
  0 < in_chans -> 4 <= embed_dim -> 0 < H -> 0 < W ->
  exists pad_r pad_b,
    pad_to 8 W = Ok pad_r /\ pad_to 8 H = Ok pad_b /\ pad_r < 8 /\ pad_b < 8 /\
    (x <- F_pad [(0, pad_r); (0, pad_b)] [B; in_chans; H; W] ;;
     PatchEmbed.proj (PatchEmbed.init in_chans embed_dim) x)
    = Ok [B; embed_dim; (H + 7) / 8; (W + 7) / 8].
Proof.
  intros Hin Hdim HH HW.
  assert (Hceil : forall n, 0 < n ->
            (8 - n mod 8) mod 8 < 8 /\
            n + (8 - n mod 8) mod 8 = 8 * ((n + 7) / 8) /\ 0 < (n + 7) / 8).
  { intros n Hn.
    pose proof (Nat.div_mod_eq n 8). pose proof (Nat.mod_upper_bound n 8 ltac:(lia)).
    pose proof (Nat.div_mod_eq (n + 7) 8).
    pose proof (Nat.mod_upper_bound (n + 7) 8 ltac:(lia)).
    pose proof (Nat.div_mod_eq (8 - n mod 8) 8).
    pose proof (Nat.mod_upper_bound (8 - n mod 8) 8 ltac:(lia)).
    lia. }
  destruct (Hceil H HH) as (Hb & EH & PH). destruct (Hceil W HW) as (Hr & EW & PW).
  exists ((8 - W mod 8) mod 8), ((8 - H mod 8) mod 8).
  rewrite !pad_to_ok by lia. repeat (split; [reflexivity || assumption|]).
  rewrite F_pad_last2. cbn [bind]. rewrite EH, EW.
  now apply proj_grid.
Qed.

Lemma PatchEmbed_grid_is_ceiling_witness :
  exists pad_r pad_b,
    pad_to 8 13 = Ok pad_r /\ pad_to 8 20 = Ok pad_b /\ pad_r < 8 /\ pad_b < 8 /\
    (x <- F_pad [(0, pad_r); (0, pad_b)] [5; 1; 20; 13] ;;
     PatchEmbed.proj (PatchEmbed.init 1 64) x)
    = Ok [5; 64; (20 + 7) / 8; (13 + 7) / 8].
Proof. apply (PatchEmbed_grid_is_ceiling 1 64 5 20 13); lia. Defined.

Section Absent.

Variable MultiHeadAttention : shp -> shp -> shp -> result shp.

(** X21.  [SelfAttentionLayer.forward] keeps the shape of its tokens when the
    attention of core/attention.py returns one vector of the same width per
    query; tokens of another width are refused by the first normalisation,
    before the attention is called. *)
Theorem SelfAttentionLayer_forward_shape (self : SelfAttentionLayer.t) (n T : nat) :
  MultiHeadAttention [n; T; SelfAttentionLayer.dim self]
    [n; T; SelfAttentionLayer.dim self] [n; T; SelfAttentionLayer.dim self]
  = Ok [n; T; SelfAttentionLayer.dim self] ->
  SelfAttentionLayer.forward MultiHeadAttention self [n; T; SelfAttentionLayer.dim self]
  = Ok [n; T; SelfAttentionLayer.dim self] /\
  (forall x, last x 0 <> SelfAttentionLayer.dim self ->
     exists msg,
       SelfAttentionLayer.forward MultiHeadAttention self x = Raise (RuntimeError msg)).
Proof.
  intros Hattn. set (d := SelfAttentionLayer.dim self) in *.
  assert (Hlin : linear d d [n; T; d] = Ok [n; T; d]).
  { rewrite linear_ok by (try discriminate; reflexivity). reflexivity. }
  assert (Hnorm : layer_norm d [n; T; d] = Ok [n; T; d]).
  { rewrite layer_norm_ok by (try discriminate; reflexivity). reflexivity. }
  split.
  - unfold SelfAttentionLayer.forward, SelfAttentionLayer.ffn. fold d.
    repeat (rewrite ?Hnorm, ?Hlin, ?Hattn, ?add_same; cbn [bind]).
    reflexivity.
  - intros x Hlast. unfold SelfAttentionLayer.forward. fold d.
    unfold layer_norm. destruct x as [|a x]; [eexists; reflexivity|].
    destruct (last (a :: x) 0 =? d) eqn:E; [apply Nat.eqb_eq in E; contradiction|].
    eexists; reflexivity.
Qed.

End Absent.

Lemma SelfAttentionLayer_forward_shape_witness :
  SelfAttentionLayer.forward Attention.MultiHeadAttention (SelfAttentionLayer.mk 8 8)
    [2; 3; 8]
  = Ok [2; 3; 8] /\
  (forall x, last x 0 <> 8 ->
     exists msg,
       SelfAttentionLayer.forward Attention.MultiHeadAttention (SelfAttentionLayer.mk 8 8) x
       = Raise (RuntimeError msg)).
Proof.
  apply (SelfAttentionLayer_forward_shape Attention.MultiHeadAttention
           (SelfAttentionLayer.mk 8 8) 2 3).
  reflexivity.
Defined.

End LayerFacts.
